(** * LIVIA: session store, history log and client polling core

    A shallow embedding of

      - the Express backend [livia-backend/server.js] (session table,
        history log, POST / PUT / DELETE / GET handlers),
      - the Electron tray client (second document of
        [livia-app/src/auto-launch.js]: [isPlaceholder], the song
        identity of [startMainLoop], [setDiscordPresence]),
      - the Windows tray client (the C# program that follows the batch
        script in [build.bat]: [IsPlaceholderText], [GetValidDuration],
        the presence timer of [MainLoop]),

    together with the properties of the specification that concern
    them.

    Conventions.
      - Wall-clock readings ([Date.now()], [DateTime.UtcNow]) are
        integers in milliseconds and are passed to each handler as
        [now]; one handler invocation sees one reading.
      - Request bodies are instances of the schema of the HTTP surface:
        a field holds what the handler's destructuring reads, [None]
        for [undefined]; strings are [string], whole seconds are [Z],
        flags are [bool].  The catalogue fields ([genre] to
        [artistImage]), which the clients send as [null] until the
        album service has answered, have a second level: [Some None] is
        [null].  In the session and history records [None] stands for
        [null].
      - Strings are sequences of 8-bit code units; case folding acts on
        the ASCII letters and the white space removed by [trim] is the
        ASCII white space (TAB, LF, VT, FF, CR, SPACE).  On ASCII texts
        this is what [toLowerCase], [ToLower], [trim] and [length] do.
      - The [sessions] object is a plain object: its own keys are a
        finite map, and a read [sessions[id]] that finds no own key
        still finds the members that every object inherits from
        [Object.prototype]. *)

From Stdlib Require Import ZArith String Ascii List Bool Lia.
From stdpp Require Import gmap strings list.

Local Open Scope Z_scope.
Local Open Scope string_scope.

(** ** String primitives shared by the three programs *)

Module Str.

Definition is_upper (c : ascii) : bool :=
  let n := nat_of_ascii c in (Nat.leb 65 n && Nat.leb n 90)%bool.

(** [toLowerCase] / [ToLower] on one code unit: an ASCII capital is
    folded, every other unit is kept. *)
Definition lower_char (c : ascii) : ascii :=
  if is_upper c then ascii_of_nat (nat_of_ascii c + 32) else c.

Fixpoint toLowerCase (s : string) : string :=
  match s with
  | EmptyString => EmptyString
  | String c r => String (lower_char c) (toLowerCase r)
  end.

Definition is_space (c : ascii) : bool :=
  let n := nat_of_ascii c in
  (Nat.leb 9 n && Nat.leb n 13 || Nat.eqb n 32)%bool.

Fixpoint trimStart (s : string) : string :=
  match s with
  | EmptyString => EmptyString
  | String c r => if is_space c then trimStart r else s
  end.

(** Removes trailing white space: the result of the recursive call is
    empty exactly when the rest of the string is all white space. *)
Fixpoint trimEnd (s : string) : string :=
  match s with
  | EmptyString => EmptyString
  | String c r =>
      match trimEnd r with
      | EmptyString => if is_space c then EmptyString else String c EmptyString
      | r' => String c r'
      end
  end.

Definition trim (s : string) : string := trimEnd (trimStart s).

Definition startsWith (s p : string) : bool := String.prefix p s.

Definition len (s : string) : Z := Z.of_nat (String.length s).

(** [s.Contains(sub)] / [s.includes(sub)]. *)
Fixpoint includes (s sub : string) : bool :=
  if String.prefix sub s then true
  else match s with
       | EmptyString => false
       | String _ r => includes r sub
       end.

(** Texts made of ASCII characters only. *)
Fixpoint is_ascii (s : string) : bool :=
  match s with
  | EmptyString => true
  | String c r => (Nat.ltb (nat_of_ascii c) 128 && is_ascii r)%bool
  end.

(** [string.IsNullOrWhiteSpace] on a non-null string. *)
Fixpoint all_space (s : string) : bool :=
  match s with
  | EmptyString => true
  | String c r => (is_space c && all_space r)%bool
  end.

End Str.

(** ** JavaScript truthiness and [||] at the schema's types *)

Module Js.

Definition truthy_str (o : option string) : bool :=
  match o with Some s => negb (String.eqb s "") | None => false end.

Definition truthy_num (o : option Z) : bool :=
  match o with Some n => negb (Z.eqb n 0) | None => false end.

Definition truthy_bool (o : option bool) : bool :=
  match o with Some b => b | None => false end.

(** [a || b] where both operands may be nullish. *)
Definition or_str (a b : option string) : option string :=
  if truthy_str a then a else b.

Definition or_num (a b : option Z) : option Z :=
  if truthy_num a then a else b.

(** [a || d] with a literal default. *)
Definition str_or (a : option string) (d : string) : string :=
  match or_str a (Some d) with Some s => s | None => d end.

Definition num_or (a : option Z) (d : Z) : Z :=
  match or_num a (Some d) with Some n => n | None => d end.

Definition bool_or (a : option bool) (d : bool) : bool :=
  if truthy_bool a then true else d.

(** [a || null]: a falsy value collapses to [null]. *)
Definition str_or_null (a : option string) : option string := or_str a None.
Definition num_or_null (a : option Z) : option Z := or_num a None.

(** A field that may be absent ([None]) or [null] ([Some None]), read
    where only its truthiness matters. *)
Definition value {A : Type} (x : option (option A)) : option A :=
  match x with Some v => v | None => None end.

Inductive Error : Type :=
| ReferenceError (name : string).

(** Evaluation of an identifier reference: a name that no enclosing
    scope declares raises [ReferenceError]. *)
Definition resolve (scope : list string) (x : string) : option Error :=
  if existsb (String.eqb x) scope then None else Some (ReferenceError x).

End Js.

(** ** Backend: data model of [server.js] *)

Module User.

(** The four fields copied from the request's [user] object. *)
Record t : Type := mk {
  id : option string;
  username : option string;
  displayName : option string;
  avatarUrl : option string
}.

(** [user ? { id: user.id, ... } : null] *)
Definition copy (u : option t) : option t :=
  match u with
  | Some v => Some (mk (id v) (username v) (displayName v) (avatarUrl v))
  | None => None
  end.

End User.

Module Body.

(** JSON body of POST /session and PUT /session/:id. *)
Record t : Type := mk {
  app : option string;
  song : option string;
  artist : option string;
  album : option string;
  albumArt : option string;
  duration : option Z;
  position : option Z;
  playing : option bool;
  user : option User.t;
  genre : option (option string);
  year : option (option Z);
  label : option (option string);
  trackCount : option (option Z);
  albumDescription : option (option string);
  artistBio : option (option string);
  artistImage : option (option string)
}.

Definition empty : t :=
  mk None None None None None None None None None None None None None None None None.

End Body.

Module Session.

(** One value of the [sessions] table (server.js, lines 236-265). *)
Record t : Type := mk {
  app : string;
  albumArt : string;
  currentSong : option string;
  currentArtist : option string;
  album : option string;
  active : bool;
  playing : bool;
  songPosition : Z;
  songDuration : Z;
  lastPlayStart : option Z;
  totalPlayTime : Z;
  createdAt : Z;
  lastUpdated : Z;
  user : option User.t;
  genre : option string;
  year : option Z;
  label : option string;
  trackCount : option Z;
  albumDescription : option string;
  artistBio : option string;
  artistImage : option string
}.

(** Field assignments [session.f = v]. *)
Definition set_albumArt (v : string) (s : t) : t :=
  mk (app s) v (currentSong s) (currentArtist s) (album s) (active s) (playing s)
     (songPosition s) (songDuration s) (lastPlayStart s) (totalPlayTime s)
     (createdAt s) (lastUpdated s) (user s) (genre s) (year s) (label s)
     (trackCount s) (albumDescription s) (artistBio s) (artistImage s).

Definition set_currentSong (v : option string) (s : t) : t :=
  mk (app s) (albumArt s) v (currentArtist s) (album s) (active s) (playing s)
     (songPosition s) (songDuration s) (lastPlayStart s) (totalPlayTime s)
     (createdAt s) (lastUpdated s) (user s) (genre s) (year s) (label s)
     (trackCount s) (albumDescription s) (artistBio s) (artistImage s).

Definition set_currentArtist (v : option string) (s : t) : t :=
  mk (app s) (albumArt s) (currentSong s) v (album s) (active s) (playing s)
     (songPosition s) (songDuration s) (lastPlayStart s) (totalPlayTime s)
     (createdAt s) (lastUpdated s) (user s) (genre s) (year s) (label s)
     (trackCount s) (albumDescription s) (artistBio s) (artistImage s).

Definition set_album (v : option string) (s : t) : t :=
  mk (app s) (albumArt s) (currentSong s) (currentArtist s) v (active s) (playing s)
     (songPosition s) (songDuration s) (lastPlayStart s) (totalPlayTime s)
     (createdAt s) (lastUpdated s) (user s) (genre s) (year s) (label s)
     (trackCount s) (albumDescription s) (artistBio s) (artistImage s).

Definition set_active (v : bool) (s : t) : t :=
  mk (app s) (albumArt s) (currentSong s) (currentArtist s) (album s) v (playing s)
     (songPosition s) (songDuration s) (lastPlayStart s) (totalPlayTime s)
     (createdAt s) (lastUpdated s) (user s) (genre s) (year s) (label s)
     (trackCount s) (albumDescription s) (artistBio s) (artistImage s).

Definition set_playing (v : bool) (s : t) : t :=
  mk (app s) (albumArt s) (currentSong s) (currentArtist s) (album s) (active s) v
     (songPosition s) (songDuration s) (lastPlayStart s) (totalPlayTime s)
     (createdAt s) (lastUpdated s) (user s) (genre s) (year s) (label s)
     (trackCount s) (albumDescription s) (artistBio s) (artistImage s).

Definition set_songPosition (v : Z) (s : t) : t :=
  mk (app s) (albumArt s) (currentSong s) (currentArtist s) (album s) (active s) (playing s)
     v (songDuration s) (lastPlayStart s) (totalPlayTime s)
     (createdAt s) (lastUpdated s) (user s) (genre s) (year s) (label s)
     (trackCount s) (albumDescription s) (artistBio s) (artistImage s).

Definition set_songDuration (v : Z) (s : t) : t :=
  mk (app s) (albumArt s) (currentSong s) (currentArtist s) (album s) (active s) (playing s)
     (songPosition s) v (lastPlayStart s) (totalPlayTime s)
     (createdAt s) (lastUpdated s) (user s) (genre s) (year s) (label s)
     (trackCount s) (albumDescription s) (artistBio s) (artistImage s).

Definition set_lastPlayStart (v : option Z) (s : t) : t :=
  mk (app s) (albumArt s) (currentSong s) (currentArtist s) (album s) (active s) (playing s)
     (songPosition s) (songDuration s) v (totalPlayTime s)
     (createdAt s) (lastUpdated s) (user s) (genre s) (year s) (label s)
     (trackCount s) (albumDescription s) (artistBio s) (artistImage s).

Definition set_totalPlayTime (v : Z) (s : t) : t :=
  mk (app s) (albumArt s) (currentSong s) (currentArtist s) (album s) (active s) (playing s)
     (songPosition s) (songDuration s) (lastPlayStart s) v
     (createdAt s) (lastUpdated s) (user s) (genre s) (year s) (label s)
     (trackCount s) (albumDescription s) (artistBio s) (artistImage s).

Definition set_lastUpdated (v : Z) (s : t) : t :=
  mk (app s) (albumArt s) (currentSong s) (currentArtist s) (album s) (active s) (playing s)
     (songPosition s) (songDuration s) (lastPlayStart s) (totalPlayTime s)
     (createdAt s) v (user s) (genre s) (year s) (label s)
     (trackCount s) (albumDescription s) (artistBio s) (artistImage s).

Definition set_genre (v : option string) (s : t) : t :=
  mk (app s) (albumArt s) (currentSong s) (currentArtist s) (album s) (active s) (playing s)
     (songPosition s) (songDuration s) (lastPlayStart s) (totalPlayTime s)
     (createdAt s) (lastUpdated s) (user s) v (year s) (label s)
     (trackCount s) (albumDescription s) (artistBio s) (artistImage s).

Definition set_year (v : option Z) (s : t) : t :=
  mk (app s) (albumArt s) (currentSong s) (currentArtist s) (album s) (active s) (playing s)
     (songPosition s) (songDuration s) (lastPlayStart s) (totalPlayTime s)
     (createdAt s) (lastUpdated s) (user s) (genre s) v (label s)
     (trackCount s) (albumDescription s) (artistBio s) (artistImage s).

Definition set_label (v : option string) (s : t) : t :=
  mk (app s) (albumArt s) (currentSong s) (currentArtist s) (album s) (active s) (playing s)
     (songPosition s) (songDuration s) (lastPlayStart s) (totalPlayTime s)
     (createdAt s) (lastUpdated s) (user s) (genre s) (year s) v
     (trackCount s) (albumDescription s) (artistBio s) (artistImage s).

Definition set_trackCount (v : option Z) (s : t) : t :=
  mk (app s) (albumArt s) (currentSong s) (currentArtist s) (album s) (active s) (playing s)
     (songPosition s) (songDuration s) (lastPlayStart s) (totalPlayTime s)
     (createdAt s) (lastUpdated s) (user s) (genre s) (year s) (label s)
     v (albumDescription s) (artistBio s) (artistImage s).

Definition set_albumDescription (v : option string) (s : t) : t :=
  mk (app s) (albumArt s) (currentSong s) (currentArtist s) (album s) (active s) (playing s)
     (songPosition s) (songDuration s) (lastPlayStart s) (totalPlayTime s)
     (createdAt s) (lastUpdated s) (user s) (genre s) (year s) (label s)
     (trackCount s) v (artistBio s) (artistImage s).

Definition set_artistBio (v : option string) (s : t) : t :=
  mk (app s) (albumArt s) (currentSong s) (currentArtist s) (album s) (active s) (playing s)
     (songPosition s) (songDuration s) (lastPlayStart s) (totalPlayTime s)
     (createdAt s) (lastUpdated s) (user s) (genre s) (year s) (label s)
     (trackCount s) (albumDescription s) v (artistImage s).

Definition set_artistImage (v : option string) (s : t) : t :=
  mk (app s) (albumArt s) (currentSong s) (currentArtist s) (album s) (active s) (playing s)
     (songPosition s) (songDuration s) (lastPlayStart s) (totalPlayTime s)
     (createdAt s) (lastUpdated s) (user s) (genre s) (year s) (label s)
     (trackCount s) (albumDescription s) (artistBio s) v.

(** [if (x !== undefined) session.f = x] *)
Definition assign_if_defined {A : Type} (x : option A) (set : A -> t -> t) (s : t) : t :=
  match x with Some v => set v s | None => s end.

End Session.

Module Track.

(** Argument object of [addToHistory]. *)
Record t : Type := mk {
  song : option string;
  artist : option string;
  album : option string;
  albumArt : option string;
  app : option string;
  duration : option Z;
  user : option User.t;
  genre : option string;
  year : option Z;
  label : option string;
  artistImage : option string
}.

End Track.

Module Entry.

(** One element of the [history] array (server.js, lines 60-82). *)
Record t : Type := mk {
  id : string;
  song : string;
  artist : string;
  album : string;
  albumArt : string;
  app : string;
  duration : Z;
  playedAt : Z;
  playCount : Z;
  user : option User.t;
  genre : option string;
  year : option Z;
  label : option string;
  artistImage : option string
}.

End Entry.

Module View.

(** JSON body of GET /session/:id: the session without its internal
    fields ([createdAt], [lastUpdated], [lastPlayStart], [totalPlayTime],
    [songPosition]) plus the values computed at read time. *)
Record t : Type := mk {
  app : string;
  albumArt : string;
  currentSong : option string;
  currentArtist : option string;
  album : option string;
  active : bool;
  playing : bool;
  songDuration : Z;
  user : option User.t;
  artistImage : option string;
  position : Z;
  duration : Z;
  totalPlayTime : Z;
  status : string;
  genre : option string;
  year : option Z;
  label : option string;
  trackCount : option Z;
  albumDescription : option string;
  artistBio : option string
}.

End View.

(** ** Backend: handlers of [server.js] *)

Module Server.

Import Js.

Definition MAX_HISTORY_ITEMS : nat := 50.

(** The two module-level mutable bindings. *)
Record State : Type := mkState {
  sessions : gmap string Session.t;
  history : list Entry.t
}.

Inductive Payload : Type :=
| PError (error : string)
| PCreated (sessionId url : string)
| PUpdated (sessionId : string)
| PEnded
| PView (v : View.t)
| PMember.

(** [PMember] is the body that GET builds from an inherited member of
    [Object.prototype]: the status "stopped" and the six catalogue
    fields as [null], and [active] and [playing] as [false] once a
    DELETE has named the member; [position], [duration] and
    [totalPlayTime] are [undefined] and are left out of the JSON text.

    What a handler does with the request: it answers with a status and a
    JSON body, or it throws. *)
Inductive Reply : Type :=
| Json (status : Z) (p : Payload)
| Uncaught (e : Js.Error).

(** Status line seen by the client; Express answers an exception that
    escapes a handler with 500. *)
Definition status_of (r : Reply) : Z :=
  match r with
  | Json st _ => st
  | Uncaught _ => 500
  end.

(** The members that the plain object [sessions] (line 10) inherits
    from [Object.prototype].  Each is a function, or the prototype
    object itself for [__proto__]: truthy, and without an [active]
    property of its own or inherited that is truthy. *)
Definition prototype_members : list string :=
  [ "constructor"; "__proto__"; "hasOwnProperty"; "isPrototypeOf";
    "propertyIsEnumerable"; "toLocaleString"; "toString"; "valueOf";
    "__defineGetter__"; "__defineSetter__"; "__lookupGetter__";
    "__lookupSetter__" ].

(** [id] names a member that a read [sessions[id]] finds up the
    prototype chain when [sessions] has no own key [id]. *)
Definition inherited (id : string) : bool := existsb (String.eqb id) prototype_members.

(** [ensureHttps] (lines 13-16): [url.replace(/^http:\/\//, 'https://')]. *)
Definition ensureHttps (url : option string) : option string :=
  match url with
  | None => None
  | Some u =>
      if negb (truthy_str (Some u)) then Some u
      else if Str.startsWith u "http://"
           then Some ("https://" ++ String.substring 7 (String.length u - 7) u)
           else Some u
  end.

(** The history key of line 54. *)
Definition trackId (song artist : string) : string :=
  Str.toLowerCase song ++ "-" ++ Str.toLowerCase artist.

Definition has_id (i : string) (e : Entry.t) : bool := String.eqb (Entry.id e) i.

(** [addToHistory] (lines 49-91).  The array is first filtered, then the
    new element is built (its [playCount] looks the key up in the array
    as it is at that moment), put in front, and the array is cut to
    [MAX_HISTORY_ITEMS]. *)
Definition addToHistory (now : Z) (t : Track.t) (history : list Entry.t) : list Entry.t :=
  match Track.song t, Track.artist t with
  | Some song, Some artist =>
      if (negb (truthy_str (Some song)) || negb (truthy_str (Some artist)))%bool
      then history
      else
        let tid := trackId song artist in
        let history1 := List.filter (fun e => negb (has_id tid e)) history in
        let entry :=
          Entry.mk tid song artist
            (str_or (Track.album t) "")
            (str_or (ensureHttps (Track.albumArt t)) "")
            (str_or (Track.app t) "Unknown")
            (num_or (Track.duration t) 0)
            now
            (num_or (option_map Entry.playCount (List.find (has_id tid) history1)) 0 + 1)
            (User.copy (Track.user t))
            (str_or_null (Track.genre t))
            (num_or_null (Track.year t))
            (str_or_null (Track.label t))
            (str_or_null (ensureHttps (Track.artistImage t))) in
        firstn MAX_HISTORY_ITEMS (entry :: history1)
  | _, _ => history
  end.

(** Names declared at module level in server.js. *)
Definition module_scope : list string :=
  [ "express"; "cors"; "fs"; "path"; "app"; "sessions"; "ensureHttps";
    "DATA_DIR"; "HISTORY_FILE"; "MAX_HISTORY_ITEMS"; "history";
    "saveHistory"; "addToHistory"; "updateSongPosition"; "PORT" ].

(** Names of the host environment that the file uses. *)
Definition global_scope : list string :=
  [ "require"; "__dirname"; "console"; "process"; "Math"; "Date"; "JSON";
    "Object"; "parseInt"; "setInterval"; "undefined" ].

(** Names bound by the destructuring pattern of the POST handler
    (lines 209-226). *)
Definition post_pattern : list string :=
  [ "app"; "song"; "artist"; "album"; "albumArt"; "duration"; "position";
    "playing"; "user"; "genre"; "year"; "label"; "trackCount";
    "albumDescription"; "artistBio" ].

(** Scope chain inside the POST handler. *)
Definition post_scope : list string :=
  [ "req"; "res"; "id" ] ++ post_pattern ++ module_scope ++ global_scope.

(** POST /session (lines 205-284).  [id] is the value of
    [Math.random().toString(36).slice(2, 10)].  The object literal of
    lines 236-265 is evaluated before the assignment to [sessions[id]];
    its last property reads the identifier [artistImage].  Were that
    name bound, it would hold the body's field of that name. *)
Definition post_session (now : Z) (id : string) (b : Body.t) (st : State) : Reply * State :=
  match Body.app b with
  | None => (Json 400 (PError "Missing required field: app"), st)
  | Some app =>
      if negb (truthy_str (Some app))
      then (Json 400 (PError "Missing required field: app"), st)
      else
        match resolve post_scope "artistImage" with
        | Some e => (Uncaught e, st)
        | None =>
            let artistImage := value (Body.artistImage b) in
            let session :=
              Session.mk app
                (str_or (ensureHttps (Body.albumArt b)) "")
                (str_or_null (Body.song b))
                (str_or_null (Body.artist b))
                (str_or_null (Body.album b))
                true
                (bool_or (Body.playing b) false)
                (num_or (Body.position b) 0)
                (num_or (Body.duration b) 0)
                (if truthy_bool (Body.playing b) then Some now else None)
                0 now now
                (User.copy (Body.user b))
                (str_or_null (value (Body.genre b)))
                (num_or_null (value (Body.year b)))
                (str_or_null (value (Body.label b)))
                (num_or_null (value (Body.trackCount b)))
                (str_or_null (value (Body.albumDescription b)))
                (str_or_null (value (Body.artistBio b)))
                (str_or_null (ensureHttps artistImage)) in
            let history' :=
              if truthy_str (Body.song b)
              then addToHistory now
                     (Track.mk (Body.song b) (Body.artist b) (Body.album b)
                        (Body.albumArt b) (Some app) (Body.duration b)
                        (Body.user b) (value (Body.genre b)) (value (Body.year b))
                        (value (Body.label b)) artistImage)
                     (history st)
              else history st in
            (Json 200 (PCreated id ("/s/" ++ id)),
             mkState (<[id := session]> (sessions st)) history')
        end
  end.

(** Seconds between [lastPlayStart] and [now]:
    [Math.floor((Date.now() - session.lastPlayStart) / 1000)]. *)
Definition elapsed_since (now start : Z) : Z := (now - start) / 1000.

(** The guard [session.playing && session.lastPlayStart]: yields the
    anchor when the session is playing and the anchor is truthy. *)
Definition running_since (s : Session.t) : option Z :=
  if (Session.playing s && truthy_num (Session.lastPlayStart s))%bool
  then Session.lastPlayStart s else None.

(** [updateSongPosition] (lines 287-294). *)
Definition updateSongPosition (now : Z) (s : Session.t) : Session.t :=
  match running_since s with
  | Some start =>
      let elapsed := elapsed_since now start in
      Session.set_lastPlayStart (Some now)
        (Session.set_totalPlayTime (Session.totalPlayTime s + elapsed)
           (Session.set_songPosition (Session.songPosition s + elapsed) s))
  | None => s
  end.

(** [song !== undefined && song !== session.currentSong] (line 315). *)
Definition songChanged (b : Body.t) (s : Session.t) : bool :=
  match Body.song b with
  | None => false
  | Some song =>
      match Session.currentSong s with
      | Some cur => negb (String.eqb song cur)
      | None => true
      end
  end.

(** [playing ? Date.now() : null] *)
Definition anchor (now : Z) (playing : option bool) : option Z :=
  if truthy_bool playing then Some now else None.

(** Lines 317-325: an explicit position is authoritative, otherwise the
    elapsed time is flushed unless the song is changing. *)
Definition put_position (now : Z) (b : Body.t) (changed : bool) (s : Session.t) : Session.t :=
  match Body.position b with
  | Some position =>
      Session.set_lastPlayStart (anchor now (Body.playing b))
        (Session.set_songPosition position s)
  | None => if negb changed then updateSongPosition now s else s
  end.

(** The argument of the [addToHistory] call of lines 339-351. *)
Definition put_track (song : string) (b : Body.t) (s : Session.t) : Track.t :=
  Track.mk (Some song)
    (or_str (Body.artist b) (Session.currentArtist s))
    (or_str (Body.album b) (Session.album s))
    (or_str (Body.albumArt b) (Some (Session.albumArt s)))
    (Some (Session.app s))
    (or_num (Body.duration b) (Some (Session.songDuration s)))
    (Session.user s)
    (or_str (value (Body.genre b)) (Session.genre s))
    (or_num (value (Body.year b)) (Session.year s))
    (or_str (value (Body.label b)) (Session.label s))
    (or_str (value (Body.artistImage b)) (Session.artistImage s)).

(** Lines 327-352: the song-change block. *)
Definition put_song_change (now : Z) (b : Body.t) (changed : bool)
    (s : Session.t) (h : list Entry.t) : Session.t * list Entry.t :=
  match Body.song b with
  | Some song =>
      if changed then
        let s1 := match Body.position b with
                  | None => Session.set_songPosition 0 s
                  | Some _ => s
                  end in
        let s2 := Session.set_lastPlayStart (anchor now (Body.playing b)) s1 in
        (s2, addToHistory now (put_track song b s2) h)
      else (s, h)
  | None => (s, h)
  end.

(** Lines 354-368: partial update of the descriptive fields. *)
Definition put_info (b : Body.t) (s : Session.t) : Session.t :=
  let s := Session.assign_if_defined (Body.song b) (fun v => Session.set_currentSong (Some v)) s in
  let s := Session.assign_if_defined (Body.artist b) (fun v => Session.set_currentArtist (Some v)) s in
  let s := Session.assign_if_defined (Body.album b) (fun v => Session.set_album (Some v)) s in
  let s := Session.assign_if_defined (Body.albumArt b) Session.set_albumArt s in
  let s := Session.assign_if_defined (Body.duration b) Session.set_songDuration s in
  let s := Session.assign_if_defined (Body.genre b) Session.set_genre s in
  let s := Session.assign_if_defined (Body.year b) Session.set_year s in
  let s := Session.assign_if_defined (Body.label b) Session.set_label s in
  let s := Session.assign_if_defined (Body.trackCount b) Session.set_trackCount s in
  let s := Session.assign_if_defined (Body.albumDescription b) Session.set_albumDescription s in
  let s := Session.assign_if_defined (Body.artistBio b) Session.set_artistBio s in
  Session.assign_if_defined (Body.artistImage b)
    (fun v => Session.set_artistImage (str_or_null (ensureHttps v))) s.

(** Lines 370-383: the play / pause block, skipped on a song change. *)
Definition put_playing (now : Z) (b : Body.t) (changed : bool) (s : Session.t) : Session.t :=
  match Body.playing b with
  | Some playing =>
      if negb changed then
        let s1 :=
          if (playing && negb (Session.playing s))%bool
          then Session.set_lastPlayStart (Some now) s
          else if (negb playing && Session.playing s)%bool
               then Session.set_lastPlayStart None (updateSongPosition now s)
               else s in
        Session.set_playing playing s1
      else s
  | None => s
  end.

(** The mutation a PUT applies to an active session, and the history it
    leaves. *)
Definition put_active (now : Z) (b : Body.t) (session : Session.t) (h : list Entry.t)
  : Session.t * list Entry.t :=
  let changed := songChanged b session in
  let s1 := put_position now b changed session in
  let '(s2, h2) := put_song_change now b changed s1 h in
  let s3 := put_info b s2 in
  let s4 := put_playing now b changed s3 in
  (Session.set_lastUpdated now s4, h2).

(** PUT /session/:id (lines 297-388).  For an inherited member the
    test [!session] fails and [!session.active] holds. *)
Definition put_session (now : Z) (id : string) (b : Body.t) (st : State) : Reply * State :=
  match sessions st !! id with
  | None =>
      if inherited id then (Json 410 (PError "Session has ended"), st)
      else (Json 404 (PError "Session not found"), st)
  | Some session =>
      if negb (Session.active session)
      then (Json 410 (PError "Session has ended"), st)
      else
        let '(s, h) := put_active now b session (history st) in
        (Json 200 (PUpdated id), mkState (<[id := s]> (sessions st)) h)
  end.

(** DELETE /session/:id (lines 391-410).  For an inherited member the
    three assignments land on that member, outside the table and the
    history; the answer is 200. *)
Definition delete_session (now : Z) (id : string) (st : State) : Reply * State :=
  match sessions st !! id with
  | None =>
      if inherited id then (Json 200 PEnded, st)
      else (Json 404 (PError "Session not found"), st)
  | Some session =>
      let s :=
        Session.set_lastPlayStart None
          (Session.set_playing false
             (Session.set_active false (updateSongPosition now session))) in
      (Json 200 PEnded, mkState (<[id := s]> (sessions st)) (history st))
  end.

(** Lines 420-430: the position reported by a read. *)
Definition currentPosition (now : Z) (s : Session.t) : Z :=
  let p := match running_since s with
           | Some start => Session.songPosition s + elapsed_since now start
           | None => Session.songPosition s
           end in
  if Z.ltb 0 (Session.songDuration s) then Z.min p (Session.songDuration s) else p.

(** Lines 432-436. *)
Definition totalDuration (now : Z) (s : Session.t) : Z :=
  match running_since s with
  | Some start => Session.totalPlayTime s + elapsed_since now start
  | None => Session.totalPlayTime s
  end.

Definition status (s : Session.t) : string :=
  if Session.active s then (if Session.playing s then "playing" else "paused")
  else "stopped".

Definition view (now : Z) (s : Session.t) : View.t :=
  View.mk (Session.app s) (Session.albumArt s) (Session.currentSong s)
    (Session.currentArtist s) (Session.album s) (Session.active s)
    (Session.playing s) (Session.songDuration s) (Session.user s)
    (Session.artistImage s)
    (currentPosition now s) (Session.songDuration s) (totalDuration now s)
    (status s)
    (str_or_null (Session.genre s)) (num_or_null (Session.year s))
    (str_or_null (Session.label s)) (num_or_null (Session.trackCount s))
    (str_or_null (Session.albumDescription s)) (str_or_null (Session.artistBio s)).

(** GET /session/:id (lines 413-454). *)
Definition get_session (now : Z) (id : string) (st : State) : Reply :=
  match sessions st !! id with
  | None =>
      if inherited id then Json 200 PMember
      else Json 404 (PError "INVALID SESSION")
  | Some session => Json 200 (PView (view now session))
  end.

(** The [position] member of a reply, when it carries a session view. *)
Definition reported_position (r : Reply) : option Z :=
  match r with
  | Json _ (PView v) => Some (View.position v)
  | _ => None
  end.

End Server.

(** ** Electron tray client (main process, second document of
       [livia-app/src/auto-launch.js]) *)

Module Electron.

Import Js.

(** [isPlaceholder] (lines 933-943); [text.length] is the number of
    code units. *)
Definition isPlaceholder (text : string) : bool :=
  if negb (truthy_str (Some text)) then true
  else
    let lower := Str.trim (Str.toLowerCase text) in
    (String.eqb lower "connecting..."
     || String.eqb lower "loading..."
     || String.eqb lower "buffering..."
     || String.eqb lower "unknown"
     || String.eqb lower "advertisement"
     || String.eqb lower "ad"
     || Z.ltb (Str.len text) 2)%bool.

(** What [mediaDetector.getCurrentMedia()] resolves to. *)
Record Media : Type := mkMedia {
  title : string;
  artist : string;
  state : string;
  position : Z;
  duration : Z
}.

(** Line 681: [`${media.title}|${media.artist}`]. *)
Definition songId (m : Media) : string := title m ++ "|" ++ artist m.

(** Line 682. *)
Definition isPlaying (m : Media) : bool := String.eqb (state m) "playing".

(** Module-level variables of the loop, and the activity the Discord
    client currently displays (start and optional end, in seconds). *)
Record Client : Type := mkClient {
  lastSongId : string;
  lastPlayingState : bool;
  currentSessionId : option string;
  activity : option (Z * option Z)
}.

(** Requests sent to the backend and notifications shown.  The payloads
    carry the title and artist of the snapshot; the cleaned names, the
    artwork and the catalogue metadata returned by the album-art service
    do not influence the control flow and are left out. *)
Inductive Call : Type :=
| CreateSession (song artist : string) (duration position : Z) (playing : bool)
| UpdateSession (id song artist : string) (duration position : Z) (playing : bool)
| EndSession (id : string)
| Notify (song : string).

(** Timestamps sent by [setDiscordPresence] (lines 874-876, 888-891). *)
Definition presence_timestamps (now : Z) (m : Media) : Z * option Z :=
  let startTimestamp :=
    if truthy_num (Some (position m)) then now - position m * 1000 else now in
  let endTimestamp :=
    if truthy_num (Some (duration m)) then Some (startTimestamp + duration m * 1000)
    else None in
  (startTimestamp / 1000,
   if truthy_num endTimestamp then option_map (fun e => e / 1000) endTimestamp else None).

(** State of the module-level [discordClient]: null, created but not
    yet logged in ([discordClient.user] unset), or ready. *)
Inductive Discord : Type := NoClient | NotReady | Ready.

(** [setDiscordPresence] (lines 870-906): returns at once unless
    [discordClient && discordClient.user]. *)
Definition setDiscordPresence (discord : Discord) (now : Z) (m : Media) (c : Client) : Client :=
  match discord with
  | Ready => mkClient (lastSongId c) (lastPlayingState c) (currentSessionId c)
               (Some (presence_timestamps now m))
  | _ => c
  end.

(** [clearDiscordPresence] (lines 908-916): returns at once when
    [discordClient] is null. *)
Definition clearDiscordPresence (discord : Discord) (c : Client) : Client :=
  match discord with
  | NoClient => c
  | _ => mkClient (lastSongId c) (lastPlayingState c) (currentSessionId c) None
  end.

Definition set_lastSongId (v : string) (c : Client) : Client :=
  mkClient v (lastPlayingState c) (currentSessionId c) (activity c).

Definition set_lastPlayingState (v : bool) (c : Client) : Client :=
  mkClient (lastSongId c) v (currentSessionId c) (activity c).

Definition set_currentSessionId (v : option string) (c : Client) : Client :=
  mkClient (lastSongId c) (lastPlayingState c) v (activity c).

(** The test of line 685. *)
Definition song_changed (m : Media) (c : Client) : bool :=
  negb (String.eqb (songId m) (lastSongId c)).

(** The session identifier when [currentSessionId] is truthy. *)
Definition session_id (c : Client) : option string :=
  if truthy_str (currentSessionId c) then currentSessionId c else None.

(** [updateSession] (lines 827-855). *)
Definition update_call (m : Media) (c : Client) : list Call :=
  match session_id c with
  | Some id => [UpdateSession id (title m) (artist m)
                  (num_or (Some (duration m)) 0) (num_or (Some (position m)) 0)
                  (isPlaying m)]
  | None => []
  end.

(** Lines 684-738: the song-change block.  [created] is the outcome of
    the POST issued by [createSession]. *)
Definition on_song_change (discord : Discord) (now : Z) (created : option string)
    (m : Media) (c : Client) : Client * list Call :=
  if song_changed m c then
    let c1 := set_lastSongId (songId m) c in
    let '(c2, calls) :=
      match session_id c1 with
      | None =>
          (set_currentSessionId created c1,
           [CreateSession (title m) (artist m) (num_or (Some (duration m)) 0)
              (num_or (Some (position m)) 0) (isPlaying m)])
      | Some _ => (c1, update_call m c1)
      end in
    let c3 := if isPlaying m then setDiscordPresence discord now m c2 else c2 in
    (c3, (calls ++ [Notify (title m)])%list)
  else (c, []).

(** Lines 740-757: the play / pause block. *)
Definition on_play_state (discord : Discord) (now : Z) (m : Media) (c : Client)
  : Client * list Call :=
  if negb (Bool.eqb (isPlaying m) (lastPlayingState c)) then
    let c1 := set_lastPlayingState (isPlaying m) c in
    let calls := update_call m c1 in
    let c2 := if isPlaying m then setDiscordPresence discord now m c1
              else clearDiscordPresence discord c1 in
    (c2, calls)
  else (c, []).

(** Lines 759-762: the heartbeat. *)
Definition heartbeat (m : Media) (c : Client) : list Call :=
  if (isPlaying m && String.eqb (songId m) (lastSongId c))%bool
  then update_call m c else [].

(** Lines 764-779: nothing is playing. *)
Definition on_stopped (discord : Discord) (c : Client) : Client * list Call :=
  if (truthy_str (currentSessionId c) || truthy_str (Some (lastSongId c)))%bool then
    let calls := match session_id c with
                 | Some id => [EndSession id]
                 | None => []
                 end in
    let c0 := match session_id c with
              | Some _ => set_currentSessionId None c
              | None => c
              end in
    let c1 := set_lastPlayingState false (set_lastSongId "" c0) in
    (clearDiscordPresence discord c1, calls)
  else (c, []).

(** One turn of the [while] loop of [startMainLoop] (lines 671-787). *)
Definition poll (discord : Discord) (now : Z) (created : option string)
    (media : option Media) (c : Client) : Client * list Call :=
  match media with
  | Some m =>
      if (truthy_str (Some (title m)) && negb (isPlaceholder (title m)))%bool then
        let '(c1, k1) := on_song_change discord now created m c in
        let '(c2, k2) := on_play_state discord now m c1 in
        (c2, (k1 ++ k2 ++ heartbeat m c2)%list)
      else on_stopped discord c
  | None => on_stopped discord c
  end.

End Electron.

(** ** Windows tray client (C# program, second document of [build.bat]) *)

Module Windows.

(** [string.IsNullOrWhiteSpace]. *)
Definition IsNullOrWhiteSpace (text : option string) : bool :=
  match text with
  | None => true
  | Some t => Str.all_space t
  end.

(** [IsPlaceholderText] (lines 133-154). *)
Definition IsPlaceholderText (text : option string) : bool :=
  match text with
  | None => true
  | Some t =>
      if IsNullOrWhiteSpace (Some t) then true
      else
        let lower := Str.trim (Str.toLowerCase t) in
        (String.eqb lower "connecting..."
         || String.eqb lower "connecting"
         || String.eqb lower "loading..."
         || String.eqb lower "loading"
         || String.eqb lower "buffering..."
         || String.eqb lower "buffering"
         || String.eqb lower "unknown"
         || String.eqb lower "unknown artist"
         || String.eqb lower "unknown title"
         || String.eqb lower "advertisement"
         || String.eqb lower "ad"
         || Str.startsWith lower "connecting to"
         || Str.startsWith lower "loading"
         || Z.ltb (Str.len t) 2)%bool
  end.

(** [AllowedApps] (lines 83-111). *)
Definition AllowedApps : list string :=
  [ "spotify"; "applemusic"; "apple music"; "zune"; "groove"; "vlc"; "foobar";
    "foobar2000"; "aimp"; "musicbee"; "winamp"; "itunes"; "amazonmusic";
    "amazon music"; "deezer"; "tidal"; "qobuz"; "plexamp"; "plex"; "audirvana";
    "roon"; "mediamonkey"; "dopamine"; "clementine"; "strawberry"; "audacious" ].

(** [IsAllowedMusicApp] (lines 122-128). *)
Definition IsAllowedMusicApp (appId : option string) : bool :=
  match appId with
  | None => false
  | Some a =>
      if Windows.IsNullOrWhiteSpace (Some a) then false
      else
        let appLower := Str.toLowerCase a in
        existsb (fun allowed => Str.includes appLower (Str.toLowerCase allowed)) AllowedApps
  end.

(** [GetFriendlyAppName] (lines 1382-1407). *)
Definition GetFriendlyAppName (appId : option string) : string :=
  match appId with
  | None => "Music"
  | Some a =>
      if Windows.IsNullOrWhiteSpace (Some a) then "Music"
      else
        let appId := Str.toLowerCase a in
        if Str.includes appId "spotify" then "Spotify"
        else if Str.includes appId "applemusic" then "Apple Music"
        else if Str.includes appId "youtube" then "YouTube Music"
        else if Str.includes appId "vlc" then "VLC Media Player"
        else if (Str.includes appId "groove" || Str.includes appId "zune")%bool then "Groove Music"
        else if Str.includes appId "windowsmedia" then "Windows Media Player"
        else if Str.includes appId "foobar" then "foobar2000"
        else if Str.includes appId "aimp" then "AIMP"
        else if Str.includes appId "itunes" then "iTunes"
        else if Str.includes appId "amazonmusic" then "Amazon Music"
        else if Str.includes appId "deezer" then "Deezer"
        else if Str.includes appId "tidal" then "TIDAL"
        else if Str.includes appId "qobuz" then "Qobuz"
        else if (Str.includes appId "plexamp" || Str.includes appId "plex")%bool then "Plex"
        else if Str.includes appId "musicbee" then "MusicBee"
        else if Str.includes appId "winamp" then "Winamp"
        else "Music Player"
  end.

(** Outcome of one duration resolution: the value returned, the value
    of the static [lastKnownDuration] afterwards, the pauses taken (ms)
    and the number of times the timeline was read again. *)
Record Resolved : Type := mkResolved {
  duration : Z;
  cache : Z;
  delays : list Z;
  rereads : nat
}.

(** The [for] loop of lines 823-836 followed by the fallback of lines
    838-847.  [reread k] is the duration (whole seconds) answered by the
    k-th call of [session.GetTimelineProperties()] inside the loop;
    [todo] counts the attempts that remain. *)
Fixpoint retry (reread : nat -> Z) (cache : Z) (todo attempt : nat) (slept : list Z)
  : Resolved :=
  match todo with
  | O => mkResolved (if Z.ltb 0 cache then cache else 0) cache slept attempt
  | S todo' =>
      let slept' := (slept ++ [100 * (Z.of_nat attempt + 1)])%list in
      let d := reread attempt in
      if Z.ltb 0 d then mkResolved d d slept' (S attempt)
      else retry reread cache todo' (S attempt) slept'
  end.

(** [GetValidDuration] (lines 806-848): [first] is
    [(int)timeline.EndTime.TotalSeconds] of the timeline handed in. *)
Definition GetValidDuration (lastKnownDuration first : Z) (reread : nat -> Z) : Resolved :=
  if Z.ltb 0 first then mkResolved first first [] 0
  else retry reread lastKnownDuration 3 0 [].

(** Resolution on a finite sequence of reads, the first being the
    timeline handed in; a read past the end of the sequence answers 0. *)
Definition resolve_reads (lastKnownDuration : Z) (reads : list Z) : Resolved :=
  GetValidDuration lastKnownDuration (List.nth 0 reads 0)
    (fun k => List.nth (S k) reads 0).

(** Answer of [GetTimelineProperties()], both spans in milliseconds. *)
Record Timeline : Type := mkTimeline {
  Position : Z;
  EndTime : Z
}.

(** [(int)span.TotalSeconds]: the cast truncates towards zero. *)
Definition TotalSeconds (span : Z) : Z := Z.quot span 1000.

(** The session selected by the scan of lines 456-489, with the media
    properties it reports during this turn; [timeline k] is the answer
    of the k-th [GetTimelineProperties()] call of the turn. *)
Record Active : Type := mkActive {
  appId : string;
  isPlaying : bool;
  Title : option string;
  Artist : option string;
  timeline : nat -> Timeline
}.

(** Locals of [MainLoop] that survive a turn (lines 432-444) and the
    static [lastKnownDuration]; presence times are in milliseconds. *)
Record Client : Type := mkClient {
  lastSongId : string;
  currentAppId : option string;
  currentSessionId : option string;
  lastPlayingState : bool;
  presenceStartTime : option Z;
  presenceEndTime : option Z;
  lastKnownDuration : Z
}.

Definition initial : Client := mkClient "" None None false None None 0.

Definition set_lastSongId (v : string) (c : Client) : Client :=
  mkClient v (currentAppId c) (currentSessionId c) (lastPlayingState c)
    (presenceStartTime c) (presenceEndTime c) (lastKnownDuration c).

Definition set_currentAppId (v : option string) (c : Client) : Client :=
  mkClient (lastSongId c) v (currentSessionId c) (lastPlayingState c)
    (presenceStartTime c) (presenceEndTime c) (lastKnownDuration c).

Definition set_currentSessionId (v : option string) (c : Client) : Client :=
  mkClient (lastSongId c) (currentAppId c) v (lastPlayingState c)
    (presenceStartTime c) (presenceEndTime c) (lastKnownDuration c).

Definition set_lastPlayingState (v : bool) (c : Client) : Client :=
  mkClient (lastSongId c) (currentAppId c) (currentSessionId c) v
    (presenceStartTime c) (presenceEndTime c) (lastKnownDuration c).

Definition set_presence (start finish : option Z) (c : Client) : Client :=
  mkClient (lastSongId c) (currentAppId c) (currentSessionId c) (lastPlayingState c)
    start finish (lastKnownDuration c).

Definition set_lastKnownDuration (v : Z) (c : Client) : Client :=
  mkClient (lastSongId c) (currentAppId c) (currentSessionId c) (lastPlayingState c)
    (presenceStartTime c) (presenceEndTime c) v.

(** The (start, end) pair of the presence timer. *)
Definition timer (c : Client) : option Z * option Z :=
  (presenceStartTime c, presenceEndTime c).

(** The pair is what it was, or it has been reset. *)
Definition kept_or_cleared (before after : option Z * option Z) : Prop :=
  after = before \/ after = (None, None).

(** A pair is in order when it is absent or its end lies after its
    start. *)
Definition timer_ok (t : option Z * option Z) : Prop :=
  match t with
  | (Some s, Some e) => s < e
  | (None, None) => True
  | _ => False
  end.

(** What a turn does to the outside world, in order.  Payloads carry
    the fields that the loop computes; album name and artwork are left
    out. *)
Inductive Effect : Type :=
| EndSession (id : string)
| CreateSession (app : string) (song artist : option string) (duration position : Z)
    (playing : bool)
| UpdateSession (id : string) (song artist : option string) (duration position : Z)
    (playing : bool)
| Notify (song artist : option string)
| SetPresence (start finish : Z)
| ClearPresence
| Delay (ms : Z).

(** A turn in progress: the client state, the index of the next timeline
    read and the effects so far. *)
Record Run : Type := mkRun {
  st : Client;
  next : nat;
  log : list Effect
}.

Definition upd (f : Client -> Client) (r : Run) : Run :=
  mkRun (f (st r)) (next r) (log r).

Definition emit (e : Effect) (r : Run) : Run :=
  mkRun (st r) (next r) (log r ++ [e])%list.

(** [activeSession.GetTimelineProperties()] *)
Definition read (a : Active) (r : Run) : Timeline * Run :=
  (timeline a (next r), mkRun (st r) (S (next r)) (log r)).

(** [await GetValidDuration(activeSession, timeline)] *)
Definition resolve (a : Active) (first : Timeline) (r : Run) : Z * Run :=
  let res := GetValidDuration (lastKnownDuration (st r)) (TotalSeconds (EndTime first))
               (fun k => TotalSeconds (EndTime (timeline a (next r + k)))) in
  (duration res,
   mkRun (set_lastKnownDuration (cache res) (st r)) (next r + rereads res)
     (log r ++ List.map Delay (delays res))%list).

Definition text (o : option string) : string :=
  match o with Some s => s | None => "" end.

(** [$"{media.Title}|{media.Artist}"] (lines 565 and 639). *)
Definition songId (a : Active) : string := text (Title a) ++ "|" ++ text (Artist a).

Definition same_app (x y : option string) : bool :=
  match x, y with
  | Some a, Some b => String.eqb a b
  | None, None => true
  | _, _ => false
  end.

(** [activeAppId != currentAppId] (line 492). *)
Definition app_changed (obs : option Active) (c : Client) : bool :=
  negb (same_app (option_map appId obs) (currentAppId c)).

(** Lines 492-592.  The flag tells whether the turn ends here
    ([continue] of line 518).  [created] is what [CreateSession]
    returns. *)
Definition on_app_change (created : option string) (obs : option Active) (r : Run)
  : Run * bool :=
  if app_changed obs (st r) then
    let r1 := match currentSessionId (st r) with
              | Some id => upd (set_currentSessionId None) (emit (EndSession id) r)
              | None => r
              end in
    match obs with
    | Some a =>
        if (IsPlaceholderText (Title a) || IsPlaceholderText (Artist a))%bool then
          (emit (Delay 1000)
             (upd (fun c => set_lastPlayingState (isPlaying a)
                              (set_currentAppId (Some (appId a)) c)) r1),
           true)
        else
          let '(tl, r2) := read a r1 in
          let '(d, r3) := resolve a tl r2 in
          let r4 := emit (CreateSession (GetFriendlyAppName (Some (appId a)))
                            (Title a) (Artist a) d
                            (TotalSeconds (Position tl)) (isPlaying a)) r3 in
          let r5 := match created with
                    | Some id =>
                        emit (Notify (Title a) (Artist a))
                          (upd (set_lastSongId (songId a))
                             (emit (Delay 500) (upd (set_currentSessionId (Some id)) r4)))
                    | None => upd (set_currentSessionId None) r4
                    end in
          let r6 := upd (fun c => set_presence None None
                                    (set_lastPlayingState (isPlaying a) c)) r5 in
          (upd (set_currentAppId (Some (appId a))) r6, false)
    | None =>
        (upd (fun c => set_currentAppId None (set_lastKnownDuration 0 c)) r1, false)
    end
  else (r, false).

(** Lines 594-624. *)
Definition on_play_state (obs : option Active) (r : Run) : Run :=
  match obs, currentSessionId (st r) with
  | Some a, Some id =>
      if negb (Bool.eqb (isPlaying a) (lastPlayingState (st r))) then
        let '(tl, r1) := read a r in
        let '(d, r2) := resolve a tl r1 in
        let r3 := emit (UpdateSession id (Title a) (Artist a) d
                          (TotalSeconds (Position tl)) (isPlaying a)) r2 in
        upd (fun c => set_presence None None (set_lastPlayingState (isPlaying a) c)) r3
      else r
  | _, _ => r
  end.

(** Line 632-634. *)
Definition isValidSong (a : Active) : bool :=
  (negb (IsNullOrWhiteSpace (Title a))
   && negb (IsPlaceholderText (Title a))
   && negb (IsPlaceholderText (Artist a)))%bool.

(** The guard of lines 709-710. *)
Definition must_recompute (c : Client) (d : Z) : bool :=
  match presenceStartTime c, presenceEndTime c with
  | Some s, Some e => (Z.leb e s && Z.ltb 0 d)%bool
  | _, _ => true
  end.

(** Lines 712-725: [start = now - position], [end = start + duration],
    or [start + 3 minutes] when the duration is unknown. *)
Definition compute_timer (now : Z) (tl : Timeline) (d : Z) (c : Client) : Client :=
  let start := now - Position tl in
  set_presence (Some start)
    (Some (if Z.ltb 0 d then start + d * 1000 else start + 3 * 60 * 1000)) c.

(** Lines 644-702: song change or heartbeat. *)
Definition on_song (a : Active) (tl : Timeline) (d : Z) (r : Run) : Run :=
  if negb (String.eqb (songId a) (lastSongId (st r))) then
    let r1 := upd (fun c => set_lastKnownDuration d (set_lastSongId (songId a) c)) r in
    let r2 := match currentSessionId (st r1) with
              | Some id =>
                  emit (Notify (Title a) (Artist a))
                    (emit (UpdateSession id (Title a) (Artist a) d
                             (TotalSeconds (Position tl)) (isPlaying a)) r1)
              | None => r1
              end in
    upd (set_presence None None) r2
  else
    match currentSessionId (st r) with
    | Some id => emit (UpdateSession id (Title a) (Artist a) d
                         (TotalSeconds (Position tl)) (isPlaying a)) r
    | None => r
    end.

(** Lines 704-765: publish while playing, clear while paused. *)
Definition on_presence (now : Z) (a : Active) (tl : Timeline) (d : Z) (r : Run)
  : Run * bool :=
  if isPlaying a then
    let r1 := if must_recompute (st r) d then upd (compute_timer now tl d) r else r in
    match presenceStartTime (st r1), presenceEndTime (st r1) with
    | Some s, Some e => (emit (SetPresence s e) r1, true)
    | _, _ => (r1, true)
    end
  else (emit ClearPresence r, false).

(** Lines 626-772. *)
Definition on_active (now : Z) (obs : option Active) (r : Run) : Run :=
  let '(r', presenceSet) :=
    match obs with
    | Some a =>
        if isValidSong a then
          let '(tl, r1) := read a r in
          let '(d, r2) := resolve a tl r1 in
          on_presence now a tl d (on_song a tl d r2)
        else (r, false)
    | None => (r, false)
    end in
  if presenceSet then r' else emit ClearPresence r'.

(** One turn of the [while] loop of [MainLoop] (lines 446-799), from the
    outcome of the session scan to the adaptive pause. *)
Definition turn (now : Z) (created : option string) (obs : option Active) (c : Client)
  : Client * list Effect :=
  let '(r1, skip) := on_app_change created obs (mkRun c 0 []) in
  if skip then (st r1, log r1)
  else
    let r2 := on_active now obs (on_play_state obs r1) in
    let playing := match obs with Some a => isPlaying a | None => false end in
    let r3 := emit (Delay (if playing then 3000 else 10000)) r2 in
    (st r3, log r3).

End Windows.

(** ** Notions taken from the specification's wording *)

Module Spec.

(** Normalisation of a title or artist: insensitive to letter case and
    to surrounding white space. *)
Definition normalized (s : string) : string := Str.toLowerCase (Str.trim s).

(** TrackIdentity: normalized(title) + normalized(artist). *)
Definition TrackIdentity (title artist : string) : string :=
  normalized title ++ normalized artist.

(** The eleven exact placeholder texts. *)
Definition placeholder_texts : list string :=
  [ "connecting..."; "connecting"; "loading..."; "loading"; "buffering...";
    "buffering"; "unknown"; "unknown artist"; "unknown title";
    "advertisement"; "ad" ].

(** The placeholder classifier as the specification words it: an exact
    match on the list, a prefix "connecting to" or "loading" (both on
    the lower-cased, trimmed text), or a text shorter than two
    characters. *)
Definition placeholder (t : string) : bool :=
  let lower := Str.trim (Str.toLowerCase t) in
  (existsb (String.eqb lower) placeholder_texts
   || Str.startsWith lower "connecting to"
   || Str.startsWith lower "loading"
   || Z.ltb (Str.len t) 2)%bool.

(** Effective position of a remote session in whole seconds:
    songPosition + (playing ? now - lastPlayStart : 0). *)
Definition effective_position (now : Z) (s : Session.t) : Z :=
  Session.songPosition s +
  match Session.playing s, Session.lastPlayStart s with
  | true, Some start => Server.elapsed_since now start
  | _, _ => 0
  end.

End Spec.

(** ** Backend: history endpoints and background sweeps of [server.js] *)

Module HistoryApi.

Import Js Server.

(** [Math.min(parseInt(req.query.limit) || 10, MAX_HISTORY_ITEMS)]
    (lines 97, 112, 121, 135); [parsed] is the value of [parseInt],
    [None] standing for [NaN]. *)
Definition limit_of (parsed : option Z) : Z :=
  Z.min (num_or parsed 10) (Z.of_nat MAX_HISTORY_ITEMS).

(** [array.slice(0, end)]: a negative [end] counts from the end of the
    array. *)
Definition slice0 {A : Type} (finish : Z) (l : list A) : list A :=
  if Z.ltb finish 0
  then firstn (Z.to_nat (Z.max (Z.of_nat (length l) + finish) 0)) l
  else firstn (Z.to_nat finish) l.

(** Body of the three history listings; [app] and [userId] are present
    in the filtered variants only. *)
Record Listing : Type := mkListing {
  count : Z;
  total : Z;
  app : option string;
  userId : option string;
  tracks : list Entry.t
}.

(** GET /history (lines 96-104). *)
Definition get_history (parsed : option Z) (st : State) : Listing :=
  let limit := limit_of parsed in
  mkListing (Z.min (Z.of_nat (length (history st))) limit)
    (Z.of_nat (length (history st))) None None
    (slice0 limit (history st)).

(** [t.app === session.app] *)
Definition of_app (a : string) (e : Entry.t) : bool := String.eqb (Entry.app e) a.

(** GET /history/session/:sessionId (lines 107-130).  An inherited
    member passes the test [!session] and has no [app]: no entry
    equals [undefined], and the answer carries no [app]. *)
Definition get_history_session (parsed : option Z) (id : string) (st : State) : Listing :=
  match sessions st !! id with
  | None =>
      if inherited id then mkListing 0 0 None None []
      else get_history parsed st
  | Some session =>
      let limit := limit_of parsed in
      let appHistory := slice0 limit (List.filter (of_app (Session.app session)) (history st)) in
      mkListing (Z.of_nat (length appHistory))
        (Z.of_nat (length (List.filter (of_app (Session.app session)) (history st))))
        (Some (Session.app session)) None appHistory
  end.

(** [t.user?.id === userId] *)
Definition of_user (uid : string) (e : Entry.t) : bool :=
  match Entry.user e with
  | Some u => match User.id u with
              | Some i => String.eqb i uid
              | None => false
              end
  | None => false
  end.

(** GET /history/user/:userId (lines 133-145). *)
Definition get_history_user (parsed : option Z) (uid : string) (st : State) : Listing :=
  let limit := limit_of parsed in
  let userHistory := slice0 limit (List.filter (of_user uid) (history st)) in
  mkListing (Z.of_nat (length userHistory))
    (Z.of_nat (length (List.filter (of_user uid) (history st))))
    None (Some uid) userHistory.

Inductive Answer : Type :=
| Removed
| NotFound.

(** DELETE /history/:trackId (lines 158-170). *)
Definition delete_track (trackId : string) (st : State) : Answer * State :=
  let h := List.filter (fun e => negb (has_id trackId e)) (history st) in
  if Nat.ltb (length h) (length (history st))
  then (Removed, mkState (sessions st) h)
  else (NotFound, mkState (sessions st) h).

End HistoryApi.

Module Sweep.

Import Server.

(** The two tests of the clean-up timer (lines 181 and 186). *)
Definition expired (now : Z) (s : Session.t) : bool :=
  if (negb (Session.active s) && Z.ltb 3600000 (now - Session.createdAt s))%bool
  then true
  else (Session.active s && Z.ltb 21600000 (now - Session.lastUpdated s))%bool.

(** Clean-up timer (lines 175-191): every expired session is deleted
    from the table. *)
Definition cleanup (now : Z) (st : State) : State :=
  mkState (filter (fun kv => expired now (snd kv) = false) (sessions st)) (history st).



End Sweep.

(** ** Electron tray client: reconnection to Discord *)

Module Reconnect.

Definition MAX_RETRIES : Z := 5.

(** [scheduleReconnect] (lines 360-391): the new value of [retryCount]
    and the delay (ms) passed to [setTimeout], if a timer is set. *)
Definition scheduleReconnect (isRunning : bool) (retryCount : Z) : Z * option Z :=
  if negb isRunning then (retryCount, None)
  else
    let retryCount := retryCount + 1 in
    if Z.ltb MAX_RETRIES retryCount then (retryCount, None)
    else (retryCount, Some (Z.min (5000 * retryCount) 30000)).

(** [n] connection failures in a row while the app runs, each followed
    by [scheduleReconnect]: the counter at the end and the delays of the
    timers that were set, oldest first. *)
Fixpoint failures (n : nat) (retryCount : Z) : Z * list Z :=
  match n with
  | O => (retryCount, [])
  | S n' =>
      let '(rc, timer) := scheduleReconnect true retryCount in
      let '(rc', rest) := failures n' rc in
      (rc', match timer with Some d => d :: rest | None => rest end)
  end.

End Reconnect.

(** ** Windows tray client: session scan and successive turns *)

Module Scan.

(** [GlobalSystemMediaTransportControlsSessionPlaybackStatus]. *)
Inductive PlaybackStatus : Type :=
| Closed | Opened | Changing | Stopped | Playing | Paused.

(** What the scan reads of one media session. *)
Record MediaSession : Type := mkMediaSession {
  SourceAppUserModelId : string;
  PlaybackStatus_of : PlaybackStatus
}.

Definition is_playing (m : MediaSession) : bool :=
  match PlaybackStatus_of m with Playing => true | _ => false end.

Definition is_paused (m : MediaSession) : bool :=
  match PlaybackStatus_of m with Paused => true | _ => false end.

Definition allowed (m : MediaSession) : bool :=
  Windows.IsAllowedMusicApp (Some (SourceAppUserModelId m)).

(** The [foreach] of lines 460-489: [found] is the pair
    ([activeSession], [isPlaying]) so far; a playing whitelisted session
    ends the loop. *)
Fixpoint scan_from (found : option (MediaSession * bool)) (l : list MediaSession)
  : option (MediaSession * bool) :=
  match l with
  | [] => found
  | m :: rest =>
      if negb (allowed m) then scan_from found rest
      else if is_playing m then Some (m, true)
      else match found with
           | None => if is_paused m then scan_from (Some (m, false)) rest
                     else scan_from found rest
           | Some _ => scan_from found rest
           end
  end.

Definition scan (l : list MediaSession) : option (MediaSession * bool) := scan_from None l.

(** Successive turns of [MainLoop]: each element gives the clock, the
    outcome of a session creation and the outcome of the scan. *)
Fixpoint run (turns : list (Z * option string * option Windows.Active)) (c : Windows.Client)
  : Windows.Client :=
  match turns with
  | [] => c
  | (now, created, obs) :: rest => run rest (fst (Windows.turn now created obs c))
  end.

End Scan.

(** ** Observers used to state properties of the two polling loops *)

Module Observe.

(** Line 786 of the Electron loop: [sleep(lastPlayingState ? 3000 : 10000)]. *)
Definition sleep_ms (c : Electron.Client) : Z :=
  if Electron.lastPlayingState c then 3000 else 10000.

Definition is_create (k : Electron.Call) : bool :=
  match k with Electron.CreateSession _ _ _ _ _ => true | _ => false end.

Definition is_end (k : Electron.Call) : bool :=
  match k with Electron.EndSession _ => true | _ => false end.

(** The duration that a request of the Electron client carries, if it
    carries one. *)
Definition call_duration (k : Electron.Call) : option Z :=
  match k with
  | Electron.CreateSession _ _ d _ _ => Some d
  | Electron.UpdateSession _ _ _ d _ _ => Some d
  | _ => None
  end.

(** The turn sees the app that the Windows loop is already following. *)
Definition follows (app : string) (t : Z * option string * option Windows.Active) : Prop :=
  match snd t with
  | Some a => Windows.appId a = app
  | None => False
  end.

(** The duration that a call of the Windows client to the backend
    carries, if it carries one. *)
Definition sent_duration (e : Windows.Effect) : option Z :=
  match e with
  | Windows.CreateSession _ _ _ d _ _ => Some d
  | Windows.UpdateSession _ _ _ d _ _ => Some d
  | _ => None
  end.

Definition duration_ok (e : Windows.Effect) : Prop :=
  match sent_duration e with
  | Some d => 0 <= d
  | None => True
  end.

(** A turn in progress whose cached duration and calls so far carry no
    negative duration. *)
Definition run_ok (r : Windows.Run) : Prop :=
  0 <= Windows.lastKnownDuration (Windows.st r) /\ Forall duration_ok (Windows.log r).

End Observe.

(** * Properties *)

Import Server.

(** ** Scenario data used by the examples *)

(** A session as the POST handler would build it from
    {app: "Spotify", song: "Paranoid Android", artist: "Radiohead",
     duration: 383, position: 0, playing: true} at time [t]. *)
Definition radiohead (t : Z) : Session.t :=
  Session.mk "Spotify" "" (Some "Paranoid Android") (Some "Radiohead") None
    true true 0 383 (Some t) 0 t t None None None None None None None None.

Definition paused_at (p : Z) (s : Session.t) : Session.t :=
  Session.set_lastPlayStart None (Session.set_playing false (Session.set_songPosition p s)).

Definition one_session (id : string) (s : Session.t) (h : list Entry.t) : State :=
  mkState {[ id := s ]} h.

(** The Windows client in the middle of "Karma Police" (264 s), with a
    timer computed at time 6000 from position 5 s. *)
Definition mid_song : Windows.Client :=
  Windows.mkClient "Karma Police|Radiohead" (Some "Spotify.exe") (Some "s1") true
    (Some 1000) (Some 265000) 264.

Definition karma_police (position : Z) : Windows.Active :=
  Windows.mkActive "Spotify.exe" true (Some "Karma Police") (Some "Radiohead")
    (fun _ => Windows.mkTimeline position 264000).

Definition scenario_body : Body.t :=
  Body.mk (Some "Spotify") (Some "Paranoid Android") (Some "Radiohead") None None
    (Some 383) (Some 0) (Some true) None None None None None None None None.


Definition only_song (song artist : string) : Body.t :=
  Body.mk None (Some song) (Some artist) None None None None None None None None None
    None None None None.


Definition alice : User.t := User.mk (Some "u1") (Some "alice") None None.

(** A history entry as [addToHistory] records a first play. *)
Definition played (song artist app : string) (user : option User.t) (playedAt : Z)
  : Entry.t :=
  Entry.mk (trackId song artist) song artist "" "" app 0 playedAt 1 user None None None
    None.

Definition sample_history : list Entry.t :=
  [ played "Karma Police" "Radiohead" "Spotify" (Some alice) 3000;
    played "Hello" "Adele" "VLC Media Player" None 2000;
    played "Paranoid Android" "Radiohead" "Spotify" (Some alice) 1000 ].

(** Fifty distinct tracks, "Track 00" to "Track 49". *)
Definition numbered (n : nat) : Entry.t :=
  played ("Track " ++ String (ascii_of_nat (48 + n / 10))
                        (String (ascii_of_nat (48 + n mod 10)) ""))
    "Radiohead" "Spotify" None (Z.of_nat n).

Definition full_history : list Entry.t := List.map numbered (seq 0 50).

(** ** The primitives on sample inputs *)

Example trim_sample : Str.trim "  Hello World  " = "Hello World".
Proof. reflexivity. Qed.

Example toLowerCase_sample : Str.toLowerCase "Karma POLICE [Z]" = "karma police [z]".
Proof. reflexivity. Qed.

Example ensureHttps_sample :
  ensureHttps (Some "http://img.example/a.png") = Some "https://img.example/a.png"
  /\ ensureHttps (Some "https://img.example/a.png") = Some "https://img.example/a.png"
  /\ ensureHttps (Some "") = Some "" /\ ensureHttps None = None.
Proof. repeat split; reflexivity. Qed.

Example trackId_sample : trackId "Karma Police" "Radiohead" = "karma police-radiohead".
Proof. reflexivity. Qed.

(** A [null] catalogue field overwrites the stored value, an absent one
    keeps it. *)
Example put_info_null_sample :
  let rock := Session.set_genre (Some "Rock") (radiohead 1000) in
  Session.genre
    (put_info (Body.mk None None None None None None None None None (Some None) None
                 None None None None None) rock) = None
  /\ Session.genre (put_info Body.empty rock) = Some "Rock".
Proof. split; reflexivity. Qed.

(** A read of [sessions[id]] finds the inherited members. *)
Example inherited_sample :
  inherited "constructor" = true /\ inherited "__proto__" = true
  /\ inherited "toString" = true /\ inherited "k3v9x2ab" = false.
Proof. repeat split; reflexivity. Qed.

(** First turn of the Windows loop with Spotify playing five seconds
    into the song: the session is created, the heartbeat follows, and
    the timer starts at [now - position] and ends [duration] later. *)
Example first_turn_sample :
  Windows.turn 6000 (Some "s1") (Some (karma_police 5000)) Windows.initial =
  (mid_song,
   [ Windows.CreateSession "Spotify" (Some "Karma Police") (Some "Radiohead") 264 5 true;
     Windows.Delay 500;
     Windows.Notify (Some "Karma Police") (Some "Radiohead");
     Windows.UpdateSession "s1" (Some "Karma Police") (Some "Radiohead") 264 5 true;
     Windows.SetPresence 1000 265000;
     Windows.Delay 3000 ]).
Proof. reflexivity. Qed.

(** ** Session creation *)

Lemma artistImage_not_in_post_scope :
  Js.resolve post_scope "artistImage" = Some (Js.ReferenceError "artistImage").
Proof. reflexivity. Qed.

(** Every name of the destructuring pattern does resolve. *)
Lemma post_pattern_resolves :
  forallb (fun x => match Js.resolve post_scope x with None => true | Some _ => false end)
    post_pattern = true.
Proof. reflexivity. Qed.

Lemma post_session_400 now id b st :
  Js.truthy_str (Body.app b) = false ->
  post_session now id b st = (Json 400 (PError "Missing required field: app"), st).
Proof.
  unfold post_session. destruct (Body.app b) as [a|]; [|reflexivity].
  intros H. rewrite H. reflexivity.
Qed.

(** With an [app] the handler never reaches [res.json]: building the
    session object raises [ReferenceError] and nothing is stored. *)
Lemma post_session_throws now id b st :
  Js.truthy_str (Body.app b) = true ->
  post_session now id b st = (Uncaught (Js.ReferenceError "artistImage"), st).
Proof.
  unfold post_session. destruct (Body.app b) as [a|]; [|discriminate].
  intros H. rewrite H. reflexivity.
Qed.

(** C1 (evaluation at the failing input).  POST /session with the body
    of the end-to-end scenario, which has an [app]: the handler throws
    [ReferenceError: artistImage is not defined], the client sees status
    500 instead of 200 with {sessionId, url}, and no session is stored
    under the generated identifier. *)
Theorem post_session_with_app_fails :
  let st := mkState ∅ [] in
  let out := post_session 1000 "k3x9q2ab" scenario_body st in
  fst out = Uncaught (Js.ReferenceError "artistImage")
  /\ status_of (fst out) = 500
  /\ sessions (snd out) !! "k3x9q2ab" = None
  /\ snd out = st.
Proof.
  cbv zeta. rewrite post_session_throws by reflexivity.
  cbn [fst snd status_of sessions]. rewrite lookup_empty. auto.
Qed.

(** ** Reading a session *)

Lemma get_session_stored now id st s :
  sessions st !! id = Some s ->
  get_session now id st = Json 200 (PView (view now s)).
Proof. intros H. unfold get_session. rewrite H. reflexivity. Qed.

Lemma running_since_spec s start :
  running_since s = Some start <->
  Session.playing s = true /\ Session.lastPlayStart s = Some start /\ start <> 0.
Proof.
  unfold running_since, Js.truthy_num.
  destruct (Session.playing s), (Session.lastPlayStart s) as [t|]; cbn;
    try (split; [discriminate | intros (? & ? & ?); discriminate]).
  destruct (Z.eqb_spec t 0); cbn.
  - split; [discriminate|]. intros (_ & [= ->] & Hne). contradiction.
  - split.
    + intros [= ->]. auto.
    + intros (_ & [= ->] & _). reflexivity.
Qed.

Lemma elapsed_since_nonneg now start : start <= now -> 0 <= elapsed_since now start.
Proof. intros H. unfold elapsed_since. apply Z.div_pos; lia. Qed.

(** The value before the cap is the effective position, provided a
    playing session carries a truthy anchor. *)
Lemma uncapped_effective now s :
  (Session.playing s = true -> exists t, Session.lastPlayStart s = Some t /\ t <> 0) ->
  match running_since s with
  | Some start => Session.songPosition s + elapsed_since now start
  | None => Session.songPosition s
  end = Spec.effective_position now s.
Proof.
  intros Hp. unfold Spec.effective_position.
  destruct (running_since s) as [start|] eqn:E.
  - apply running_since_spec in E as (Hpl & Hl & _). rewrite Hpl, Hl. reflexivity.
  - destruct (Session.playing s) eqn:Hpl; [|lia].
    destruct (Hp eq_refl) as (t & Ht & Hne).
    assert (running_since s = Some t) as E' by (apply running_since_spec; auto).
    congruence.
Qed.

(** C2 (as stated, refuted).  A PUT may store any integer as the
    position; the read caps it from above only.  After PUT {position:
    -5} on a paused session of duration 383 the GET reports -5, which is
    outside [0, 383]. *)
Lemma get_position_not_clamped_below :
  ~ (forall now id st s,
        sessions st !! id = Some s ->
        0 < Session.songDuration s ->
        exists p, reported_position (get_session now id st) = Some p
                  /\ 0 <= p <= Session.songDuration s).
Proof.
  intros H.
  pose (st := one_session "s1" (paused_at 0 (radiohead 1000)) []).
  pose (b := Body.mk None None None None None None (Some (-5)) None None None None
               None None None None None).
  pose (out := put_session 2000 "s1" b st).
  assert (exists s, sessions (snd out) !! "s1" = Some s
                    /\ Session.songPosition s = -5
                    /\ Session.songDuration s = 383
                    /\ running_since s = None) as (s & Hs & Hp & Hd & Hr).
  { subst out st. unfold put_session, one_session. cbn [sessions].
    rewrite lookup_singleton_eq. cbn. rewrite lookup_insert_eq.
    eexists. split; [reflexivity|]. cbn. auto. }
  destruct (H 3000 "s1" (snd out) s Hs) as (p & Hrep & Hrange).
  { rewrite Hd. lia. }
  rewrite (get_session_stored _ _ _ _ Hs) in Hrep. cbn in Hrep.
  unfold currentPosition in Hrep. rewrite Hr, Hp, Hd in Hrep. cbn in Hrep.
  injection Hrep as <-. lia.
Qed.

(** C2 (amended).  For every stored session the GET reports the
    effective position capped at [songDuration] when that is positive:
    [songPosition] plus the whole seconds elapsed since [lastPlayStart]
    when the session is playing and the anchor is set, [songPosition]
    alone otherwise.  The report never exceeds a positive
    [songDuration], and it is not negative when [songPosition] is not
    negative and the clock has not gone back behind the anchor. *)
Theorem get_position_capped now id st s :
  sessions st !! id = Some s ->
  let raw := match running_since s with
             | Some start => Session.songPosition s + elapsed_since now start
             | None => Session.songPosition s
             end in
  exists p,
    reported_position (get_session now id st) = Some p
    /\ (0 < Session.songDuration s -> p = Z.min raw (Session.songDuration s))
    /\ (Session.songDuration s <= 0 -> p = raw)
    /\ ((Session.playing s = true ->
         exists t, Session.lastPlayStart s = Some t /\ t <> 0) ->
        raw = Spec.effective_position now s)
    /\ (0 < Session.songDuration s ->
        0 <= Session.songPosition s ->
        (forall t, Session.lastPlayStart s = Some t -> t <= now) ->
        0 <= p <= Session.songDuration s).
Proof.
  intros Hs raw. exists (currentPosition now s).
  rewrite (get_session_stored _ _ _ _ Hs). cbn [reported_position view View.position].
  split; [reflexivity|].
  assert (Hcur : currentPosition now s =
                 if Z.ltb 0 (Session.songDuration s)
                 then Z.min raw (Session.songDuration s) else raw) by reflexivity.
  split; [|split; [|split]].
  - intros Hd. rewrite Hcur. destruct (Z.ltb_spec 0 (Session.songDuration s)); [reflexivity|lia].
  - intros Hd. rewrite Hcur. destruct (Z.ltb_spec 0 (Session.songDuration s)); [lia|reflexivity].
  - intros Hp. apply uncapped_effective, Hp.
  - intros Hd Hpos Hclock. rewrite Hcur.
    destruct (Z.ltb_spec 0 (Session.songDuration s)); [|lia].
    assert (0 <= raw).
    { subst raw. destruct (running_since s) as [start|] eqn:E; [|lia].
      apply running_since_spec in E as (_ & Hl & _).
      pose proof (elapsed_since_nonneg now start (Hclock _ Hl)). lia. }
    lia.
Qed.

(** The position invariant of the remote store on its sample: created
    with duration 180, position 0 and playing at [t0], a session read
    [t] whole seconds later reports [t] up to 180 and 180 from then on. *)
Lemma position_invariant_sample t0 t (s : Session.t) :
  Session.playing s = true -> Session.lastPlayStart s = Some t0 -> t0 <> 0 ->
  Session.songPosition s = 0 -> Session.songDuration s = 180 -> 0 <= t ->
  currentPosition (t0 + t * 1000) s = Z.min t 180.
Proof.
  intros Hp Hl Hne Hpos Hd Ht. unfold currentPosition.
  assert (running_since s = Some t0) as -> by (apply running_since_spec; auto).
  rewrite Hpos, Hd. cbn [Z.ltb Z.compare]. unfold elapsed_since.
  replace (t0 + t * 1000 - t0) with (t * 1000) by lia.
  rewrite Z.div_mul by lia. reflexivity.
Qed.

Lemma get_position_capped_witness :
  exists p,
    reported_position (get_session 6500 "s1" (one_session "s1" (radiohead 1000) [])) = Some p
    /\ p = 5.
Proof.
  destruct (get_position_capped 6500 "s1" (one_session "s1" (radiohead 1000) [])
              (radiohead 1000)) as (p & Hp & Hmin & _).
  { unfold one_session. cbn [sessions]. apply lookup_singleton_eq. }
  exists p. split; [exact Hp|]. rewrite Hmin by (cbn; lia). reflexivity.
Defined.

(** ** Updating a session *)

Lemma assign_preserves {A B : Type} (f : Session.t -> B) (x : option A)
    (set : A -> Session.t -> Session.t) (s : Session.t) :
  (forall v s', f (set v s') = f s') ->
  f (Session.assign_if_defined x set s) = f s.
Proof. intros H. destruct x; cbn; auto. Qed.

Ltac info_frame :=
  unfold put_info; cbv zeta;
  repeat (rewrite assign_preserves; [|intros; reflexivity]);
  try reflexivity.

Lemma put_info_songPosition b s :
  Session.songPosition (put_info b s) = Session.songPosition s.
Proof. info_frame. Qed.

Lemma put_info_lastPlayStart b s :
  Session.lastPlayStart (put_info b s) = Session.lastPlayStart s.
Proof. info_frame. Qed.

Lemma put_info_totalPlayTime b s :
  Session.totalPlayTime (put_info b s) = Session.totalPlayTime s.
Proof. info_frame. Qed.

Lemma put_info_playing b s :
  Session.playing (put_info b s) = Session.playing s.
Proof. info_frame. Qed.

Lemma put_info_active b s :
  Session.active (put_info b s) = Session.active s.
Proof. info_frame. Qed.



Lemma put_song_change_unchanged now b s h :
  put_song_change now b false s h = (s, h).
Proof. unfold put_song_change. destruct (Body.song b); reflexivity. Qed.

Lemma updateSongPosition_running now s start :
  running_since s = Some start ->
  updateSongPosition now s =
  Session.set_lastPlayStart (Some now)
    (Session.set_totalPlayTime (Session.totalPlayTime s + elapsed_since now start)
       (Session.set_songPosition (Session.songPosition s + elapsed_since now start) s)).
Proof. intros H. unfold updateSongPosition. rewrite H. reflexivity. Qed.


(** The same request on a session whose flag says playing but whose
    anchor is null (the state a song-changing PUT with [playing: false]
    leaves behind): nothing is added and no anchor is set. *)
Lemma put_active_without_anchor now b s h :
  Body.position b = None ->
  songChanged b s = false ->
  Body.playing b <> Some false ->
  Session.playing s = true ->
  Session.lastPlayStart s = None ->
  let s' := fst (put_active now b s h) in
  Session.songPosition s' = Session.songPosition s
  /\ Session.lastPlayStart s' = None
  /\ Session.playing s' = true.
Proof.
  intros Hpos Hsong Hplay Hpl Hl.
  assert (Hrun : running_since s = None).
  { unfold running_since. rewrite Hl, andb_false_r. reflexivity. }
  unfold put_active. rewrite Hsong. unfold put_position. rewrite Hpos. cbn [negb].
  rewrite put_song_change_unchanged. unfold updateSongPosition. rewrite Hrun.
  assert (Hs1 : Session.playing (put_info b s) = true)
    by (rewrite put_info_playing; exact Hpl).
  assert (Hkeep : put_playing now b false (put_info b s) = put_info b s
                  \/ put_playing now b false (put_info b s)
                     = Session.set_playing true (put_info b s)).
  { unfold put_playing. destruct (Body.playing b) as [[|]|]; [|congruence|auto].
    right. cbn [negb]. rewrite Hs1. reflexivity. }
  cbn [fst].
  destruct Hkeep as [-> | ->]; cbn;
    rewrite ?put_info_songPosition, ?put_info_lastPlayStart, ?put_info_playing; auto.
Qed.

Lemma put_session_active now id b st s :
  sessions st !! id = Some s ->
  Session.active s = true ->
  put_session now id b st =
  (Json 200 (PUpdated id),
   mkState (<[id := fst (put_active now b s (history st))]> (sessions st))
     (snd (put_active now b s (history st)))).
Proof.
  intros Hs Ha. unfold put_session. rewrite Hs, Ha. cbn [negb].
  destruct (put_active now b s (history st)). reflexivity.
Qed.

Lemma songChanged_same_song b s s' :
  Session.currentSong s' = Session.currentSong s ->
  songChanged b s' = songChanged b s.
Proof. intros H. unfold songChanged. rewrite H. reflexivity. Qed.




(** C9.  PUT /session/:id reads [sessions[id]] on a plain object.
    When the stored session has [active = false] it answers 410 and
    leaves the whole store (the session, the other sessions and the
    history) as it was.  It answers 404 exactly when the identifier is
    neither a key of the table nor the name of a member of
    [Object.prototype]: for such a name with no session stored under it
    (constructor, toString, __proto__, ...) it answers 410, "Session has
    ended", and changes nothing. *)
Theorem put_rejections now id b st :
  (forall s, sessions st !! id = Some s -> Session.active s = false ->
        status_of (fst (put_session now id b st)) = 410
        /\ snd (put_session now id b st) = st
        /\ sessions (snd (put_session now id b st)) !! id = Some s)
  /\ (status_of (fst (put_session now id b st)) = 404 <->
      sessions st !! id = None /\ inherited id = false)
  /\ (sessions st !! id = None -> inherited id = true ->
      put_session now id b st = (Json 410 (PError "Session has ended"), st)).
Proof.
  split; [|split].
  - intros s Hs Ha. unfold put_session. rewrite Hs, Ha. cbn. auto.
  - unfold put_session. destruct (sessions st !! id) as [s|] eqn:E.
    + destruct (Session.active s); cbn [negb].
      * destruct (put_active now b s (history st)). cbn.
        split; [discriminate | intros [? _]; discriminate].
      * cbn. split; [discriminate | intros [? _]; discriminate].
    + destruct (inherited id); cbn [fst status_of].
      * split; [discriminate | intros [_ ?]; discriminate].
      * split; auto.
  - intros Hs Hi. unfold put_session. rewrite Hs, Hi. reflexivity.
Qed.

Lemma put_rejections_witness :
  let ended := Session.set_active false (paused_at 42 (radiohead 1000)) in
  let st := one_session "s1" ended [] in
  (status_of (fst (put_session 5000 "s1" scenario_body st)) = 410
   /\ snd (put_session 5000 "s1" scenario_body st) = st)
  /\ put_session 5000 "constructor" scenario_body st
     = (Json 410 (PError "Session has ended"), st).
Proof.
  intros ended st.
  destruct (put_rejections 5000 "s1" scenario_body st) as [H _].
  destruct (put_rejections 5000 "constructor" scenario_body st) as (_ & _ & Hc).
  split.
  - destruct (H ended) as (H1 & H2 & _).
    + apply lookup_singleton_eq.
    + reflexivity.
    + split; assumption.
  - apply Hc; [|reflexivity]. apply lookup_singleton_ne. discriminate.
Defined.

Lemma put_song_change_changed now b s h :
  songChanged b s = true ->
  exists song,
    Body.song b = Some song
    /\ put_song_change now b true s h =
       (let s2 := Session.set_lastPlayStart (anchor now (Body.playing b))
                    (match Body.position b with
                     | None => Session.set_songPosition 0 s
                     | Some _ => s
                     end) in
        (s2, addToHistory now (put_track song b s2) h)).
Proof.
  unfold songChanged, put_song_change.
  destruct (Body.song b) as [song|]; [|discriminate].
  intros _. exists song. split; reflexivity.
Qed.

Lemma put_playing_changed now b s : put_playing now b true s = s.
Proof. unfold put_playing. destruct (Body.playing b); reflexivity. Qed.

(** Effect of a song-changing PUT on the position, the anchor and the
    playing flag of an active session. *)
Lemma put_active_song_change now b s h :
  songChanged b s = true ->
  let s' := fst (put_active now b s h) in
  Session.playing s' = Session.playing s
  /\ Session.lastPlayStart s' = anchor now (Body.playing b)
  /\ Session.songPosition s' =
     match Body.position b with Some p => p | None => 0 end
  /\ Session.active s' = Session.active s.
Proof.
  intros Hc. unfold put_active. rewrite Hc.
  destruct (put_song_change_changed now b (put_position now b true s) h) as (song & Hsong & ->).
  { unfold songChanged in *. destruct (Body.song b) as [v|]; [|discriminate].
    assert (Session.currentSong (put_position now b true s) = Session.currentSong s) as ->.
    { unfold put_position. destruct (Body.position b); reflexivity. }
    exact Hc. }
  cbv zeta. cbn [fst]. rewrite put_playing_changed.
  cbn. rewrite put_info_playing, put_info_lastPlayStart, put_info_songPosition, put_info_active.
  unfold put_position. destruct (Body.position b); cbn; auto.
Qed.

(** C10.  On a PUT to an active session whose body changes the song the
    stored playing flag keeps its value whatever the request's
    [playing] field says; with [playing = false] sent to a playing
    session the flag stays [true] while [lastPlayStart] becomes null. *)
Theorem song_change_ignores_playing now id b st s :
  sessions st !! id = Some s ->
  Session.active s = true ->
  songChanged b s = true ->
  exists s',
    status_of (fst (put_session now id b st)) = 200
    /\ sessions (snd (put_session now id b st)) !! id = Some s'
    /\ Session.playing s' = Session.playing s
    /\ (Body.playing b = Some false -> Session.playing s = true ->
        Session.playing s' = true /\ Session.lastPlayStart s' = None).
Proof.
  intros Hs Ha Hc.
  rewrite (put_session_active now id b st s Hs Ha).
  pose proof (put_active_song_change now b s (history st) Hc) as F.
  cbv zeta in F. destruct F as (Hp & Hl & _).
  eexists. cbn [fst snd status_of sessions]. rewrite lookup_insert_eq.
  split; [reflexivity|]. split; [reflexivity|]. split; [exact Hp|].
  intros Hb Hpl. rewrite Hp, Hl, Hb. auto.
Qed.

Lemma song_change_ignores_playing_witness :
  let b := Body.mk None (Some "Karma Police") (Some "Radiohead") None None None None
             (Some false) None None None None None None None None in
  exists s',
    sessions (snd (put_session 5000 "s1" b (one_session "s1" (radiohead 1000) []))) !! "s1"
      = Some s'
    /\ Session.playing s' = true /\ Session.lastPlayStart s' = None.
Proof.
  intros b.
  destruct (song_change_ignores_playing 5000 "s1" b (one_session "s1" (radiohead 1000) [])
              (radiohead 1000)) as (s' & _ & Hs' & _ & H);
    try (apply lookup_singleton_eq); try reflexivity.
  exists s'. split; [exact Hs'|]. apply H; reflexivity.
Defined.

(** ** History *)

Lemma find_after_filter tid (h : list Entry.t) :
  List.find (has_id tid) (List.filter (fun e => negb (has_id tid e)) h) = None.
Proof.
  induction h as [|e h IH]; [reflexivity|].
  cbn [List.filter]. destruct (has_id tid e) eqn:E; cbn [negb]; [exact IH|].
  cbn [List.find]. rewrite E. exact IH.
Qed.

Lemma filter_firstn_filter tid (h : list Entry.t) n :
  List.filter (has_id tid) (firstn n (List.filter (fun e => negb (has_id tid e)) h)) = [].
Proof.
  revert n. induction h as [|e h IH]; intros n.
  - destruct n; reflexivity.
  - cbn [List.filter]. destruct (has_id tid e) eqn:E; cbn [negb]; [apply IH|].
    destruct n; [reflexivity|]. cbn [firstn List.filter]. rewrite E. apply IH.
Qed.

Lemma truthy_str_true s : Js.truthy_str (Some s) = true <-> s <> "".
Proof.
  unfold Js.truthy_str. rewrite negb_true_iff. split.
  - intros H ->. discriminate.
  - intros H. destruct (String.eqb_spec s ""); congruence.
Qed.

(** Whenever [addToHistory] records a track, the new entry is first, it
    is the only entry with its key, and its [playCount] is 1: the
    look-up that should find the previous count runs on the array from
    which the previous entry has just been removed. *)
Lemma addToHistory_records now t h song artist :
  Track.song t = Some song -> Track.artist t = Some artist ->
  song <> "" -> artist <> "" ->
  exists e rest,
    addToHistory now t h = e :: rest
    /\ Entry.id e = trackId song artist
    /\ Entry.song e = song /\ Entry.artist e = artist
    /\ Entry.playCount e = 1
    /\ List.filter (has_id (trackId song artist)) (addToHistory now t h) = [e].
Proof.
  intros Hs Ha Hsn Han. unfold addToHistory. rewrite Hs, Ha.
  rewrite (proj2 (truthy_str_true song) Hsn), (proj2 (truthy_str_true artist) Han).
  cbn [negb orb]. cbv zeta. unfold MAX_HISTORY_ITEMS. rewrite firstn_cons.
  rewrite find_after_filter. eexists. eexists. split; [reflexivity|].
  cbn [Entry.id Entry.song Entry.artist Entry.playCount option_map].
  repeat (split; [reflexivity|]).
  cbn [List.filter]. unfold has_id at 1. cbn [Entry.id]. rewrite String.eqb_refl.
  rewrite filter_firstn_filter. reflexivity.
Qed.

(** Without a song or an artist nothing is recorded (line 52). *)
Lemma addToHistory_guard now t h :
  Js.truthy_str (Track.song t) = false \/ Js.truthy_str (Track.artist t) = false ->
  addToHistory now t h = h.
Proof.
  unfold addToHistory.
  destruct (Track.song t) as [s|], (Track.artist t) as [a|]; try reflexivity.
  intros [-> | ->]; cbn [negb orb]; [reflexivity|].
  rewrite orb_true_r. reflexivity.
Qed.

(** A song-changing PUT without a position resets the stored position
    to 0 and, when the new title and the effective artist are not
    empty, leaves exactly one history entry for the new track, in front. *)
Lemma put_song_change_history now id b st s song artist :
  sessions st !! id = Some s ->
  Session.active s = true ->
  songChanged b s = true ->
  Body.position b = None ->
  Body.song b = Some song -> song <> "" ->
  Js.or_str (Body.artist b) (Session.currentArtist s) = Some artist -> artist <> "" ->
  exists s' e rest,
    sessions (snd (put_session now id b st)) !! id = Some s'
    /\ Session.songPosition s' = 0
    /\ history (snd (put_session now id b st)) = e :: rest
    /\ Entry.id e = trackId song artist
    /\ List.filter (has_id (trackId song artist))
         (history (snd (put_session now id b st))) = [e].
Proof.
  intros Hs Hact Hc Hp Hsong Hsn Hart Han.
  rewrite (put_session_active now id b st s Hs Hact). cbn [snd sessions history].
  rewrite lookup_insert_eq.
  pose proof (put_active_song_change now b s (history st) Hc) as F.
  cbv zeta in F. destruct F as (_ & _ & Hpos & _). rewrite Hp in Hpos.
  assert (Hh : exists t, snd (put_active now b s (history st))
                         = addToHistory now t (history st)
                         /\ Track.song t = Some song /\ Track.artist t = Some artist).
  { unfold put_active. rewrite Hc.
    destruct (put_song_change_changed now b (put_position now b true s) (history st))
      as (song' & Hsong' & ->).
    { rewrite (songChanged_same_song b s); [exact Hc|].
      unfold put_position. rewrite Hp. reflexivity. }
    cbv zeta. cbn [snd]. eexists. split; [reflexivity|].
    rewrite Hsong in Hsong'. injection Hsong' as <-.
    unfold put_track. cbn [Track.song Track.artist]. split; [reflexivity|].
    unfold put_position. rewrite Hp. cbn. exact Hart. }
  destruct Hh as (t & -> & Hts & Hta).
  destruct (addToHistory_records now t (history st) song artist Hts Hta Hsn Han)
    as (e & rest & He & Hid & _ & _ & _ & Hone).
  exists (fst (put_active now b s (history st))), e, rest.
  repeat split; auto.
Qed.

(** C4 (evaluation at the failing input).  The history already holds
    "Karma Police" by Radiohead with playCount 3.  A PUT that changes
    the song of a session from "Paranoid Android" to "Karma Police",
    without a position, resets the stored position to 0 and leaves one
    entry for the new track, but that entry's playCount is 1, not
    3 + 1. *)
Theorem song_change_playCount_restarts :
  let old := Entry.mk "karma police-radiohead" "Karma Police" "Radiohead" "" ""
               "Spotify" 264 500 3 None None None None None in
  let st := one_session "s1" (radiohead 1000) [old] in
  let b := Body.mk None (Some "Karma Police") (Some "Radiohead") None None None None
             None None None None None None None None None in
  let out := put_session 5000 "s1" b st in
  exists s' e,
    status_of (fst out) = 200
    /\ sessions (snd out) !! "s1" = Some s'
    /\ Session.songPosition s' = 0
    /\ history (snd out) = [e]
    /\ Entry.id e = Entry.id old
    /\ Entry.playCount old = 3
    /\ Entry.playCount e = 1.
Proof.
  intros old st b out.
  assert (E : out = (Json 200 (PUpdated "s1"),
                     mkState (<["s1" := fst (put_active 5000 b (radiohead 1000) [old])]>
                                (sessions st))
                       (snd (put_active 5000 b (radiohead 1000) [old])))).
  { subst out. apply put_session_active; [apply lookup_singleton_eq | reflexivity]. }
  rewrite E. cbn [fst snd status_of sessions history].
  rewrite lookup_insert_eq.
  eexists. eexists. split; [reflexivity|]. split; [reflexivity|].
  split; [reflexivity|]. split; [reflexivity|]. cbn. auto.
Qed.

(** ** Placeholder texts *)

(** The Windows classifier is the specification's classifier, extended
    to texts that are null or consist of white space only. *)
Lemma IsPlaceholderText_spec t :
  Windows.IsPlaceholderText (Some t) = (Str.all_space t || Spec.placeholder t)%bool.
Proof.
  unfold Windows.IsPlaceholderText, Windows.IsNullOrWhiteSpace, Spec.placeholder.
  destruct (Str.all_space t); [reflexivity|].
  cbn [orb existsb Spec.placeholder_texts]. rewrite orb_false_r, !orb_assoc. reflexivity.
Qed.

(** What the Electron classifier accepts. *)
Lemma isPlaceholder_spec t :
  Electron.isPlaceholder t =
  (String.eqb t ""
   || existsb (String.eqb (Str.trim (Str.toLowerCase t)))
        [ "connecting..."; "loading..."; "buffering..."; "unknown"; "advertisement"; "ad" ]
   || Z.ltb (Str.len t) 2)%bool.
Proof.
  unfold Electron.isPlaceholder, Js.truthy_str. rewrite negb_involutive.
  destruct (String.eqb t ""); [reflexivity|].
  cbn [orb existsb]. rewrite orb_false_r, !orb_assoc. reflexivity.
Qed.

(** Every text the Electron classifier rejects is rejected by the
    Windows one. *)
Lemma isPlaceholder_weaker t :
  Electron.isPlaceholder t = true -> Windows.IsPlaceholderText (Some t) = true.
Proof.
  rewrite isPlaceholder_spec, IsPlaceholderText_spec. unfold Spec.placeholder.
  intros H. apply orb_true_iff in H as [H|H].
  - apply orb_true_iff in H as [H|H].
    + apply String.eqb_eq in H. subst t. reflexivity.
    + cbn [existsb Spec.placeholder_texts] in *.
      repeat (apply orb_true_iff in H as [H|H]; [rewrite H, ?orb_true_r; reflexivity|]).
      discriminate.
  - rewrite H, !orb_true_r. reflexivity.
Qed.

(** C5 (evaluation at the failing input).  The classifier of the
    Electron client, [isPlaceholder], answers false on "Buffering",
    where the specification (and the classifier of the Windows client)
    answer true; it also lets "Loading", "connecting", "Unknown Artist" and
    "Connecting to Spotify" through.  On the other sample texts of the
    specification the two agree with it. *)
Theorem isPlaceholder_misses_buffering :
  Electron.isPlaceholder "Buffering" = false
  /\ Spec.placeholder "Buffering" = true
  /\ Windows.IsPlaceholderText (Some "Buffering") = true
  /\ Electron.isPlaceholder "Loading" = false
  /\ Electron.isPlaceholder "connecting" = false
  /\ Electron.isPlaceholder "Unknown Artist" = false
  /\ Electron.isPlaceholder "Connecting to Spotify" = false
  /\ Electron.isPlaceholder "Loading..." = true
  /\ Electron.isPlaceholder "A" = true
  /\ Electron.isPlaceholder "Bohemian Rhapsody" = false
  /\ Windows.IsPlaceholderText (Some "Bohemian Rhapsody") = false.
Proof. repeat split; reflexivity. Qed.

(** ** Duration resolution *)

Lemma retry_last cache attempt slept (reread : nat -> Z) :
  Windows.retry reread cache 0 attempt slept =
  Windows.mkResolved (if Z.ltb 0 cache then cache else 0) cache slept attempt.
Proof. reflexivity. Qed.

Lemma retry_step cache todo attempt slept (reread : nat -> Z) :
  Windows.retry reread cache (S todo) attempt slept =
  if Z.ltb 0 (reread attempt)
  then Windows.mkResolved (reread attempt) (reread attempt)
         (slept ++ [100 * (Z.of_nat attempt + 1)]) (S attempt)
  else Windows.retry reread cache todo (S attempt)
         (slept ++ [100 * (Z.of_nat attempt + 1)]).
Proof. reflexivity. Qed.

Lemma ltb_nonzero x : 0 <= x -> x <> 0 -> Z.ltb 0 x = true.
Proof. intros. apply Z.ltb_lt. lia. Qed.

(** A positive result is always the new cached value. *)
Lemma GetValidDuration_caches cache first reread :
  let r := Windows.GetValidDuration cache first reread in
  0 < Windows.duration r -> Windows.cache r = Windows.duration r.
Proof.
  unfold Windows.GetValidDuration.
  destruct (Z.ltb 0 first); [reflexivity|].
  rewrite !retry_step, retry_last.
  destruct (Z.ltb 0 (reread 0%nat)); [reflexivity|].
  destruct (Z.ltb 0 (reread 1%nat)); [reflexivity|].
  destruct (Z.ltb 0 (reread 2%nat)); [reflexivity|].
  cbn. destruct (Z.ltb_spec 0 cache); [reflexivity|lia].
Qed.

(** X30.  Resolution of the track duration by the Windows client, for
    reads that are durations (not negative).  A nonzero first read is
    used and cached at once.  A zero read is followed by at most three
    further reads, after pauses of 100, 200 and 300 ms; the first
    nonzero one is used and cached.  When all four reads are zero the
    cached duration is returned if it is positive, and 0 otherwise, the
    cache being left as it was.  The reads 0, 0, 0, 180 resolve to 180
    (which becomes the cache), four zero reads resolve to a cached 200,
    and to 0 without a cached value. *)
Theorem duration_resolution cache first (reread : nat -> Z) :
  0 <= first -> (forall k, 0 <= reread k) ->
  let r := Windows.GetValidDuration cache first reread in
  (first <> 0 ->
     Windows.duration r = first /\ Windows.cache r = first
     /\ Windows.delays r = [] /\ Windows.rereads r = 0%nat)
  /\ (first = 0 -> reread 0%nat <> 0 ->
     Windows.duration r = reread 0%nat /\ Windows.cache r = reread 0%nat
     /\ Windows.delays r = [100] /\ Windows.rereads r = 1%nat)
  /\ (first = 0 -> reread 0%nat = 0 -> reread 1%nat <> 0 ->
     Windows.duration r = reread 1%nat /\ Windows.cache r = reread 1%nat
     /\ Windows.delays r = [100; 200] /\ Windows.rereads r = 2%nat)
  /\ (first = 0 -> reread 0%nat = 0 -> reread 1%nat = 0 -> reread 2%nat <> 0 ->
     Windows.duration r = reread 2%nat /\ Windows.cache r = reread 2%nat
     /\ Windows.delays r = [100; 200; 300] /\ Windows.rereads r = 3%nat)
  /\ (first = 0 -> reread 0%nat = 0 -> reread 1%nat = 0 -> reread 2%nat = 0 ->
     Windows.delays r = [100; 200; 300] /\ Windows.rereads r = 3%nat
     /\ Windows.cache r = cache
     /\ (0 < cache -> Windows.duration r = cache)
     /\ (cache <= 0 -> Windows.duration r = 0))
  /\ (Windows.duration (Windows.resolve_reads 0 [0; 0; 0; 180]) = 180
      /\ Windows.cache (Windows.resolve_reads 0 [0; 0; 0; 180]) = 180
      /\ Windows.duration (Windows.resolve_reads 200 [0; 0; 0; 0]) = 200
      /\ Windows.duration (Windows.resolve_reads 0 [0; 0; 0; 0]) = 0).
Proof.
  intros Hf Hr r. subst r. unfold Windows.GetValidDuration.
  repeat match goal with |- _ /\ _ => split end; try reflexivity.
  - intros Hne. rewrite (ltb_nonzero first Hf Hne). auto.
  - intros -> H0. cbn [Z.ltb Z.compare]. rewrite retry_step.
    rewrite (ltb_nonzero _ (Hr _) H0). auto.
  - intros -> H0 H1. cbn [Z.ltb Z.compare]. rewrite !retry_step.
    rewrite H0. cbn [Z.ltb Z.compare]. rewrite (ltb_nonzero _ (Hr _) H1). auto.
  - intros -> H0 H1 H2. cbn [Z.ltb Z.compare]. rewrite !retry_step.
    rewrite H0, H1. cbn [Z.ltb Z.compare]. rewrite (ltb_nonzero _ (Hr _) H2). auto.
  - intros -> H0 H1 H2. cbn [Z.ltb Z.compare]. rewrite !retry_step, retry_last.
    rewrite H0, H1, H2. cbn [Z.ltb Z.compare].
    cbn [Windows.delays Windows.rereads Windows.cache Windows.duration].
    repeat split; try reflexivity.
    + intros Hc. apply Z.ltb_lt in Hc. rewrite Hc. reflexivity.
    + intros Hc. destruct (Z.ltb_spec 0 cache); [lia|reflexivity].
Qed.

Lemma duration_resolution_witness :
  let r := Windows.GetValidDuration 200 0 (fun _ => 0) in
  Windows.duration r = 200 /\ Windows.cache r = 200
  /\ Windows.delays r = [100; 200; 300].
Proof.
  intros r.
  pose proof (duration_resolution 200 0 (fun _ => 0) ltac:(lia) ltac:(intros; lia)) as H.
  cbv zeta in H. destruct H as (_ & _ & _ & _ & H & _).
  destruct (H eq_refl eq_refl eq_refl eq_refl) as (Hd & _ & Hc & Hpos & _).
  split; [apply Hpos; lia | split; [exact Hc | exact Hd]].
Defined.

(** The Electron client has no such step: the duration of the snapshot
    goes into the request as it is, a zero read included. *)
Lemma electron_sends_read_duration m c id :
  Electron.session_id c = Some id ->
  Electron.update_call m c =
  [Electron.UpdateSession id (Electron.title m) (Electron.artist m)
     (Electron.duration m) (Electron.position m) (Electron.isPlaying m)].
Proof.
  intros H. unfold Electron.update_call. rewrite H.
  unfold Js.num_or, Js.or_num, Js.truthy_num.
  destruct (Z.eqb_spec (Electron.duration m) 0) as [->|];
    destruct (Z.eqb_spec (Electron.position m) 0) as [->|]; reflexivity.
Qed.

Lemma num_or_same d : Js.num_or (Some d) 0 = d.
Proof.
  unfold Js.num_or, Js.or_num, Js.truthy_num.
  destruct (Z.eqb_spec d 0) as [->|]; reflexivity.
Qed.

Lemma update_call_duration m c k d :
  In k (Electron.update_call m c) ->
  Observe.call_duration k = Some d -> d = Electron.duration m.
Proof.
  unfold Electron.update_call. destruct (Electron.session_id c); [|intros []].
  intros [<-|[]]. cbn. intros [= <-]. apply num_or_same.
Qed.

Lemma on_song_change_duration discord now created m c k d :
  In k (snd (Electron.on_song_change discord now created m c)) ->
  Observe.call_duration k = Some d -> d = Electron.duration m.
Proof.
  unfold Electron.on_song_change. destruct (Electron.song_changed m c); [|intros []].
  destruct (Electron.session_id (Electron.set_lastSongId (Electron.songId m) c)) eqn:E;
    cbn [snd]; intros Hin; apply in_app_or in Hin as [Hin|[<-|[]]]; try discriminate.
  - apply (update_call_duration _ _ _ _ Hin).
  - destruct Hin as [<-|[]]. cbn. intros [= <-]. apply num_or_same.
Qed.

Lemma on_play_state_duration discord now m c k d :
  In k (snd (Electron.on_play_state discord now m c)) ->
  Observe.call_duration k = Some d -> d = Electron.duration m.
Proof.
  unfold Electron.on_play_state. destruct (negb _); [|intros []].
  cbn [snd]. apply update_call_duration.
Qed.

Lemma heartbeat_duration m c k d :
  In k (Electron.heartbeat m c) ->
  Observe.call_duration k = Some d -> d = Electron.duration m.
Proof.
  unfold Electron.heartbeat. destruct (_ && _)%bool; [|intros []].
  apply update_call_duration.
Qed.

(** C6.  The Electron client has no duration resolution.  One poll
    reads the media once, and every request that the poll sends carries
    the duration of that read as it is, whatever the polls before have
    seen.  So when a song first read with duration 295 is read with
    duration 0 three seconds later, the heartbeat carries 0: the read is
    not repeated and no remembered duration is put in its place. *)
Theorem electron_duration_unresolved :
  (forall discord now created m c k d,
     In k (snd (Electron.poll discord now created (Some m) c)) ->
     Observe.call_duration k = Some d -> d = Electron.duration m)
  /\ (let first := Electron.mkMedia "Hello" "Adele" "playing" 10 295 in
      let again := Electron.mkMedia "Hello" "Adele" "playing" 13 0 in
      let out1 := Electron.poll Electron.Ready 5000 (Some "s1") (Some first)
                    (Electron.mkClient "" false None None) in
      snd out1 = [ Electron.CreateSession "Hello" "Adele" 295 10 true;
                   Electron.Notify "Hello";
                   Electron.UpdateSession "s1" "Hello" "Adele" 295 10 true;
                   Electron.UpdateSession "s1" "Hello" "Adele" 295 10 true ]
      /\ snd (Electron.poll Electron.Ready 8000 None (Some again) (fst out1))
         = [ Electron.UpdateSession "s1" "Hello" "Adele" 0 13 true ]).
Proof.
  split; [|split; reflexivity].
  intros discord now created m c k d. unfold Electron.poll.
  destruct (_ && _)%bool.
  - pose proof (on_song_change_duration discord now created m c k d) as H1.
    destruct (Electron.on_song_change discord now created m c) as [c1 k1].
    pose proof (on_play_state_duration discord now m c1 k d) as H2.
    destruct (Electron.on_play_state discord now m c1) as [c2 k2].
    cbn [snd] in *. intros Hin.
    apply in_app_or in Hin as [Hin|Hin]; [exact (H1 Hin)|].
    apply in_app_or in Hin as [Hin|Hin]; [exact (H2 Hin)|].
    exact (heartbeat_duration m c2 k d Hin).
  - unfold Electron.on_stopped. destruct (_ || _)%bool; [|intros []].
    cbn [snd]. destruct (Electron.session_id c); [|intros []].
    intros [<-|[]]. discriminate.
Qed.

Lemma electron_duration_unresolved_witness :
  0 = Electron.duration (Electron.mkMedia "Hello" "Adele" "playing" 13 0).
Proof.
  destruct electron_duration_unresolved as [H _].
  apply (H Electron.Ready 8000 None (Electron.mkMedia "Hello" "Adele" "playing" 13 0)
           (Electron.mkClient "Hello|Adele" true (Some "s1") (Some (-5, Some 290)))
           (Electron.UpdateSession "s1" "Hello" "Adele" 0 13 true) 0).
  - left. reflexivity.
  - reflexivity.
Defined.

(** ** Track identity *)









(** ** Presence timer *)

Local Arguments Windows.GetValidDuration : simpl never.

Lemma kept_or_cleared_trans x y z :
  Windows.kept_or_cleared x y -> Windows.kept_or_cleared y z -> Windows.kept_or_cleared x z.
Proof. unfold Windows.kept_or_cleared. intros [-> | ->] [-> | ->]; auto. Qed.

Lemma on_app_change_timer created obs r :
  Windows.kept_or_cleared (Windows.timer (Windows.st r))
    (Windows.timer (Windows.st (fst (Windows.on_app_change created obs r)))).
Proof.
  unfold Windows.kept_or_cleared, Windows.on_app_change.
  destruct (Windows.app_changed obs (Windows.st r)); [|left; reflexivity].
  destruct (Windows.currentSessionId (Windows.st r)), obs as [a|];
    try (left; reflexivity);
    try (destruct (Windows.IsPlaceholderText (Windows.Title a)
                   || Windows.IsPlaceholderText (Windows.Artist a))%bool;
         [left; reflexivity|]; unfold Windows.read, Windows.resolve; cbn;
         destruct created; right; reflexivity).
Qed.

Lemma on_app_change_same created obs r :
  Windows.app_changed obs (Windows.st r) = false ->
  Windows.on_app_change created obs r = (r, false).
Proof. intros H. unfold Windows.on_app_change. rewrite H. reflexivity. Qed.

Lemma on_play_state_timer obs r :
  Windows.kept_or_cleared (Windows.timer (Windows.st r))
    (Windows.timer (Windows.st (Windows.on_play_state obs r))).
Proof.
  unfold Windows.kept_or_cleared, Windows.on_play_state.
  destruct obs as [a|]; [|left; reflexivity].
  destruct (Windows.currentSessionId (Windows.st r)); [|left; reflexivity].
  destruct (negb _); [right; reflexivity | left; reflexivity].
Qed.

Lemma on_play_state_same a r :
  Windows.isPlaying a = Windows.lastPlayingState (Windows.st r) ->
  Windows.on_play_state (Some a) r = r.
Proof.
  intros H. unfold Windows.on_play_state.
  destruct (Windows.currentSessionId (Windows.st r)); [|reflexivity].
  rewrite H, Bool.eqb_reflx. reflexivity.
Qed.

Lemma on_song_timer a tl d r :
  Windows.kept_or_cleared (Windows.timer (Windows.st r))
    (Windows.timer (Windows.st (Windows.on_song a tl d r))).
Proof.
  unfold Windows.kept_or_cleared, Windows.on_song.
  destruct (negb _).
  - right. cbn. destruct (Windows.currentSessionId (Windows.st r)); reflexivity.
  - left. destruct (Windows.currentSessionId (Windows.st r)); reflexivity.
Qed.

(** While paused the turn never computes a pair. *)
Lemma on_active_paused now a r :
  Windows.isPlaying a = false ->
  Windows.kept_or_cleared (Windows.timer (Windows.st r))
    (Windows.timer (Windows.st (Windows.on_active now (Some a) r))).
Proof.
  intros Hp. unfold Windows.on_active.
  destruct (Windows.isValidSong a).
  - unfold Windows.read, Windows.resolve, Windows.on_presence. cbn [fst snd].
    rewrite Hp. cbn [Windows.st Windows.emit].
    match goal with
    | |- Windows.kept_or_cleared _ (Windows.timer (Windows.st (Windows.on_song ?a ?tl ?d ?r0))) =>
        pose proof (on_song_timer a tl d r0) as H
    end.
    exact H.
  - left. reflexivity.
Qed.

Lemma turn_paused now created a c :
  Windows.isPlaying a = false ->
  Windows.kept_or_cleared (Windows.timer c)
    (Windows.timer (fst (Windows.turn now created (Some a) c))).
Proof.
  intros Hp. unfold Windows.turn.
  pose proof (on_app_change_timer created (Some a) (Windows.mkRun c 0 [])) as H1.
  destruct (Windows.on_app_change created (Some a) (Windows.mkRun c 0 [])) as [r1 skip].
  cbn [fst Windows.st] in H1.
  destruct skip; [exact H1|]. cbn [fst Windows.st Windows.emit].
  eapply kept_or_cleared_trans; [exact H1|].
  eapply kept_or_cleared_trans; [apply (on_play_state_timer (Some a))|].
  apply on_active_paused, Hp.
Qed.

Lemma on_song_same a tl d r :
  Windows.songId a = Windows.lastSongId (Windows.st r) ->
  Windows.st (Windows.on_song a tl d r) = Windows.st r.
Proof.
  intros H. unfold Windows.on_song. rewrite H, String.eqb_refl. cbn [negb].
  destruct (Windows.currentSessionId (Windows.st r)); reflexivity.
Qed.

Lemma on_presence_st now a tl d r :
  Windows.st (fst (Windows.on_presence now a tl d r)) =
  if (Windows.isPlaying a && Windows.must_recompute (Windows.st r) d)%bool
  then Windows.compute_timer now tl d (Windows.st r)
  else Windows.st r.
Proof.
  unfold Windows.on_presence. destruct (Windows.isPlaying a); [|reflexivity].
  cbn [andb]. destruct (Windows.must_recompute (Windows.st r) d).
  - cbn. reflexivity.
  - destruct (Windows.presenceStartTime (Windows.st r)),
      (Windows.presenceEndTime (Windows.st r)); reflexivity.
Qed.

Lemma on_active_st now a r :
  Windows.st (Windows.on_active now (Some a) r) =
  if Windows.isValidSong a then
    let tl := Windows.timeline a (Windows.next r) in
    let rr := Windows.resolve a tl (snd (Windows.read a r)) in
    Windows.st (fst (Windows.on_presence now a tl (fst rr) (Windows.on_song a tl (fst rr) (snd rr))))
  else Windows.st r.
Proof.
  unfold Windows.on_active. destruct (Windows.isValidSong a).
  - unfold Windows.read. cbn [fst snd].
    destruct (Windows.resolve _ _ _) as [d r2]. cbn [fst snd].
    destruct (Windows.on_presence _ _ _ _ _) as [r3 []]; reflexivity.
  - reflexivity.
Qed.

Lemma turn_same_context now created a c :
  Windows.app_changed (Some a) c = false ->
  Windows.songId a = Windows.lastSongId c ->
  Windows.isPlaying a = Windows.lastPlayingState c ->
  let c' := fst (Windows.turn now created (Some a) c) in
  Windows.timer c' = Windows.timer c
  \/ (Windows.presenceStartTime c = None \/ Windows.presenceEndTime c = None)
  \/ (exists s e, Windows.timer c = (Some s, Some e) /\ e <= s
                  /\ 0 < Windows.lastKnownDuration c').
Proof.
  intros Happ Hsong Hplay. unfold Windows.turn.
  rewrite on_app_change_same by exact Happ.
  rewrite on_play_state_same by exact Hplay.
  cbn [fst Windows.st Windows.emit]. rewrite on_active_st.
  destruct (Windows.isValidSong a); [|left; reflexivity].
  cbv zeta. rewrite on_presence_st.
  set (tl := Windows.timeline a _).
  set (rr := Windows.resolve a tl _).
  assert (Hst : Windows.st (snd rr)
                = Windows.set_lastKnownDuration (Windows.lastKnownDuration (Windows.st (snd rr))) c)
    by reflexivity.
  assert (Hd : 0 < fst rr -> Windows.lastKnownDuration (Windows.st (snd rr)) = fst rr).
  { subst rr. unfold Windows.resolve. cbn [fst snd Windows.st Windows.lastKnownDuration
      Windows.set_lastKnownDuration]. apply GetValidDuration_caches. }
  rewrite on_song_same by (rewrite Hst; exact Hsong).
  rewrite Hst.
  destruct (Windows.isPlaying a); [|left; reflexivity]. cbn [andb].
  unfold Windows.must_recompute.
  cbn [Windows.presenceStartTime Windows.presenceEndTime Windows.set_lastKnownDuration].
  destruct (Windows.presenceStartTime c) as [s|] eqn:Es; [|right; left; left; reflexivity].
  destruct (Windows.presenceEndTime c) as [e|] eqn:Ee; [|right; left; right; reflexivity].
  destruct (Z.leb_spec e s) as [Hle|Hlt]; cbn [andb];
    [|left; unfold Windows.timer; cbn; rewrite Es, Ee; reflexivity].
  destruct (Z.ltb_spec 0 (fst rr)) as [Hpos|Hneg];
    [|left; unfold Windows.timer; cbn; rewrite Es, Ee; reflexivity].
  right. right. exists s, e. unfold Windows.timer. rewrite Es, Ee.
  split; [reflexivity|]. split; [exact Hle|].
  change (0 < Windows.lastKnownDuration (Windows.st (snd rr))).
  rewrite (Hd Hpos). exact Hpos.
Qed.

Lemma turn_idle now created c :
  Windows.timer (fst (Windows.turn now created None c)) = Windows.timer c.
Proof.
  unfold Windows.turn, Windows.on_app_change. cbn [Windows.st].
  destruct (Windows.app_changed None c).
  - destruct (Windows.currentSessionId c); reflexivity.
  - reflexivity.
Qed.

Lemma kept_or_cleared_ok x y :
  Windows.timer_ok x -> Windows.kept_or_cleared x y -> Windows.timer_ok y.
Proof. intros Hx [-> | ->]; [exact Hx | exact I]. Qed.

Lemma compute_timer_ok now tl d c :
  Windows.timer_ok (Windows.timer (Windows.compute_timer now tl d c)).
Proof.
  unfold Windows.compute_timer, Windows.timer. cbn.
  destruct (Z.ltb_spec 0 d); lia.
Qed.

Lemma on_active_ok now obs r :
  Windows.timer_ok (Windows.timer (Windows.st r)) ->
  Windows.timer_ok (Windows.timer (Windows.st (Windows.on_active now obs r))).
Proof.
  intros Hok. destruct obs as [a|].
  - rewrite on_active_st. destruct (Windows.isValidSong a); [|exact Hok].
    cbv zeta. rewrite on_presence_st.
    destruct (_ && _)%bool; [apply compute_timer_ok|].
    eapply kept_or_cleared_ok; [|apply on_song_timer]. exact Hok.
  - unfold Windows.on_active. exact Hok.
Qed.

(** Every pair the loop holds is absent or has its end after its
    start. *)
Lemma turn_timer_ok now created obs c :
  Windows.timer_ok (Windows.timer c) ->
  Windows.timer_ok (Windows.timer (fst (Windows.turn now created obs c))).
Proof.
  intros Hok. unfold Windows.turn.
  pose proof (on_app_change_timer created obs (Windows.mkRun c 0 [])) as H1.
  destruct (Windows.on_app_change created obs (Windows.mkRun c 0 [])) as [r1 skip].
  cbn [fst Windows.st] in H1.
  assert (Hok1 : Windows.timer_ok (Windows.timer (Windows.st r1)))
    by (eapply kept_or_cleared_ok; eauto).
  destruct skip; [exact Hok1|]. cbn [fst Windows.st Windows.emit].
  apply on_active_ok. eapply kept_or_cleared_ok; [exact Hok1|apply on_play_state_timer].
Qed.

Lemma setDiscordPresence_frame discord now m c :
  Electron.lastPlayingState (Electron.setDiscordPresence discord now m c)
  = Electron.lastPlayingState c.
Proof. unfold Electron.setDiscordPresence. destruct discord; reflexivity. Qed.

(** The Electron client touches the displayed activity only when the
    song changed or playback resumed. *)
Lemma poll_activity discord now created media c :
  let c' := fst (Electron.poll discord now created media c) in
  (forall m, media = Some m ->
     Electron.song_changed m c = false ->
     Electron.isPlaying m = Electron.lastPlayingState c ->
     Electron.title m <> "" -> Electron.isPlaceholder (Electron.title m) = false ->
     Electron.activity c' = Electron.activity c)
  /\ (forall x, Electron.activity c' = Some x ->
        Electron.activity c' <> Electron.activity c ->
        exists m, media = Some m
                  /\ (Electron.song_changed m c = true
                      \/ (Electron.lastPlayingState c = false
                          /\ Electron.isPlaying m = true))).
Proof.
  cbv zeta. split.
  - intros m -> Hs Hp Ht Hph. unfold Electron.poll.
    rewrite (proj2 (truthy_str_true _) Ht), Hph. cbn [negb andb].
    unfold Electron.on_song_change. rewrite Hs.
    unfold Electron.on_play_state. rewrite Hp, Bool.eqb_reflx. reflexivity.
  - intros x Hx Hne. destruct media as [m|].
    + exists m. split; [reflexivity|].
      destruct (Electron.song_changed m c) eqn:Hs; [left; reflexivity|].
      right. revert Hx Hne. unfold Electron.poll.
      destruct (_ && _)%bool.
      * unfold Electron.on_song_change. rewrite Hs.
        unfold Electron.on_play_state.
        destruct (Electron.isPlaying m), (Electron.lastPlayingState c); cbn;
          try (intros; congruence); auto.
        unfold Electron.clearDiscordPresence. destruct discord; cbn; congruence.
      * unfold Electron.on_stopped. destruct (_ || _)%bool; cbn; [|congruence].
        unfold Electron.clearDiscordPresence.
        destruct discord, (Electron.session_id c); cbn; congruence.
    + revert Hx Hne. unfold Electron.poll, Electron.on_stopped.
      destruct (_ || _)%bool; cbn; [|congruence].
      unfold Electron.clearDiscordPresence.
      destruct discord, (Electron.session_id c); cbn; congruence.
Qed.

(** The computation of lines 704-726 leaves a pair that is in order as
    it is, whatever the snapshot. *)
Lemma on_presence_keeps now a tl d r s e :
  Windows.timer (Windows.st r) = (Some s, Some e) -> s < e ->
  Windows.timer (Windows.st (fst (Windows.on_presence now a tl d r))) = (Some s, Some e).
Proof.
  intros Ht Hlt. rewrite on_presence_st.
  unfold Windows.timer in Ht. injection Ht as Hs He.
  unfold Windows.must_recompute. rewrite Hs, He.
  destruct (Z.leb_spec e s); [lia|]. cbn [andb]. rewrite andb_false_r.
  unfold Windows.timer. rewrite Hs, He. reflexivity.
Qed.

(** C7.  Windows client: the timer computation leaves an already
    computed pair (start before end) as it is, and so does a whole turn
    that sees the same app, the same song and the same play state.  A
    turn ends with a computed pair different
    from the one it started with only if no timer existed, the listening
    context is new (the active app changed, which discards the previous
    timer), the song changed, playback went from paused to playing, or
    the old pair had end <= start and a positive duration is now known.
    Electron client: a poll that sees the same song and the same play
    state leaves the displayed timestamps as they are, and they are
    replaced only when the song changed or playback resumed. *)
Theorem presence_timer_recomputed_only_when :
  (forall now a tl d r s e,
     Windows.timer (Windows.st r) = (Some s, Some e) -> s < e ->
     Windows.timer (Windows.st (fst (Windows.on_presence now a tl d r)))
     = (Some s, Some e))
  /\ (forall now created a c,
     let c' := fst (Windows.turn now created (Some a) c) in
     (forall s e,
        Windows.app_changed (Some a) c = false ->
        Windows.songId a = Windows.lastSongId c ->
        Windows.isPlaying a = Windows.lastPlayingState c ->
        Windows.timer c = (Some s, Some e) -> s < e ->
        Windows.timer c' = (Some s, Some e))
     /\ (forall s' e',
           Windows.timer c' = (Some s', Some e') ->
           Windows.timer c' <> Windows.timer c ->
           (Windows.presenceStartTime c = None \/ Windows.presenceEndTime c = None)
           \/ Windows.app_changed (Some a) c = true
           \/ Windows.songId a <> Windows.lastSongId c
           \/ (Windows.lastPlayingState c = false /\ Windows.isPlaying a = true)
           \/ (exists s e, Windows.timer c = (Some s, Some e) /\ e <= s
                           /\ 0 < Windows.lastKnownDuration c')))
  /\ (forall (discord : Electron.Discord) now created m c,
        let c' := fst (Electron.poll discord now created (Some m) c) in
        (Electron.song_changed m c = false ->
         Electron.isPlaying m = Electron.lastPlayingState c ->
         Electron.title m <> "" -> Electron.isPlaceholder (Electron.title m) = false ->
         Electron.activity c' = Electron.activity c)
        /\ (forall x, Electron.activity c' = Some x ->
              Electron.activity c' <> Electron.activity c ->
              Electron.song_changed m c = true
              \/ (Electron.lastPlayingState c = false /\ Electron.isPlaying m = true))).
Proof.
  split; [exact on_presence_keeps|].
  split.
  - intros now created a c c'. split.
    + intros s e Happ Hsong Hplay Ht Hlt.
      destruct (turn_same_context now created a c Happ Hsong Hplay)
        as [H | [[H | H] | (s0 & e0 & H & Hle & _)]].
      * subst c'. rewrite H. exact Ht.
      * unfold Windows.timer in Ht. rewrite H in Ht. discriminate.
      * unfold Windows.timer in Ht. rewrite H in Ht. discriminate.
      * rewrite Ht in H. injection H as <- <-. lia.
    + intros s' e' Hc' Hne.
      destruct (Windows.presenceStartTime c) as [s|] eqn:Es; [|left; left; reflexivity].
      destruct (Windows.presenceEndTime c) as [e|] eqn:Ee; [|left; right; reflexivity].
      right.
      destruct (Windows.app_changed (Some a) c) eqn:Happ; [left; reflexivity|]. right.
      destruct (String.eqb_spec (Windows.songId a) (Windows.lastSongId c)) as [Hsong|Hsong];
        [|left; exact Hsong]. right.
      assert (Hsame : Windows.isPlaying a = Windows.lastPlayingState c ->
                      exists s e, Windows.timer c = (Some s, Some e) /\ e <= s
                                  /\ 0 < Windows.lastKnownDuration c').
      { intros Hplay.
        destruct (turn_same_context now created a c Happ Hsong Hplay)
          as [H | [[H | H] | H]]; [contradiction | congruence | congruence | exact H]. }
      destruct (Windows.isPlaying a) eqn:Hp, (Windows.lastPlayingState c) eqn:Hl.
      * right. apply Hsame. reflexivity.
      * left. split; reflexivity.
      * exfalso. destruct (turn_paused now created a c Hp) as [H | H].
        -- apply Hne. exact H.
        -- subst c'. rewrite H in Hc'. discriminate.
      * right. apply Hsame. reflexivity.
  - intros discord now created m c c'.
    destruct (poll_activity discord now created (Some m) c) as [H1 H2]. split.
    + intros Hs Hp Ht Hph. exact (H1 m eq_refl Hs Hp Ht Hph).
    + intros x Hx Hne. destruct (H2 x Hx Hne) as (m' & [= <-] & H). exact H.
Qed.

Lemma presence_timer_recomputed_only_when_witness :
  Windows.timer (fst (Windows.turn 9000 None (Some (karma_police 8000)) mid_song))
  = (Some 1000, Some 265000).
Proof.
  destruct presence_timer_recomputed_only_when as (_ & H & _).
  destruct (H 9000 None (karma_police 8000) mid_song) as [Hidem _].
  apply Hidem; [reflexivity | reflexivity | reflexivity | reflexivity | lia].
Defined.

(** * Further properties of the backend *)

Lemma addToHistory_length now t h :
  (length h <= MAX_HISTORY_ITEMS)%nat ->
  (length (addToHistory now t h) <= MAX_HISTORY_ITEMS)%nat.
Proof.
  intros Hh. unfold addToHistory.
  destruct (Track.song t) as [song|]; [|exact Hh].
  destruct (Track.artist t) as [artist|]; [|exact Hh].
  destruct (_ || _)%bool; [exact Hh|].
  cbv zeta. rewrite length_firstn. apply Nat.le_min_l.
Qed.

Lemma filter_ids_NoDup (f : Entry.t -> bool) (h : list Entry.t) :
  NoDup (List.map Entry.id h) -> NoDup (List.map Entry.id (List.filter f h)).
Proof.
  induction h as [|e h IH]; cbn; [auto|].
  intros Hn. apply NoDup_cons in Hn as [Hni Hn].
  destruct (f e); cbn; [|auto].
  apply NoDup_cons. split; [|auto].
  rewrite list_elem_of_In, in_map_iff in *.
  intros (x & Hx & Hin). apply Hni. exists x. split; [exact Hx|].
  apply filter_In in Hin. tauto.
Qed.

Lemma firstn_ids_NoDup n (h : list Entry.t) :
  NoDup (List.map Entry.id h) -> NoDup (List.map Entry.id (firstn n h)).
Proof.
  intros H. rewrite <- (firstn_skipn n h), map_app in H.
  apply NoDup_app in H. tauto.
Qed.

Lemma addToHistory_NoDup now t h :
  NoDup (List.map Entry.id h) -> NoDup (List.map Entry.id (addToHistory now t h)).
Proof.
  intros Hh. unfold addToHistory.
  destruct (Track.song t) as [song|]; [|exact Hh].
  destruct (Track.artist t) as [artist|]; [|exact Hh].
  destruct (_ || _)%bool; [exact Hh|].
  cbv zeta. apply firstn_ids_NoDup. cbn [List.map Entry.id].
  apply NoDup_cons. split; [|apply filter_ids_NoDup, Hh].
  rewrite list_elem_of_In, in_map_iff. intros (x & Hx & Hin).
  apply filter_In in Hin as [_ Hf]. unfold has_id in Hf.
  rewrite Hx, String.eqb_refl in Hf. discriminate.
Qed.

(** The history a PUT leaves is the old one or the result of one
    [addToHistory]. *)
Lemma put_active_history now b s h :
  snd (put_active now b s h) = h
  \/ exists t, snd (put_active now b s h) = addToHistory now t h.
Proof.
  unfold put_active.
  destruct (put_song_change now b (songChanged b s) (put_position now b (songChanged b s) s) h)
    as [s2 h2] eqn:E. cbn [snd].
  unfold put_song_change in E.
  destruct (Body.song b); [|injection E as _ <-; auto].
  destruct (songChanged b s); [|injection E as _ <-; auto].
  cbv zeta in E. injection E as _ <-. right. eexists. reflexivity.
Qed.

Lemma put_session_history now id b st :
  history (snd (put_session now id b st)) = history st
  \/ exists t, history (snd (put_session now id b st)) = addToHistory now t (history st).
Proof.
  unfold put_session. destruct (sessions st !! id) as [s|];
    [|destruct (inherited id); auto].
  destruct (Session.active s); cbn [negb]; [|auto].
  pose proof (put_active_history now b s (history st)) as H.
  destruct (put_active now b s (history st)) as [s' h']. exact H.
Qed.

(** X1.  The history never grows beyond 50 entries through PUT
    requests: a store whose history has at most 50 entries still has at
    most 50 after any PUT. *)
Theorem put_keeps_history_capped now id b st :
  (length (history st) <= 50)%nat ->
  (length (history (snd (put_session now id b st))) <= 50)%nat.
Proof.
  intros H. destruct (put_session_history now id b st) as [-> | (t & ->)]; [exact H|].
  apply addToHistory_length, H.
Qed.

Lemma put_keeps_history_capped_witness :
  let st := one_session "s1" (radiohead 1000) full_history in
  let b := only_song "Karma Police" "Radiohead" in
  length (history st) = 50%nat
  /\ songChanged b (radiohead 1000) = true
  /\ (length (history (snd (put_session 2000 "s1" b st))) <= 50)%nat.
Proof.
  intros st b. split; [reflexivity|]. split; [reflexivity|].
  apply (put_keeps_history_capped 2000 "s1" b st).
  cbn. lia.
Defined.

(** X2.  History keys stay unique: if no two entries share an [id]
    before a PUT, none do after it. *)
Theorem put_keeps_history_ids_unique now id b st :
  NoDup (List.map Entry.id (history st)) ->
  NoDup (List.map Entry.id (history (snd (put_session now id b st)))).
Proof.
  intros H. destruct (put_session_history now id b st) as [-> | (t & ->)]; [exact H|].
  apply addToHistory_NoDup, H.
Qed.

Lemma put_keeps_history_ids_unique_witness :
  let st := one_session "s1" (radiohead 1000) sample_history in
  let b := only_song "karma police" "Radiohead" in
  In (trackId "karma police" "Radiohead") (List.map Entry.id (history st))
  /\ songChanged b (radiohead 1000) = true
  /\ NoDup (List.map Entry.id (history (snd (put_session 2000 "s1" b st)))).
Proof.
  intros st b. split; [left; reflexivity|]. split; [reflexivity|].
  apply (put_keeps_history_ids_unique 2000 "s1" b st).
  apply (bool_decide_unpack _). vm_compute. exact I.
Defined.

(** X3.  PUT and DELETE on one identifier never touch the session stored
    under another identifier. *)
Theorem requests_touch_one_session now id id' b st :
  id <> id' ->
  sessions (snd (put_session now id b st)) !! id' = sessions st !! id'
  /\ sessions (snd (delete_session now id st)) !! id' = sessions st !! id'.
Proof.
  intros Hne. split.
  - unfold put_session. destruct (sessions st !! id) as [s|];
      [|destruct (inherited id); reflexivity].
    destruct (Session.active s); cbn [negb]; [|reflexivity].
    destruct (put_active now b s (history st)). cbn. apply lookup_insert_ne, Hne.
  - unfold delete_session. destruct (sessions st !! id) as [s|];
      [|destruct (inherited id); reflexivity].
    cbn. apply lookup_insert_ne, Hne.
Qed.

Lemma requests_touch_one_session_witness :
  sessions (snd (put_session 2000 "s1" scenario_body
                   (one_session "s2" (radiohead 1000) []))) !! "s2"
  = Some (radiohead 1000).
Proof.
  destruct (requests_touch_one_session 2000 "s1" "s2" scenario_body
              (one_session "s2" (radiohead 1000) [])) as [H _]; [discriminate|].
  rewrite H. apply lookup_singleton_eq.
Defined.

(** X4.  Only a song change writes to the history: a PUT whose song is
    absent or equal to the stored one, and every rejected PUT, leaves
    the history as it was. *)
Theorem put_same_song_keeps_history now id b st :
  (forall s, sessions st !! id = Some s -> Session.active s = true ->
             songChanged b s = false) ->
  history (snd (put_session now id b st)) = history st.
Proof.
  intros H. unfold put_session. destruct (sessions st !! id) as [s|] eqn:E;
    [|destruct (inherited id); reflexivity].
  destruct (Session.active s) eqn:Ea; cbn [negb]; [|reflexivity].
  specialize (H s eq_refl Ea).
  unfold put_active. rewrite H, put_song_change_unchanged. reflexivity.
Qed.

Lemma put_same_song_keeps_history_witness :
  history (snd (put_session 2000 "s1" scenario_body
                  (one_session "s1" (radiohead 1000) []))) = [].
Proof.
  apply (put_same_song_keeps_history 2000 "s1" scenario_body
           (one_session "s1" (radiohead 1000) [])).
  intros s Hs _. cbn in Hs. rewrite lookup_singleton_eq in Hs.
  injection Hs as <-. reflexivity.
Defined.

Lemma put_info_songDuration b s :
  Session.songDuration (put_info b s) =
  match Body.duration b with Some d => d | None => Session.songDuration s end.
Proof.
  unfold put_info; cbv zeta.
  do 7 (rewrite assign_preserves; [|intros; reflexivity]).
  destruct (Body.duration b); cbn [Session.assign_if_defined]; [reflexivity|].
  repeat (rewrite assign_preserves; [|intros; reflexivity]). reflexivity.
Qed.

Lemma currentPosition_stopped now s :
  running_since s = None ->
  currentPosition now s =
  if Z.ltb 0 (Session.songDuration s)
  then Z.min (Session.songPosition s) (Session.songDuration s)
  else Session.songPosition s.
Proof. intros H. unfold currentPosition. rewrite H. reflexivity. Qed.

Lemma running_since_paused s : Session.playing s = false -> running_since s = None.
Proof. intros H. unfold running_since. rewrite H. reflexivity. Qed.

Lemma running_since_unanchored s : Session.lastPlayStart s = None -> running_since s = None.
Proof. intros H. unfold running_since. rewrite H, andb_false_r. reflexivity. Qed.

(** A pause request on a running session. *)
Lemma put_active_pause now b s h start :
  Body.position b = None ->
  songChanged b s = false ->
  Body.playing b = Some false ->
  running_since s = Some start ->
  let s' := fst (put_active now b s h) in
  Session.songPosition s' = Session.songPosition s + elapsed_since now start
  /\ Session.totalPlayTime s' = Session.totalPlayTime s + elapsed_since now start
  /\ Session.lastPlayStart s' = None
  /\ Session.playing s' = false
  /\ Session.active s' = Session.active s.
Proof.
  intros Hpos Hsong Hplay Hrun.
  pose proof (proj1 (running_since_spec s start) Hrun) as (Hpl & Hl & Hne).
  unfold put_active. rewrite Hsong. unfold put_position. rewrite Hpos. cbn [negb].
  rewrite put_song_change_unchanged.
  rewrite (updateSongPosition_running _ _ _ Hrun).
  set (s1 := Session.set_lastPlayStart _ _).
  assert (Hs1 : Session.playing (put_info b s1) = true).
  { rewrite put_info_playing. subst s1. cbn. exact Hpl. }
  unfold put_playing. rewrite Hplay. cbn [negb andb]. rewrite Hs1. cbn [andb fst].
  assert (Hflush : Session.songPosition (updateSongPosition now (put_info b s1))
                   = Session.songPosition s + elapsed_since now start
                   /\ Session.totalPlayTime (updateSongPosition now (put_info b s1))
                      = Session.totalPlayTime s + elapsed_since now start
                   /\ Session.active (updateSongPosition now (put_info b s1))
                      = Session.active s).
  { unfold updateSongPosition.
    destruct (running_since (put_info b s1)) as [t|] eqn:E.
    - apply running_since_spec in E as (_ & Ht & _).
      rewrite put_info_lastPlayStart in Ht. subst s1. cbn in Ht. injection Ht as <-.
      cbn. rewrite put_info_songPosition, put_info_totalPlayTime, put_info_active. cbn.
      assert (elapsed_since now now = 0) as ->
        by (unfold elapsed_since; rewrite Z.sub_diag; reflexivity).
      rewrite !Z.add_0_r. auto.
    - rewrite put_info_songPosition, put_info_totalPlayTime, put_info_active. cbn. auto. }
  destruct Hflush as (H1 & H2 & H3). cbn. auto.
Qed.

Lemma updateSongPosition_songDuration now s :
  Session.songDuration (updateSongPosition now s) = Session.songDuration s.
Proof. unfold updateSongPosition. destruct (running_since s); reflexivity. Qed.

(** Only the [duration] field of a body changes the stored duration. *)
Lemma put_active_songDuration now b s h :
  Session.songDuration (fst (put_active now b s h)) =
  match Body.duration b with Some d => d | None => Session.songDuration s end.
Proof.
  unfold put_active.
  destruct (put_song_change now b (songChanged b s) (put_position now b (songChanged b s) s) h)
    as [s2 h2] eqn:E. cbn [fst].
  assert (H2 : Session.songDuration s2 = Session.songDuration s).
  { unfold put_song_change in E.
    assert (Hp : Session.songDuration (put_position now b (songChanged b s) s)
                 = Session.songDuration s).
    { unfold put_position. destruct (Body.position b); [reflexivity|].
      destruct (negb _); [apply updateSongPosition_songDuration|reflexivity]. }
    destruct (Body.song b); [|injection E as <- _; exact Hp].
    destruct (songChanged b s); [|injection E as <- _; exact Hp].
    cbv zeta in E. injection E as <- _.
    destruct (Body.position b); exact Hp. }
  assert (H4 : forall x, Session.songDuration (put_playing now b (songChanged b s) x)
                         = Session.songDuration x).
  { intros x. unfold put_playing. destruct (Body.playing b) as [pl|]; [|reflexivity].
    destruct (negb _); [|reflexivity].
    destruct (pl && _)%bool; [reflexivity|].
    destruct (negb pl && _)%bool; [|reflexivity].
    cbn. apply updateSongPosition_songDuration. }
  cbn. rewrite H4, put_info_songDuration, H2. reflexivity.
Qed.

Lemma put_session_stored now id b st s :
  sessions st !! id = Some s ->
  Session.active s = true ->
  sessions (snd (put_session now id b st)) !! id
  = Some (fst (put_active now b s (history st))).
Proof.
  intros Hs Ha. rewrite (put_session_active now id b st s Hs Ha). cbn.
  apply lookup_insert_eq.
Qed.

(** X5.  Pausing freezes the position.  After PUT {playing: false}
    (no position, same song, no new duration) on a session that has been
    playing since [t0], every later GET reports the same position: the
    stored one plus the seconds played until the pause, capped at the
    duration. *)
Theorem pause_freezes_position t0 t1 later id b st s :
  sessions st !! id = Some s ->
  Session.active s = true ->
  running_since s = Some t0 ->
  Body.position b = None -> Body.duration b = None ->
  songChanged b s = false ->
  Body.playing b = Some false ->
  let st' := snd (put_session t1 id b st) in
  let p := Session.songPosition s + elapsed_since t1 t0 in
  reported_position (get_session later id st')
  = Some (if Z.ltb 0 (Session.songDuration s)
          then Z.min p (Session.songDuration s) else p).
Proof.
  intros Hs Ha Hrun Hp Hd Hc Hb st' p.
  pose proof (put_session_stored t1 id b st s Hs Ha) as Hst.
  pose proof (put_active_pause t1 b s (history st) t0 Hp Hc Hb Hrun) as F.
  cbv zeta in F. destruct F as (P & _ & L & Pl & _).
  set (s' := fst (put_active t1 b s (history st))) in *.
  subst st'. rewrite (get_session_stored _ _ _ _ Hst).
  cbn [reported_position view View.position].
  rewrite currentPosition_stopped by (apply running_since_paused, Pl).
  rewrite P.
  assert (Session.songDuration s' = Session.songDuration s) as ->; [|reflexivity].
  subst s'. rewrite put_active_songDuration, Hd. reflexivity.
Qed.

Lemma pause_freezes_position_witness :
  reported_position
    (get_session 99000 "s1"
       (snd (put_session 31000 "s1"
               (Body.mk None None None None None None None (Some false) None None None
                  None None None None None)
               (one_session "s1" (radiohead 1000) []))))
  = Some 30.
Proof.
  apply (pause_freezes_position 1000 31000 99000 "s1"
           (Body.mk None None None None None None None (Some false) None None None
              None None None None None)
           (one_session "s1" (radiohead 1000) []) (radiohead 1000));
    first [apply lookup_singleton_eq | reflexivity].
Defined.

(** A resume request on a paused session. *)
Lemma put_active_resume now b s h :
  Body.position b = None ->
  songChanged b s = false ->
  Body.playing b = Some true ->
  Session.playing s = false ->
  let s' := fst (put_active now b s h) in
  Session.songPosition s' = Session.songPosition s
  /\ Session.totalPlayTime s' = Session.totalPlayTime s
  /\ Session.lastPlayStart s' = Some now
  /\ Session.playing s' = true
  /\ Session.active s' = Session.active s.
Proof.
  intros Hpos Hsong Hplay Hpl.
  unfold put_active. rewrite Hsong. unfold put_position. rewrite Hpos. cbn [negb].
  rewrite put_song_change_unchanged.
  unfold updateSongPosition. rewrite (running_since_paused s Hpl).
  unfold put_playing. rewrite Hplay. cbn [negb andb]. rewrite put_info_playing, Hpl.
  cbn. rewrite put_info_songPosition, put_info_totalPlayTime, put_info_active. auto.
Qed.

(** X6.  A pause is not counted.  A session playing since [t0] is
    paused at [t1] and resumed at [t2] (both by PUTs without position,
    song or duration); a GET at [t3] reports the seconds played before
    the pause plus the seconds played since the resumption, capped at
    the duration. *)
Theorem pause_resume_excludes_pause t0 t1 t2 t3 id st s :
  sessions st !! id = Some s ->
  Session.active s = true ->
  running_since s = Some t0 ->
  t2 <> 0 ->
  let pause := Body.mk None None None None None None None (Some false) None None None
                 None None None None None in
  let resume := Body.mk None None None None None None None (Some true) None None None
                  None None None None None in
  let st1 := snd (put_session t1 id pause st) in
  let st2 := snd (put_session t2 id resume st1) in
  let p := Session.songPosition s + elapsed_since t1 t0 + elapsed_since t3 t2 in
  reported_position (get_session t3 id st2)
  = Some (if Z.ltb 0 (Session.songDuration s)
          then Z.min p (Session.songDuration s) else p).
Proof.
  intros Hs Ha Hrun Ht2 pause resume st1 st2 p.
  pose proof (put_session_stored t1 id pause st s Hs Ha) as Hst1.
  pose proof (put_active_pause t1 pause s (history st) t0 eq_refl eq_refl eq_refl Hrun) as F.
  cbv zeta in F. destruct F as (P1 & _ & L1 & Pl1 & A1).
  set (s1 := fst (put_active t1 pause s (history st))) in *.
  assert (D1 : Session.songDuration s1 = Session.songDuration s)
    by (subst s1; apply put_active_songDuration).
  assert (Ha1 : Session.active s1 = true) by congruence.
  pose proof (put_session_stored t2 id resume st1 s1 Hst1 Ha1) as Hst2.
  pose proof (put_active_resume t2 resume s1 (history st1) eq_refl eq_refl eq_refl Pl1) as F.
  cbv zeta in F. destruct F as (P2 & _ & L2 & Pl2 & _).
  set (s2 := fst (put_active t2 resume s1 (history st1))) in *.
  assert (D2 : Session.songDuration s2 = Session.songDuration s1)
    by (subst s2; apply put_active_songDuration).
  subst st2. rewrite (get_session_stored _ _ _ _ Hst2).
  cbn [reported_position view View.position]. unfold currentPosition.
  assert (running_since s2 = Some t2) as -> by (apply running_since_spec; auto).
  rewrite P2, P1, D2, D1. reflexivity.
Qed.

Lemma pause_resume_excludes_pause_witness :
  reported_position
    (get_session 101000 "s1"
       (snd (put_session 91000 "s1"
               (Body.mk None None None None None None None (Some true) None None None
                  None None None None None)
               (snd (put_session 31000 "s1"
                       (Body.mk None None None None None None None (Some false) None None
                          None None None None None None)
                       (one_session "s1" (radiohead 1000) []))))))
  = Some 40.
Proof.
  apply (pause_resume_excludes_pause 1000 31000 91000 101000 "s1"
           (one_session "s1" (radiohead 1000) []) (radiohead 1000));
    first [apply lookup_singleton_eq | reflexivity | lia].
Defined.

(** X7.  Ending a session.  DELETE answers 200 and marks the session
    stopped; afterwards every PUT is rejected with 410 and changes
    nothing, a GET reports the status "stopped", and a second DELETE is
    answered 200 again (not 404) and leaves the store as it is. *)
Theorem delete_is_final t1 t2 id b st s :
  sessions st !! id = Some s ->
  let st1 := snd (delete_session t1 id st) in
  status_of (fst (delete_session t1 id st)) = 200
  /\ status_of (fst (put_session t2 id b st1)) = 410
  /\ snd (put_session t2 id b st1) = st1
  /\ (exists v, get_session t2 id st1 = Json 200 (PView v)
                /\ View.status v = "stopped" /\ View.playing v = false)
  /\ delete_session t2 id st1 = (Json 200 PEnded, st1).
Proof.
  intros Hs st1.
  pose (s1 := Session.set_lastPlayStart None
                (Session.set_playing false
                   (Session.set_active false (updateSongPosition t1 s)))).
  assert (E : delete_session t1 id st
              = (Json 200 PEnded, mkState (<[id := s1]> (sessions st)) (history st)))
    by (unfold delete_session; rewrite Hs; reflexivity).
  assert (Est : st1 = mkState (<[id := s1]> (sessions st)) (history st))
    by (subst st1; rewrite E; reflexivity).
  clearbody st1. subst st1. rewrite E.
  set (st1 := mkState _ _).
  assert (Hst1 : sessions st1 !! id = Some s1) by (subst st1; cbn; apply lookup_insert_eq).
  split; [reflexivity|].
  split; [unfold put_session; rewrite Hst1; reflexivity|].
  split; [unfold put_session; rewrite Hst1; reflexivity|].
  split.
  - eexists. rewrite (get_session_stored _ _ _ _ Hst1). split; [reflexivity|].
    split; reflexivity.
  - unfold delete_session. rewrite Hst1. f_equal.
    assert (updateSongPosition t2 s1 = s1) as ->.
    { unfold updateSongPosition. rewrite running_since_paused; reflexivity. }
    subst st1. cbn [sessions history]. f_equal.
    change (<[id := s1]> (<[id := s1]> (sessions st)) = <[id := s1]> (sessions st)).
    apply insert_insert_eq.
Qed.

Lemma delete_is_final_witness :
  status_of (fst (put_session 3000 "s1" scenario_body
                    (snd (delete_session 2000 "s1"
                            (one_session "s1" (radiohead 1000) []))))) = 410.
Proof.
  destruct (delete_is_final 2000 3000 "s1" scenario_body
              (one_session "s1" (radiohead 1000) []) (radiohead 1000))
    as (_ & H & _); [apply lookup_singleton_eq|].
  exact H.
Defined.

Lemma put_position_explicit now b changed s p :
  Body.position b = Some p ->
  put_position now b changed s =
  Session.set_lastPlayStart (anchor now (Body.playing b)) (Session.set_songPosition p s).
Proof. intros H. unfold put_position. rewrite H. reflexivity. Qed.

(** X8.  A PUT that carries a position is authoritative and adds no
    play time: the stored position is the one sent, [lastPlayStart] is
    the time of the request when the body says [playing: true] and null
    otherwise, and [totalPlayTime] keeps its value.  When the body does
    not say [playing: true], later reads no longer depend on the clock. *)
Theorem put_with_position now id b st s p :
  sessions st !! id = Some s ->
  Session.active s = true ->
  Body.position b = Some p ->
  exists s',
    sessions (snd (put_session now id b st)) !! id = Some s'
    /\ Session.songPosition s' = p
    /\ Session.lastPlayStart s' = anchor now (Body.playing b)
    /\ Session.totalPlayTime s' = Session.totalPlayTime s
    /\ (Body.playing b <> Some true ->
        forall later, currentPosition later s' = currentPosition now s').
Proof.
  intros Hs Ha Hp. exists (fst (put_active now b s (history st))).
  split; [apply put_session_stored; assumption|].
  assert (F : let s' := fst (put_active now b s (history st)) in
              Session.songPosition s' = p
              /\ Session.lastPlayStart s' = anchor now (Body.playing b)
              /\ Session.totalPlayTime s' = Session.totalPlayTime s).
  { unfold put_active. rewrite (put_position_explicit _ _ _ _ _ Hp).
    set (s1 := Session.set_lastPlayStart _ _).
    assert (H2 : let s2 := fst (put_song_change now b (songChanged b s) s1 (history st)) in
                 Session.songPosition s2 = p
                 /\ Session.lastPlayStart s2 = anchor now (Body.playing b)
                 /\ Session.totalPlayTime s2 = Session.totalPlayTime s
                 /\ Session.playing s2 = Session.playing s).
    { unfold put_song_change. rewrite Hp.
      destruct (Body.song b); [|subst s1; cbn; auto].
      destruct (songChanged b s); subst s1; cbn; auto. }
    destruct (put_song_change now b (songChanged b s) s1 (history st)) as [s2 h2].
    cbv zeta in H2. cbn [fst] in H2. destruct H2 as (P2 & L2 & T2 & Pl2). cbn [fst].
    unfold put_playing.
    destruct (Body.playing b) as [pl|] eqn:Epl;
      [|cbn; rewrite put_info_songPosition, put_info_lastPlayStart, put_info_totalPlayTime;
        auto].
    destruct (negb (songChanged b s));
      [|cbn; rewrite put_info_songPosition, put_info_lastPlayStart, put_info_totalPlayTime;
        auto].
    rewrite put_info_playing, Pl2.
    destruct pl, (Session.playing s); cbn;
      rewrite ?put_info_songPosition, ?put_info_lastPlayStart, ?put_info_totalPlayTime;
      auto.
    unfold updateSongPosition.
    rewrite running_since_unanchored
      by (rewrite put_info_lastPlayStart, L2; reflexivity).
    rewrite put_info_songPosition, put_info_totalPlayTime. auto. }
  cbv zeta in F. destruct F as (P & L & T). repeat (split; [assumption|]).
  intros Hnot later.
  assert (Hstop : running_since (fst (put_active now b s (history st))) = None).
  { apply running_since_unanchored. rewrite L. unfold anchor.
    destruct (Body.playing b) as [[|]|]; [congruence|reflexivity|reflexivity]. }
  rewrite !currentPosition_stopped by exact Hstop. reflexivity.
Qed.

Lemma put_with_position_witness :
  exists s',
    sessions (snd (put_session 2000 "s1"
                     (Body.mk None None None None None None (Some 42) None None None None
                        None None None None None)
                     (one_session "s1" (radiohead 1000) []))) !! "s1" = Some s'
    /\ Session.songPosition s' = 42
    /\ Session.lastPlayStart s' = None.
Proof.
  destruct (put_with_position 2000 "s1"
              (Body.mk None None None None None None (Some 42) None None None None
                 None None None None None)
              (one_session "s1" (radiohead 1000) []) (radiohead 1000) 42)
    as (s' & H1 & H2 & H3 & _);
    [apply lookup_singleton_eq | reflexivity | reflexivity |].
  exists s'. split; [exact H1|]. split; [exact H2|exact H3].
Defined.

Lemma elapsed_since_mono now1 now2 start :
  now1 <= now2 -> elapsed_since now1 start <= elapsed_since now2 start.
Proof. intros H. unfold elapsed_since. apply Z.div_le_mono; lia. Qed.

(** X9.  On an unchanged session the reported position never moves
    backwards as the clock advances, and it never exceeds a positive
    duration. *)
Theorem reported_position_monotone now1 now2 (s : Session.t) :
  now1 <= now2 ->
  currentPosition now1 s <= currentPosition now2 s
  /\ (0 < Session.songDuration s -> currentPosition now2 s <= Session.songDuration s).
Proof.
  intros H. unfold currentPosition.
  destruct (running_since s) as [start|].
  - pose proof (elapsed_since_mono now1 now2 start H).
    destruct (Z.ltb_spec 0 (Session.songDuration s)); split; lia.
  - destruct (Z.ltb_spec 0 (Session.songDuration s)); split; lia.
Qed.

Lemma reported_position_monotone_witness :
  currentPosition 1000 (radiohead 1000) <= currentPosition 5000 (radiohead 1000).
Proof.
  assert (H : 1000 <= 5000) by lia.
  destruct (reported_position_monotone 1000 5000 (radiohead 1000) H) as [H1 _].
  exact H1.
Defined.


(** ** History endpoints *)

Lemma limit_of_default parsed :
  Js.truthy_num parsed = false -> HistoryApi.limit_of parsed = 10.
Proof.
  intros H. unfold HistoryApi.limit_of, Js.num_or, Js.or_num. rewrite H. reflexivity.
Qed.

Lemma limit_of_max parsed : HistoryApi.limit_of parsed <= 50.
Proof. unfold HistoryApi.limit_of, MAX_HISTORY_ITEMS. lia. Qed.

Lemma slice0_length {A : Type} n (l : list A) :
  Z.of_nat (length (HistoryApi.slice0 n l)) =
  if Z.ltb n 0 then Z.max (Z.of_nat (length l) + n) 0
  else Z.min n (Z.of_nat (length l)).
Proof.
  unfold HistoryApi.slice0. destruct (Z.ltb_spec n 0); rewrite length_firstn; lia.
Qed.

Lemma slice0_nonneg {A : Type} n (l : list A) :
  0 <= n -> HistoryApi.slice0 n l = firstn (Z.to_nat n) l.
Proof.
  intros H. unfold HistoryApi.slice0. destruct (Z.ltb_spec n 0); [lia|reflexivity].
Qed.

(** A negative end leaves out the last elements and keeps the order. *)
Lemma slice0_negative {A : Type} n (l : list A) :
  n < 0 ->
  exists dropped,
    l = (HistoryApi.slice0 n l ++ dropped)%list
    /\ Z.of_nat (length dropped) = Z.min (- n) (Z.of_nat (length l)).
Proof.
  intros H. unfold HistoryApi.slice0. destruct (Z.ltb_spec n 0); [|lia].
  exists (skipn (Z.to_nat (Z.max (Z.of_nat (length l) + n) 0)) l).
  split; [symmetry; apply firstn_skipn|]. rewrite length_skipn. lia.
Qed.

Lemma slice0_In {A : Type} n (l : list A) x : In x (HistoryApi.slice0 n l) -> In x l.
Proof.
  assert (Hf : forall k, In x (firstn k l) -> In x l).
  { intros k H. rewrite <- (firstn_skipn k l). apply in_or_app. left. exact H. }
  unfold HistoryApi.slice0. destruct (Z.ltb n 0); apply Hf.
Qed.

Lemma of_app_spec a e : HistoryApi.of_app a e = true <-> Entry.app e = a.
Proof. unfold HistoryApi.of_app. apply String.eqb_eq. Qed.

Lemma of_user_spec uid e :
  HistoryApi.of_user uid e = true <->
  exists u, Entry.user e = Some u /\ User.id u = Some uid.
Proof.
  unfold HistoryApi.of_user. destruct (Entry.user e) as [u|].
  - destruct (User.id u) as [i|] eqn:E.
    + rewrite String.eqb_eq. split.
      * intros ->. exists u. auto.
      * intros (u' & [= <-] & Hi). congruence.
    + split; [discriminate|]. intros (u' & [= <-] & Hi). congruence.
  - split; [discriminate|]. intros (u' & Hu & _). discriminate.
Qed.

(** X11.  GET /history.  [total] is the size of the history.  Without a
    usable [limit] (absent, not a number, or 0) ten tracks are asked
    for; the limit never exceeds 50.  For a limit that is not negative
    the answer lists the first [limit] entries and [count] is their
    number.  A negative limit [-k] is passed on to [slice]: the answer
    then lists the history, in its order, without its last [k]
    entries, while [count] is the negative limit itself. *)
Theorem get_history_listing parsed st :
  let r := HistoryApi.get_history parsed st in
  let limit := HistoryApi.limit_of parsed in
  HistoryApi.total r = Z.of_nat (length (history st))
  /\ (Js.truthy_num parsed = false -> limit = 10)
  /\ limit <= 50
  /\ (0 <= limit ->
      HistoryApi.tracks r = firstn (Z.to_nat limit) (history st)
      /\ HistoryApi.count r = Z.of_nat (length (HistoryApi.tracks r))
      /\ HistoryApi.count r <= 50)
  /\ (limit < 0 ->
      HistoryApi.count r = limit
      /\ exists dropped,
           history st = (HistoryApi.tracks r ++ dropped)%list
           /\ Z.of_nat (length dropped)
              = Z.min (- limit) (Z.of_nat (length (history st)))).
Proof.
  cbv zeta. split; [reflexivity|]. split; [apply limit_of_default|].
  split; [apply limit_of_max|].
  pose proof (limit_of_max parsed) as Hmax.
  unfold HistoryApi.get_history.
  cbn [HistoryApi.tracks HistoryApi.count]. split.
  - intros H0. rewrite slice0_length, (slice0_nonneg _ _ H0).
    destruct (Z.ltb_spec (HistoryApi.limit_of parsed) 0); [lia|].
    split; [reflexivity|]. lia.
  - intros H0. split; [lia|]. apply slice0_negative, H0.
Qed.

Lemma get_history_listing_witness :
  let r := HistoryApi.get_history (Some (-1)) (mkState ∅ sample_history) in
  HistoryApi.count r = -1
  /\ exists dropped,
       sample_history = (HistoryApi.tracks r ++ dropped)%list
       /\ Z.of_nat (length dropped) = 1.
Proof.
  intros r.
  pose proof (get_history_listing (Some (-1)) (mkState ∅ sample_history)) as H.
  cbv zeta in H. destruct H as (_ & _ & _ & _ & H).
  destruct H as [H (dropped & Hd & Hl)]; [reflexivity|].
  split; [exact H|]. exists dropped. split; [exact Hd|exact Hl].
Defined.

(** X12.  GET /history/session/:id.  For a stored session the answer
    names the session's app and lists, in the order of the history,
    the entries recorded for that app, cut by the limit; [total] is the
    number of entries of that app and [count] the number listed.  For
    an identifier that is neither stored nor the name of a member of
    [Object.prototype] the answer is the global listing; for such a
    name with no session stored under it the answer lists nothing. *)
Theorem get_history_session_listing parsed id st :
  (forall s, sessions st !! id = Some s ->
     let r := HistoryApi.get_history_session parsed id st in
     let limit := HistoryApi.limit_of parsed in
     let recorded := List.filter (HistoryApi.of_app (Session.app s)) (history st) in
     HistoryApi.app r = Some (Session.app s)
     /\ (forall e, In e recorded <-> In e (history st) /\ Entry.app e = Session.app s)
     /\ HistoryApi.total r = Z.of_nat (length recorded)
     /\ (0 <= limit -> HistoryApi.tracks r = firstn (Z.to_nat limit) recorded)
     /\ (limit < 0 ->
         exists dropped,
           recorded = (HistoryApi.tracks r ++ dropped)%list
           /\ Z.of_nat (length dropped) = Z.min (- limit) (Z.of_nat (length recorded)))
     /\ HistoryApi.count r = Z.of_nat (length (HistoryApi.tracks r))
     /\ 0 <= HistoryApi.count r <= HistoryApi.total r)
  /\ (sessions st !! id = None -> inherited id = false ->
      HistoryApi.get_history_session parsed id st = HistoryApi.get_history parsed st)
  /\ (sessions st !! id = None -> inherited id = true ->
      HistoryApi.get_history_session parsed id st = HistoryApi.mkListing 0 0 None None []).
Proof.
  split; [|split].
  - intros s Hs. cbv zeta. unfold HistoryApi.get_history_session. rewrite Hs.
    cbn [HistoryApi.app HistoryApi.tracks HistoryApi.count HistoryApi.total].
    split; [reflexivity|]. split; [|split; [reflexivity|]].
    { intros e. rewrite filter_In, of_app_spec. reflexivity. }
    split; [apply slice0_nonneg|]. split; [apply slice0_negative|].
    split; [reflexivity|]. rewrite slice0_length.
    destruct (Z.ltb_spec (HistoryApi.limit_of parsed) 0); lia.
  - intros Hn Hi. unfold HistoryApi.get_history_session. rewrite Hn, Hi. reflexivity.
  - intros Hn Hi. unfold HistoryApi.get_history_session. rewrite Hn, Hi. reflexivity.
Qed.

Lemma get_history_session_listing_witness :
  let st := one_session "s1" (radiohead 1000) sample_history in
  (HistoryApi.tracks (HistoryApi.get_history_session None "s1" st)
   = [ played "Karma Police" "Radiohead" "Spotify" (Some alice) 3000;
       played "Paranoid Android" "Radiohead" "Spotify" (Some alice) 1000 ]
   /\ HistoryApi.total (HistoryApi.get_history_session None "s1" st) = 2)
  /\ HistoryApi.get_history_session None "nobody" st = HistoryApi.get_history None st
  /\ HistoryApi.get_history_session None "constructor" st
     = HistoryApi.mkListing 0 0 None None [].
Proof.
  intros st.
  destruct (get_history_session_listing None "s1" st) as [H1 _].
  destruct (get_history_session_listing None "nobody" st) as (_ & H2 & _).
  destruct (get_history_session_listing None "constructor" st) as (_ & _ & H3).
  split; [|split].
  - destruct (H1 (radiohead 1000)) as (_ & _ & Ht & Hl & _);
      [apply lookup_singleton_eq|].
    rewrite Ht, Hl by (vm_compute; discriminate). split; reflexivity.
  - apply H2; [apply lookup_singleton_ne; discriminate | reflexivity].
  - apply H3; [apply lookup_singleton_ne; discriminate | reflexivity].
Defined.

Lemma filter_length_lt {A : Type} (f : A -> bool) (l : list A) :
  (length (List.filter f l) < length l)%nat <-> exists x, In x l /\ f x = false.
Proof.
  induction l as [|a l IH]; cbn.
  - split; [lia|]. intros (x & [] & _).
  - pose proof (List.filter_length_le f l) as Hle.
    destruct (f a) eqn:E; cbn.
    + rewrite <- Nat.succ_lt_mono, IH. split.
      * intros (x & Hin & Hx). eauto.
      * intros (x & [-> | Hin] & Hx); [congruence|eauto].
    + split; [|lia]. intros _. exists a. auto.
Qed.

(** X13.  DELETE /history/:trackId answers "not found" exactly when no
    entry has the key, and then changes nothing.  Otherwise it removes
    every entry with the key and keeps all the others; the sessions are
    never touched. *)
Theorem delete_track_removes_key trackId st :
  let out := HistoryApi.delete_track trackId st in
  (fst out = HistoryApi.NotFound <->
   forall e, In e (history st) -> Entry.id e <> trackId)
  /\ (fst out = HistoryApi.NotFound -> snd out = st)
  /\ (forall e, In e (history (snd out)) <->
                In e (history st) /\ Entry.id e <> trackId)
  /\ sessions (snd out) = sessions st.
Proof.
  cbv zeta. unfold HistoryApi.delete_track.
  set (keep := fun e => negb (has_id trackId e)).
  assert (Hkeep : forall e, keep e = true <-> Entry.id e <> trackId).
  { intros e. unfold keep, has_id. rewrite negb_true_iff.
    destruct (String.eqb_spec (Entry.id e) trackId); split; congruence. }
  assert (Hnone : (forall e, In e (history st) -> Entry.id e <> trackId) ->
                  List.filter keep (history st) = history st).
  { intros H. induction (history st) as [|a l IH]; [reflexivity|]. cbn.
    rewrite (proj2 (Hkeep a)) by (apply H; left; reflexivity).
    f_equal. apply IH. intros e He. apply H. right. exact He. }
  destruct (Nat.ltb_spec (length (List.filter keep (history st))) (length (history st)))
    as [Hlt|Hge]; cbn [fst snd history sessions].
  - split; [|split; [discriminate|split; [|reflexivity]]].
    + split; [discriminate|]. intros H. rewrite (Hnone H) in Hlt. lia.
    + intros e. rewrite filter_In, Hkeep. reflexivity.
  - assert (Hall : forall e, In e (history st) -> Entry.id e <> trackId).
    { intros e He Hid.
      assert (Hlt : (length (List.filter keep (history st)) < length (history st))%nat).
      { apply filter_length_lt. exists e. split; [exact He|].
        destruct (keep e) eqn:E; [|reflexivity]. apply Hkeep in E. contradiction. }
      lia. }
    split; [split; auto|]. split.
    + intros _. rewrite (Hnone Hall). destruct st; reflexivity.
    + split; [|reflexivity]. intros e. rewrite filter_In, Hkeep. reflexivity.
Qed.

Lemma delete_track_removes_key_witness :
  let st := one_session "s1" (radiohead 1000) sample_history in
  (fst (HistoryApi.delete_track "hello-adele" st) <> HistoryApi.NotFound
   /\ In (played "Karma Police" "Radiohead" "Spotify" (Some alice) 3000)
        (history (snd (HistoryApi.delete_track "hello-adele" st)))
   /\ ~ In (played "Hello" "Adele" "VLC Media Player" None 2000)
          (history (snd (HistoryApi.delete_track "hello-adele" st))))
  /\ snd (HistoryApi.delete_track "hello-kitty" st) = st.
Proof.
  intros st.
  destruct (delete_track_removes_key "hello-adele" st) as (Hfound & _ & Hin & _).
  destruct (delete_track_removes_key "hello-kitty" st) as (Hnone & Hsame & _).
  split; [split; [|split]|].
  - intros Hn. apply (proj1 Hfound Hn (played "Hello" "Adele" "VLC Media Player" None 2000)).
    + right. left. reflexivity.
    + reflexivity.
  - apply Hin. split; [left; reflexivity | discriminate].
  - intros Hx. apply Hin in Hx as [_ Hx]. apply Hx. reflexivity.
  - apply Hsame, Hnone. intros e He.
    destruct He as [<-|[<-|[<-|[]]]]; discriminate.
Defined.

(** X10.  GET /history/user/:userId.  The answer lists, in the order of
    the history and cut by the limit, the entries whose recorded user
    has the identifier asked for; an entry recorded without a user, or
    with a user without an identifier, is never listed.  [total] is the
    number of entries of that user and [count] the number listed, which
    is never negative. *)
Theorem get_history_user_listing parsed uid st :
  let r := HistoryApi.get_history_user parsed uid st in
  let limit := HistoryApi.limit_of parsed in
  let recorded := List.filter (HistoryApi.of_user uid) (history st) in
  HistoryApi.userId r = Some uid
  /\ (forall e, In e recorded <->
        In e (history st)
        /\ exists u, Entry.user e = Some u /\ User.id u = Some uid)
  /\ HistoryApi.total r = Z.of_nat (length recorded)
  /\ (0 <= limit -> HistoryApi.tracks r = firstn (Z.to_nat limit) recorded)
  /\ (limit < 0 ->
      exists dropped,
        recorded = (HistoryApi.tracks r ++ dropped)%list
        /\ Z.of_nat (length dropped) = Z.min (- limit) (Z.of_nat (length recorded)))
  /\ HistoryApi.count r = Z.of_nat (length (HistoryApi.tracks r))
  /\ 0 <= HistoryApi.count r <= HistoryApi.total r.
Proof.
  cbv zeta. unfold HistoryApi.get_history_user.
  cbn [HistoryApi.userId HistoryApi.tracks HistoryApi.count HistoryApi.total].
  split; [reflexivity|]. split; [|split; [reflexivity|]].
  { intros e. rewrite filter_In, of_user_spec. reflexivity. }
  split; [apply slice0_nonneg|]. split; [apply slice0_negative|].
  split; [reflexivity|]. rewrite slice0_length.
  destruct (Z.ltb_spec (HistoryApi.limit_of parsed) 0); lia.
Qed.

Lemma get_history_user_listing_witness :
  let r := HistoryApi.get_history_user None "u1" (mkState ∅ sample_history) in
  HistoryApi.tracks r
  = [ played "Karma Police" "Radiohead" "Spotify" (Some alice) 3000;
      played "Paranoid Android" "Radiohead" "Spotify" (Some alice) 1000 ]
  /\ HistoryApi.total r = 2.
Proof.
  intros r.
  pose proof (get_history_user_listing None "u1" (mkState ∅ sample_history)) as H.
  cbv zeta in H. destruct H as (_ & _ & Ht & Hl & _).
  subst r. rewrite Ht, Hl by (vm_compute; discriminate). split; reflexivity.
Defined.

(** ** Background sweeps *)

Lemma cleanup_lookup now st id s :
  sessions (Sweep.cleanup now st) !! id = Some s <->
  sessions st !! id = Some s /\ Sweep.expired now s = false.
Proof.
  unfold Sweep.cleanup. cbn [sessions]. rewrite map_lookup_filter_Some. reflexivity.
Qed.

Lemma expired_false now s :
  Sweep.expired now s = false <->
  (Session.active s = true -> now - Session.lastUpdated s <= 21600000)
  /\ (Session.active s = false -> now - Session.createdAt s <= 3600000).
Proof.
  unfold Sweep.expired.
  destruct (Session.active s); cbn [negb andb].
  - destruct (Z.ltb_spec 21600000 (now - Session.lastUpdated s)) as [Hc|Hc]; split.
    + discriminate.
    + intros [Hx _]. specialize (Hx eq_refl). lia.
    + intros _. split; [intros _; assumption|discriminate].
    + reflexivity.
  - destruct (Z.ltb_spec 3600000 (now - Session.createdAt s)) as [Hc|Hc]; split.
    + discriminate.
    + intros [_ Hx]. specialize (Hx eq_refl). lia.
    + intros _. split; [discriminate|intros _; assumption].
    + reflexivity.
Qed.

(** X14.  The clean-up sweep.  A session survives exactly when it is
    not expired, and it survives unchanged: active sessions are kept
    while their last update is at most six hours old, ended sessions
    while their creation is at most one hour old.  The history is not
    touched, and sweeping twice at the same time is sweeping once. *)
Theorem cleanup_keeps_fresh_sessions now st :
  (forall id s,
     sessions (Sweep.cleanup now st) !! id = Some s <->
     sessions st !! id = Some s
     /\ (Session.active s = true -> now - Session.lastUpdated s <= 21600000)
     /\ (Session.active s = false -> now - Session.createdAt s <= 3600000))
  /\ history (Sweep.cleanup now st) = history st
  /\ Sweep.cleanup now (Sweep.cleanup now st) = Sweep.cleanup now st.
Proof.
  split; [|split; [reflexivity|]].
  - intros id s. rewrite cleanup_lookup, expired_false. reflexivity.
  - unfold Sweep.cleanup. cbn [sessions history]. f_equal.
    apply map_eq. intros id. apply option_eq. intros s.
    rewrite !map_lookup_filter_Some. tauto.
Qed.

Lemma cleanup_keeps_fresh_sessions_witness :
  sessions (Sweep.cleanup 5000 (one_session "s1" (radiohead 1000) [])) !! "s1"
  = Some (radiohead 1000).
Proof.
  destruct (cleanup_keeps_fresh_sessions 5000 (one_session "s1" (radiohead 1000) []))
    as [H _].
  apply H. split; [apply lookup_singleton_eq|]. split; intros _; [cbn; lia|discriminate].
Defined.

Lemma updateSongPosition_createdAt now s :
  Session.createdAt (updateSongPosition now s) = Session.createdAt s.
Proof. unfold updateSongPosition. destruct (running_since s); reflexivity. Qed.

(** X15.  Retention of an ended session is counted from its creation,
    not from its end: a session that is ended more than one hour after
    it was created is removed by the next sweep, however recently it
    was ended. *)
Theorem ended_session_swept_by_age t_end now id st s :
  sessions st !! id = Some s ->
  3600000 < now - Session.createdAt s ->
  sessions (Sweep.cleanup now (snd (delete_session t_end id st))) !! id = None.
Proof.
  intros Hs Hage. apply eq_None_not_Some. intros [x Hx].
  apply cleanup_lookup in Hx as [Hx Hexp].
  unfold delete_session in Hx. rewrite Hs in Hx. cbn in Hx.
  rewrite lookup_insert_eq in Hx. injection Hx as <-.
  unfold Sweep.expired in Hexp. cbn in Hexp.
  rewrite updateSongPosition_createdAt in Hexp.
  destruct (Z.ltb_spec 3600000 (now - Session.createdAt s)); [discriminate|lia].
Qed.

Lemma ended_session_swept_by_age_witness :
  sessions (Sweep.cleanup 3700000
              (snd (delete_session 3699000 "s1" (one_session "s1" (radiohead 1000) []))))
    !! "s1" = None.
Proof.
  apply (ended_session_swept_by_age 3699000 3700000 "s1" _ (radiohead 1000)).
  - apply lookup_singleton_eq.
  - cbn. lia.
Defined.



(** ** [ensureHttps] *)

Lemma substring_all s : String.substring 0 (String.length s) s = s.
Proof. induction s as [|c s IH]; cbn; [reflexivity|]. rewrite IH. reflexivity. Qed.

Lemma prefix_app p s : String.prefix p s = true -> exists r, s = p ++ r.
Proof.
  revert s. induction p as [|a p IH]; intros s H.
  - exists s. reflexivity.
  - destruct s as [|b s]; [discriminate|].
    change (String.prefix (String a p) (String b s))
      with (if ascii_dec a b then String.prefix p s else false) in H.
    destruct (ascii_dec a b) as [->|]; [|discriminate].
    destruct (IH s H) as [r ->]. exists r. reflexivity.
Qed.

Lemma prefix_http_inv u :
  String.prefix "http://" u = true -> exists r, u = "http://" ++ r.
Proof. apply prefix_app. Qed.

(** X17.  [ensureHttps] turns a leading "http://" into "https://" and
    changes nothing else: its result never starts with "http://", a URL
    without that prefix is returned as it is, and applying it twice is
    applying it once. *)
Theorem ensureHttps_upgrades url :
  (forall r, ensureHttps url = Some r -> Str.startsWith r "http://" = false)
  /\ (forall u, url = Some u -> Str.startsWith u "http://" = false ->
                ensureHttps url = Some u)
  /\ (forall r, url = Some ("http://" ++ r) -> ensureHttps url = Some ("https://" ++ r))
  /\ ensureHttps (ensureHttps url) = ensureHttps url.
Proof.
  assert (Hup : forall r, ensureHttps (Some ("http://" ++ r)) = Some ("https://" ++ r)).
  { intros r.
    change ("http://" ++ r)
      with (String "h" (String "t" (String "t" (String "p" (String ":"
              (String "/" (String "/" r))))))).
    unfold ensureHttps, Str.startsWith. cbn.
    rewrite Nat.sub_0_r, substring_all.
    assert (String.prefix "" r = true) as -> by (destruct r; reflexivity).
    reflexivity. }
  assert (Hid : forall u, Str.startsWith u "http://" = false -> ensureHttps (Some u) = Some u).
  { intros u H. unfold ensureHttps. rewrite H. destruct (negb _); reflexivity. }
  assert (Hres : forall r, ensureHttps url = Some r -> Str.startsWith r "http://" = false).
  { intros r. destruct url as [u|]; [|discriminate].
    destruct (Str.startsWith u "http://") eqn:E.
    - apply prefix_http_inv in E as [x ->]. rewrite Hup. intros [= <-]. reflexivity.
    - rewrite (Hid u E). intros [= <-]. exact E. }
  split; [exact Hres|]. split; [intros u ->; apply Hid|]. split; [intros r ->; apply Hup|].
  destruct (ensureHttps url) as [r|] eqn:E; [|reflexivity].
  apply Hid, Hres. reflexivity.
Qed.

Lemma ensureHttps_upgrades_witness :
  ensureHttps (Some "http://img.example/a.png") = Some "https://img.example/a.png".
Proof.
  destruct (ensureHttps_upgrades (Some "http://img.example/a.png")) as (_ & _ & H & _).
  apply (H "img.example/a.png"). reflexivity.
Defined.

(** * Further properties of the Electron client *)

Lemma failures_exhausted n rc :
  Reconnect.MAX_RETRIES <= rc -> snd (Reconnect.failures n rc) = [].
Proof.
  revert rc. induction n as [|n IH]; intros rc H; [reflexivity|].
  cbn [Reconnect.failures]. unfold Reconnect.scheduleReconnect. cbn [negb].
  destruct (Z.ltb_spec Reconnect.MAX_RETRIES (rc + 1)); [|lia].
  specialize (IH (rc + 1) ltac:(lia)).
  destruct (Reconnect.failures n (rc + 1)) as [rc' rest]. exact IH.
Qed.

Lemma failures_step n rc :
  0 <= rc < Reconnect.MAX_RETRIES ->
  snd (Reconnect.failures (S n) rc)
  = 5000 * (rc + 1) :: snd (Reconnect.failures n (rc + 1)).
Proof.
  unfold Reconnect.MAX_RETRIES. intros H. cbn [Reconnect.failures].
  unfold Reconnect.scheduleReconnect, Reconnect.MAX_RETRIES. cbn [negb].
  destruct (Z.ltb_spec 5 (rc + 1)); [lia|].
  destruct (Reconnect.failures n (rc + 1)) as [rc' rest]. cbn [snd].
  rewrite Z.min_l by lia. reflexivity.
Qed.

(** X18.  Reconnection to Discord.  While the app runs, the k-th
    failure in a row sets a timer of 5 k seconds for k = 1..5 and no
    timer from the sixth on, so at most five reconnections are tried
    and the delay never reaches the cap of 30 seconds.  When the app is
    stopping nothing is scheduled and the counter keeps its value. *)
Theorem reconnect_backoff (retryCount : Z) (n : nat) :
  0 <= retryCount ->
  (forall d, snd (Reconnect.scheduleReconnect true retryCount) = Some d ->
             retryCount < 5 /\ d = 5000 * (retryCount + 1) /\ 5000 <= d <= 25000)
  /\ (5 <= retryCount -> snd (Reconnect.scheduleReconnect true retryCount) = None)
  /\ Reconnect.scheduleReconnect false retryCount = (retryCount, None)
  /\ snd (Reconnect.failures n 0) = firstn n [5000; 10000; 15000; 20000; 25000].
Proof.
  intros H0. unfold Reconnect.scheduleReconnect, Reconnect.MAX_RETRIES. cbn [negb].
  split; [|split; [|split; [reflexivity|]]].
  - intros d. destruct (Z.ltb_spec 5 (retryCount + 1)); cbn [snd]; [discriminate|].
    intros [= <-]. lia.
  - intros H. destruct (Z.ltb_spec 5 (retryCount + 1)); [reflexivity|lia].
  - do 5 (destruct n as [|n]; [reflexivity|]).
    rewrite !failures_step by (unfold Reconnect.MAX_RETRIES; lia).
    rewrite failures_exhausted by (unfold Reconnect.MAX_RETRIES; lia).
    destruct n; reflexivity.
Qed.

Lemma reconnect_backoff_witness :
  snd (Reconnect.failures 7 0) = [5000; 10000; 15000; 20000; 25000].
Proof.
  destruct (reconnect_backoff 0 7 ltac:(lia)) as (_ & _ & _ & H). exact H.
Defined.

(** X19.  Timestamps sent to Discord by [setDiscordPresence].  The
    start is the current second minus the position; when a duration is
    known the end lies exactly [duration] seconds after the start, and
    without a duration no end is sent. *)
Theorem presence_timestamps_span now (m : Electron.Media) :
  let ts := Electron.presence_timestamps now m in
  fst ts = now / 1000 - Electron.position m
  /\ (Electron.duration m = 0 -> snd ts = None)
  /\ (Electron.duration m <> 0 ->
      now - Electron.position m * 1000 + Electron.duration m * 1000 <> 0 ->
      snd ts = Some (fst ts + Electron.duration m)).
Proof.
  cbv zeta. unfold Electron.presence_timestamps, Js.truthy_num.
  assert (Hstart : (if negb (Z.eqb (Electron.position m) 0)
                    then now - Electron.position m * 1000 else now)
                   = now - Electron.position m * 1000).
  { destruct (Z.eqb_spec (Electron.position m) 0) as [->|]; cbn; [lia|reflexivity]. }
  rewrite Hstart. cbn [fst snd].
  assert (Hdiv : forall k, (now - Electron.position m * 1000 + k * 1000) / 1000
                           = now / 1000 - Electron.position m + k).
  { intros k. replace (now - Electron.position m * 1000 + k * 1000)
      with (now + (k - Electron.position m) * 1000) by lia.
    rewrite Z.div_add by lia. lia. }
  assert (Hs : (now - Electron.position m * 1000) / 1000 = now / 1000 - Electron.position m).
  { replace (now - Electron.position m * 1000)
      with (now + (- Electron.position m) * 1000) by lia.
    rewrite Z.div_add by lia. lia. }
  split; [exact Hs|split].
  - intros ->. reflexivity.
  - intros Hd Hne. destruct (Z.eqb_spec (Electron.duration m) 0); [contradiction|].
    cbn [negb].
    destruct (Z.eqb_spec (now - Electron.position m * 1000 + Electron.duration m * 1000) 0);
      [contradiction|]. cbn [negb option_map].
    rewrite Hdiv, Hs. reflexivity.
Qed.

Lemma presence_timestamps_span_witness :
  Electron.presence_timestamps 5000 (Electron.mkMedia "Hello" "Adele" "playing" 10 295)
  = (-5, Some 290).
Proof.
  pose proof (presence_timestamps_span 5000
                (Electron.mkMedia "Hello" "Adele" "playing" 10 295)) as H.
  cbv zeta in H. destruct H as (Hs & _ & He).
  specialize (He ltac:(discriminate) ltac:(discriminate)).
  destruct (Electron.presence_timestamps _ _) as [s e]. cbn [fst snd] in *.
  subst. reflexivity.
Defined.

Lemma clearDiscordPresence_session discord c :
  Electron.currentSessionId (Electron.clearDiscordPresence discord c)
  = Electron.currentSessionId c
  /\ Electron.lastSongId (Electron.clearDiscordPresence discord c) = Electron.lastSongId c
  /\ Electron.lastPlayingState (Electron.clearDiscordPresence discord c)
     = Electron.lastPlayingState c.
Proof. unfold Electron.clearDiscordPresence. destruct discord; auto. Qed.

(** X20.  When nothing is playing.  A poll without media ends the
    session if there is one (one DELETE request, nothing else), forgets
    the song and the play state, and a further poll without media sends
    nothing and changes nothing. *)
Theorem poll_without_media_stops d1 d2 t1 t2 k1 k2 c :
  let out := Electron.poll d1 t1 k1 None c in
  snd out = match Electron.session_id c with
            | Some id => [Electron.EndSession id]
            | None => []
            end
  /\ Electron.session_id (fst out) = None
  /\ (Electron.session_id c <> None \/ Electron.lastSongId c <> "" ->
      Electron.lastSongId (fst out) = "" /\ Electron.lastPlayingState (fst out) = false)
  /\ Electron.poll d2 t2 k2 None (fst out) = (fst out, []).
Proof.
  cbv zeta.
  assert (Hclear : forall d x,
            Electron.session_id (Electron.clearDiscordPresence d x) = Electron.session_id x).
  { intros d x. unfold Electron.session_id.
    destruct (clearDiscordPresence_session d x) as (-> & _). reflexivity. }
  assert (Hidle : forall d x,
            Electron.session_id x = None -> Electron.lastSongId x = "" ->
            Electron.on_stopped d x = (x, [])).
  { intros d x Hx Hl. unfold Electron.on_stopped.
    unfold Electron.session_id in Hx.
    destruct (Js.truthy_str (Electron.currentSessionId x)) eqn:E.
    - destruct (Electron.currentSessionId x); discriminate.
    - rewrite Hl. reflexivity. }
  unfold Electron.poll.
  destruct (Electron.session_id c) as [i|] eqn:Esid.
  - assert (Es : Js.truthy_str (Electron.currentSessionId c) = true).
    { unfold Electron.session_id in Esid.
      destruct (Js.truthy_str (Electron.currentSessionId c)); [reflexivity|discriminate]. }
    assert (E : Electron.on_stopped d1 c =
                (Electron.clearDiscordPresence d1
                   (Electron.set_lastPlayingState false
                      (Electron.set_lastSongId "" (Electron.set_currentSessionId None c))),
                 [Electron.EndSession i])).
    { unfold Electron.on_stopped. rewrite Es, Esid. reflexivity. }
    rewrite E. cbn [fst snd]. split; [reflexivity|].
    set (c1 := Electron.set_lastPlayingState false _).
    assert (H1 : Electron.session_id (Electron.clearDiscordPresence d1 c1) = None)
      by (rewrite Hclear; reflexivity).
    destruct (clearDiscordPresence_session d1 c1) as (_ & H2 & H3).
    split; [exact H1|]. split; [intros _; rewrite H2, H3; auto|].
    apply Hidle; [exact H1|rewrite H2; reflexivity].
  - assert (Es : Js.truthy_str (Electron.currentSessionId c) = false).
    { unfold Electron.session_id in Esid.
      destruct (Js.truthy_str (Electron.currentSessionId c)) eqn:E; [|reflexivity].
      destruct (Electron.currentSessionId c); discriminate. }
    destruct (Js.truthy_str (Some (Electron.lastSongId c))) eqn:El.
    + assert (E : Electron.on_stopped d1 c =
                  (Electron.clearDiscordPresence d1
                     (Electron.set_lastPlayingState false (Electron.set_lastSongId "" c)),
                   [])).
      { unfold Electron.on_stopped. rewrite Es, El, Esid. reflexivity. }
      rewrite E. cbn [fst snd]. split; [reflexivity|].
      set (c1 := Electron.set_lastPlayingState false _).
      assert (H1 : Electron.session_id (Electron.clearDiscordPresence d1 c1) = None).
      { rewrite Hclear. subst c1. unfold Electron.session_id. cbn. rewrite Es. reflexivity. }
      destruct (clearDiscordPresence_session d1 c1) as (_ & H2 & H3).
      split; [exact H1|]. split; [intros _; rewrite H2, H3; auto|].
      apply Hidle; [exact H1|rewrite H2; reflexivity].
    + assert (Hl : Electron.lastSongId c = "").
      { destruct (String.eqb_spec (Electron.lastSongId c) "") as [E|E]; [exact E|].
        apply truthy_str_true in E. congruence. }
      assert (E : Electron.on_stopped d1 c = (c, [])) by (apply Hidle; assumption).
      rewrite E. cbn [fst snd].
      split; [reflexivity|]. split; [exact Esid|]. split.
      * intros [H|H]; congruence.
      * apply Hidle; assumption.
Qed.

Lemma poll_without_media_stops_witness :
  Electron.lastSongId
    (fst (Electron.poll Electron.Ready 9000 None None
            (Electron.mkClient "Hello|Adele" true (Some "s1") (Some (-5, Some 290)))))
  = "".
Proof.
  destruct (poll_without_media_stops Electron.Ready Electron.Ready 9000 9000 None None
              (Electron.mkClient "Hello|Adele" true (Some "s1") (Some (-5, Some 290))))
    as (_ & _ & H & _).
  apply H. left. discriminate.
Defined.

Lemma update_call_no_create m c :
  existsb Observe.is_create (Electron.update_call m c) = false
  /\ existsb Observe.is_end (Electron.update_call m c) = false.
Proof. unfold Electron.update_call. destruct (Electron.session_id c); auto. Qed.

Lemma heartbeat_no_create m c :
  existsb Observe.is_create (Electron.heartbeat m c) = false
  /\ existsb Observe.is_end (Electron.heartbeat m c) = false.
Proof.
  unfold Electron.heartbeat. destruct (_ && _)%bool; [apply update_call_no_create|auto].
Qed.

Lemma on_play_state_no_create discord now m c :
  existsb Observe.is_create (snd (Electron.on_play_state discord now m c)) = false
  /\ existsb Observe.is_end (snd (Electron.on_play_state discord now m c)) = false.
Proof.
  unfold Electron.on_play_state. destruct (negb _); [|auto].
  cbn [snd]. apply update_call_no_create.
Qed.

Lemma on_song_change_creates discord now created m c :
  existsb Observe.is_create (snd (Electron.on_song_change discord now created m c))
  = (Electron.song_changed m c
     && match Electron.session_id c with None => true | Some _ => false end)%bool
  /\ existsb Observe.is_end (snd (Electron.on_song_change discord now created m c)) = false.
Proof.
  unfold Electron.on_song_change. destruct (Electron.song_changed m c); [|auto].
  assert (Hs : Electron.session_id (Electron.set_lastSongId (Electron.songId m) c)
               = Electron.session_id c) by reflexivity.
  rewrite Hs. destruct (Electron.session_id c) as [i|] eqn:E; cbn [snd andb].
  - rewrite !existsb_app.
    destruct (update_call_no_create m (Electron.set_lastSongId (Electron.songId m) c))
      as [-> ->]. auto.
  - auto.
Qed.

(** X21.  One poll of the Electron loop sends a POST /session exactly
    when it sees a real title, the song identity differs from the last
    one and no session is held; a poll that ends a session never creates
    one. *)
Theorem poll_creates_session_when discord now created media c :
  let calls := snd (Electron.poll discord now created media c) in
  (existsb Observe.is_create calls = true <->
   exists m, media = Some m
             /\ Electron.title m <> ""
             /\ Electron.isPlaceholder (Electron.title m) = false
             /\ Electron.song_changed m c = true
             /\ Electron.session_id c = None)
  /\ (existsb Observe.is_end calls = true -> existsb Observe.is_create calls = false).
Proof.
  cbv zeta.
  assert (Hstop : existsb Observe.is_create (snd (Electron.on_stopped discord c)) = false).
  { unfold Electron.on_stopped. destruct (_ || _)%bool; [|reflexivity].
    destruct (Electron.session_id c); reflexivity. }
  unfold Electron.poll. destruct media as [m|].
  - destruct (Js.truthy_str (Some (Electron.title m))) eqn:Et; cbn [andb].
    + destruct (Electron.isPlaceholder (Electron.title m)) eqn:Ep; cbn [negb].
      * rewrite Hstop. split; [|auto]. split; [discriminate|].
        intros (m' & [= <-] & _ & H & _). congruence.
      * pose proof (on_song_change_creates discord now created m c) as [H1 H1'].
        destruct (Electron.on_song_change discord now created m c) as [c1 k1].
        pose proof (on_play_state_no_create discord now m c1) as [H2 H2'].
        destruct (Electron.on_play_state discord now m c1) as [c2 k2].
        destruct (heartbeat_no_create m c2) as [H3 H3'].
        cbn [snd] in *. rewrite !existsb_app, H1, H2, H3, H1', H2', H3', !orb_false_r.
        split; [|discriminate]. split.
        -- intros H. apply andb_true_iff in H as [Hc Hs]. exists m.
           apply truthy_str_true in Et.
           destruct (Electron.session_id c); [discriminate|]. auto.
        -- intros (m' & [= <-] & _ & _ & -> & ->). reflexivity.
    + rewrite Hstop. split; [|auto]. split; [discriminate|].
      intros (m' & [= <-] & H & _). apply truthy_str_true in H. congruence.
  - rewrite Hstop. split; [|auto]. split; [discriminate|].
    intros (m' & H & _). discriminate.
Qed.

Lemma poll_creates_session_when_witness :
  existsb Observe.is_create
    (snd (Electron.poll Electron.Ready 5000 (Some "s1")
            (Some (Electron.mkMedia "Hello" "Adele" "playing" 10 295))
            (Electron.mkClient "" false None None))) = true.
Proof.
  destruct (poll_creates_session_when Electron.Ready 5000 (Some "s1")
              (Some (Electron.mkMedia "Hello" "Adele" "playing" 10 295))
              (Electron.mkClient "" false None None)) as [H _].
  apply H. eexists. split; [reflexivity|].
  split; [discriminate|]. repeat split; reflexivity.
Defined.

Lemma on_song_change_lastPlayingState discord now created m c :
  Electron.lastPlayingState (fst (Electron.on_song_change discord now created m c))
  = Electron.lastPlayingState c.
Proof.
  unfold Electron.on_song_change. destruct (Electron.song_changed m c); [|reflexivity].
  destruct (Electron.session_id _); cbn [fst];
    destruct (Electron.isPlaying m); rewrite ?setDiscordPresence_frame; reflexivity.
Qed.

(** X22.  Adaptive polling of the Electron loop.  After a poll that
    sees a real title the remembered play state is the one just seen,
    so the loop sleeps 3 s after a playing snapshot and 10 s after a
    paused one. *)
Theorem poll_tracks_play_state discord now created m c :
  Electron.title m <> "" ->
  Electron.isPlaceholder (Electron.title m) = false ->
  let c' := fst (Electron.poll discord now created (Some m) c) in
  Electron.lastPlayingState c' = Electron.isPlaying m
  /\ Observe.sleep_ms c' = if Electron.isPlaying m then 3000 else 10000.
Proof.
  intros Ht Hp. cbv zeta.
  assert (H : Electron.lastPlayingState
                (fst (Electron.poll discord now created (Some m) c))
              = Electron.isPlaying m).
  { unfold Electron.poll. rewrite (proj2 (truthy_str_true _) Ht), Hp. cbn [negb andb].
    pose proof (on_song_change_lastPlayingState discord now created m c) as H1.
    destruct (Electron.on_song_change discord now created m c) as [c1 k1].
    cbn [fst] in H1.
    assert (H2 : Electron.lastPlayingState (fst (Electron.on_play_state discord now m c1))
                 = Electron.isPlaying m).
    { unfold Electron.on_play_state.
      destruct (Electron.isPlaying m) eqn:Ei, (Electron.lastPlayingState c1) eqn:El;
        cbn; rewrite ?El, ?setDiscordPresence_frame; try reflexivity.
      destruct (clearDiscordPresence_session discord
                  (Electron.set_lastPlayingState false c1)) as (_ & _ & ->). reflexivity. }
    destruct (Electron.on_play_state discord now m c1) as [c2 k2]. exact H2. }
  split; [exact H|]. unfold Observe.sleep_ms. rewrite H. reflexivity.
Qed.

Lemma poll_tracks_play_state_witness :
  Observe.sleep_ms
    (fst (Electron.poll Electron.Ready 5000 None
            (Some (Electron.mkMedia "Hello" "Adele" "paused" 10 295))
            (Electron.mkClient "Hello|Adele" true (Some "s1") (Some (-5, Some 290)))))
  = 10000.
Proof.
  destruct (poll_tracks_play_state Electron.Ready 5000 None
              (Electron.mkMedia "Hello" "Adele" "paused" 10 295)
              (Electron.mkClient "Hello|Adele" true (Some "s1") (Some (-5, Some 290))))
    as [_ H]; [discriminate|reflexivity|exact H].
Defined.

(** ** Letter case *)

Lemma lower_char_facts c :
  Str.lower_char (Str.lower_char c) = Str.lower_char c
  /\ Str.is_space (Str.lower_char c) = Str.is_space c.
Proof.
  destruct c as [b0 b1 b2 b3 b4 b5 b6 b7].
  destruct b0, b1, b2, b3, b4, b5, b6, b7; split; reflexivity.
Qed.

Lemma toLowerCase_idem s : Str.toLowerCase (Str.toLowerCase s) = Str.toLowerCase s.
Proof.
  induction s as [|c s IH]; cbn; [reflexivity|].
  rewrite IH, (proj1 (lower_char_facts c)). reflexivity.
Qed.

Lemma toLowerCase_length s : String.length (Str.toLowerCase s) = String.length s.
Proof. induction s as [|c s IH]; cbn; [reflexivity|]. rewrite IH. reflexivity. Qed.

Lemma toLowerCase_all_space s : Str.all_space (Str.toLowerCase s) = Str.all_space s.
Proof.
  induction s as [|c s IH]; cbn; [reflexivity|].
  rewrite IH, (proj2 (lower_char_facts c)). reflexivity.
Qed.

Lemma toLowerCase_empty s : String.eqb (Str.toLowerCase s) "" = String.eqb s "".
Proof. destruct s; reflexivity. Qed.

Lemma isPlaceholder_lower t :
  Electron.isPlaceholder (Str.toLowerCase t) = Electron.isPlaceholder t.
Proof.
  unfold Electron.isPlaceholder, Js.truthy_str, Str.len.
  rewrite toLowerCase_empty, toLowerCase_idem, toLowerCase_length. reflexivity.
Qed.

Lemma IsPlaceholderText_lower t :
  Windows.IsPlaceholderText (Some (Str.toLowerCase t)) = Windows.IsPlaceholderText (Some t).
Proof.
  unfold Windows.IsPlaceholderText, Windows.IsNullOrWhiteSpace, Str.len.
  rewrite toLowerCase_all_space, toLowerCase_idem, toLowerCase_length. reflexivity.
Qed.

(** X23.  On ASCII texts both placeholder classifiers ignore letter
    case: two such texts that are equal after lower-casing are
    classified alike. *)
Theorem placeholder_ignores_case t t' :
  Str.is_ascii t = true -> Str.is_ascii t' = true ->
  Str.toLowerCase t = Str.toLowerCase t' ->
  Electron.isPlaceholder t = Electron.isPlaceholder t'
  /\ Windows.IsPlaceholderText (Some t) = Windows.IsPlaceholderText (Some t').
Proof.
  intros _ _ H. split.
  - rewrite <- (isPlaceholder_lower t), <- (isPlaceholder_lower t'), H. reflexivity.
  - rewrite <- (IsPlaceholderText_lower t), <- (IsPlaceholderText_lower t'), H. reflexivity.
Qed.

Lemma placeholder_ignores_case_witness :
  Electron.isPlaceholder "LOADING..." = Electron.isPlaceholder "loading..."
  /\ Windows.IsPlaceholderText (Some "LOADING...")
     = Windows.IsPlaceholderText (Some "loading...").
Proof. apply placeholder_ignores_case; reflexivity. Defined.

(** * Further properties of the Windows client *)

Lemma IsAllowedMusicApp_lower a :
  Windows.IsAllowedMusicApp (Some (Str.toLowerCase a)) = Windows.IsAllowedMusicApp (Some a).
Proof.
  unfold Windows.IsAllowedMusicApp, Windows.IsNullOrWhiteSpace.
  rewrite toLowerCase_all_space, toLowerCase_idem. reflexivity.
Qed.

Lemma GetFriendlyAppName_lower a :
  Windows.GetFriendlyAppName (Some (Str.toLowerCase a)) = Windows.GetFriendlyAppName (Some a).
Proof.
  unfold Windows.GetFriendlyAppName, Windows.IsNullOrWhiteSpace.
  rewrite toLowerCase_all_space, toLowerCase_idem. reflexivity.
Qed.

Lemma includes_app_r s pre sub : Str.includes (pre ++ sub ++ s) sub = true.
Proof.
  induction pre as [|c pre IH].
  - change ("" ++ sub ++ s) with (sub ++ s).
    assert (Hp : forall p x, String.prefix p (p ++ x) = true).
    { induction p as [|a p IHp]; intros x; [destruct x; reflexivity|].
      change (String a p ++ x) with (String a (p ++ x)).
      change (String.prefix (String a p) (String a (p ++ x)))
        with (if ascii_dec a a then String.prefix p (p ++ x) else false).
      destruct (ascii_dec a a); [apply IHp|contradiction]. }
    destruct (sub ++ s) eqn:E; cbn [Str.includes]; rewrite <- E, Hp; reflexivity.
  - change (String c pre ++ sub ++ s) with (String c (pre ++ sub ++ s)).
    cbn [Str.includes]. rewrite IH. destruct (String.prefix _ _); reflexivity.
Qed.

(** X24.  The whitelist test and the friendly name of the Windows
    client look at the lower-cased identifier only: identifiers that
    differ in letter case get the same verdict and the same name.  A
    null or blank identifier is never allowed and is named "Music", and
    every identifier that contains "spotify" in any letter case is
    allowed and named "Spotify". *)
Theorem whitelist_ignores_case :
  (forall a a', Str.toLowerCase a = Str.toLowerCase a' ->
     Windows.IsAllowedMusicApp (Some a) = Windows.IsAllowedMusicApp (Some a')
     /\ Windows.GetFriendlyAppName (Some a) = Windows.GetFriendlyAppName (Some a'))
  /\ (forall a, Windows.IsNullOrWhiteSpace a = true ->
        Windows.IsAllowedMusicApp a = false /\ Windows.GetFriendlyAppName a = "Music")
  /\ (forall a pre post, Str.toLowerCase a = pre ++ "spotify" ++ post ->
        Windows.IsAllowedMusicApp (Some a) = true
        /\ Windows.GetFriendlyAppName (Some a) = "Spotify").
Proof.
  split; [|split].
  - intros a a' H. split.
    + rewrite <- (IsAllowedMusicApp_lower a), <- (IsAllowedMusicApp_lower a'), H. reflexivity.
    + rewrite <- (GetFriendlyAppName_lower a), <- (GetFriendlyAppName_lower a'), H.
      reflexivity.
  - intros [a|] H; [|auto].
    unfold Windows.IsAllowedMusicApp, Windows.GetFriendlyAppName. rewrite H. auto.
  - intros a pre post H.
    assert (Hns : Str.all_space a = false).
    { rewrite <- toLowerCase_all_space, H. clear H.
      induction pre as [|c pre IH]; [reflexivity|].
      change (String c pre ++ "spotify" ++ post) with (String c (pre ++ "spotify" ++ post)).
      cbn [Str.all_space]. rewrite IH. apply andb_false_r. }
    unfold Windows.IsAllowedMusicApp, Windows.GetFriendlyAppName, Windows.IsNullOrWhiteSpace.
    rewrite Hns, H. cbn [existsb Windows.AllowedApps].
    change (Str.toLowerCase "spotify") with "spotify".
    rewrite includes_app_r. auto.
Qed.

Lemma whitelist_ignores_case_witness :
  Windows.IsAllowedMusicApp (Some "SpotifyAB.SpotifyMusic_zpdnekdrzrea0!Spotify") = true
  /\ Windows.GetFriendlyAppName (Some "SpotifyAB.SpotifyMusic_zpdnekdrzrea0!Spotify")
     = "Spotify".
Proof.
  destruct whitelist_ignores_case as (_ & _ & H).
  apply (H _ "" "ab.spotifymusic_zpdnekdrzrea0!spotify"). reflexivity.
Defined.

Lemma scan_from_spec found l :
  Scan.scan_from found l =
  match List.find (fun m => (Scan.allowed m && Scan.is_playing m)%bool) l with
  | Some m => Some (m, true)
  | None =>
      match found with
      | Some x => Some x
      | None => option_map (fun m => (m, false))
                  (List.find (fun m => (Scan.allowed m && Scan.is_paused m)%bool) l)
      end
  end.
Proof.
  revert found. induction l as [|m l IH]; intros found.
  - destruct found; reflexivity.
  - cbn [Scan.scan_from List.find].
    destruct (Scan.allowed m); cbn [negb andb]; [|apply IH].
    destruct (Scan.is_playing m) eqn:Ep; [reflexivity|].
    destruct found as [x|]; [apply IH|].
    destruct (Scan.is_paused m); [|apply IH].
    rewrite IH. destruct (List.find _ l); reflexivity.
Qed.

(** X25.  The session scan of the Windows loop.  The loop with its
    early exit selects the first whitelisted session that is playing,
    wherever it stands in the list; when no whitelisted session is
    playing it selects the first whitelisted session that is paused;
    otherwise nothing.  A session that is not whitelisted is never
    selected. *)
Theorem scan_prefers_playing l :
  Scan.scan l =
  match List.find (fun m => (Scan.allowed m && Scan.is_playing m)%bool) l with
  | Some m => Some (m, true)
  | None => option_map (fun m => (m, false))
              (List.find (fun m => (Scan.allowed m && Scan.is_paused m)%bool) l)
  end
  /\ (forall m playing, Scan.scan l = Some (m, playing) ->
        In m l /\ Scan.allowed m = true
        /\ (if playing then Scan.is_playing m = true else Scan.is_paused m = true)).
Proof.
  assert (E := scan_from_spec None l). split; [exact E|].
  intros m playing H. unfold Scan.scan in H. rewrite E in H.
  destruct (List.find (fun m => (Scan.allowed m && Scan.is_playing m)%bool) l) as [x|] eqn:F.
  - injection H as <- <-. apply find_some in F as [Hin Hx].
    apply andb_true_iff in Hx as [Ha Hp]. auto.
  - destruct (List.find (fun m => (Scan.allowed m && Scan.is_paused m)%bool) l) as [x|] eqn:G;
      [|discriminate].
    injection H as <- <-. apply find_some in G as [Hin Hx].
    apply andb_true_iff in Hx as [Ha Hp]. auto.
Qed.

Lemma scan_prefers_playing_witness :
  Scan.scan [ Scan.mkMediaSession "chrome.exe" Scan.Playing;
              Scan.mkMediaSession "vlc.exe" Scan.Paused;
              Scan.mkMediaSession "Spotify.exe" Scan.Playing ]
  = Some (Scan.mkMediaSession "Spotify.exe" Scan.Playing, true).
Proof.
  destruct (scan_prefers_playing
              [ Scan.mkMediaSession "chrome.exe" Scan.Playing;
                Scan.mkMediaSession "vlc.exe" Scan.Paused;
                Scan.mkMediaSession "Spotify.exe" Scan.Playing ]) as [H _].
  rewrite H. reflexivity.
Defined.

(** ** Sessions and the active app *)

Lemma resolve_frame a tl r :
  let r' := snd (Windows.resolve a tl r) in
  Windows.currentSessionId (Windows.st r') = Windows.currentSessionId (Windows.st r)
  /\ Windows.currentAppId (Windows.st r') = Windows.currentAppId (Windows.st r)
  /\ Windows.lastSongId (Windows.st r') = Windows.lastSongId (Windows.st r)
  /\ Windows.lastPlayingState (Windows.st r') = Windows.lastPlayingState (Windows.st r).
Proof. cbv zeta. unfold Windows.resolve. cbn. auto. Qed.

Lemma on_play_state_session obs r :
  Windows.currentSessionId (Windows.st (Windows.on_play_state obs r))
  = Windows.currentSessionId (Windows.st r)
  /\ Windows.currentAppId (Windows.st (Windows.on_play_state obs r))
     = Windows.currentAppId (Windows.st r).
Proof.
  unfold Windows.on_play_state. destruct obs as [a|]; [|auto].
  destruct (Windows.currentSessionId (Windows.st r)) eqn:E; [|auto].
  destruct (negb _); [|auto]. unfold Windows.read, Windows.resolve. cbn. auto.
Qed.

Lemma on_song_session a tl d r :
  Windows.currentSessionId (Windows.st (Windows.on_song a tl d r))
  = Windows.currentSessionId (Windows.st r)
  /\ Windows.currentAppId (Windows.st (Windows.on_song a tl d r))
     = Windows.currentAppId (Windows.st r).
Proof.
  unfold Windows.on_song, Windows.upd, Windows.emit.
  destruct (negb _); cbn [Windows.st];
    destruct r as [c n l]; destruct c; cbn;
    match goal with |- context [match ?x with Some _ => _ | None => _ end] => destruct x end;
    cbn; auto.
Qed.

Lemma on_active_session now obs r :
  Windows.currentSessionId (Windows.st (Windows.on_active now obs r))
  = Windows.currentSessionId (Windows.st r)
  /\ Windows.currentAppId (Windows.st (Windows.on_active now obs r))
     = Windows.currentAppId (Windows.st r).
Proof.
  destruct obs as [a|]; [|unfold Windows.on_active; auto].
  rewrite on_active_st. destruct (Windows.isValidSong a); [|auto].
  cbv zeta. rewrite on_presence_st.
  set (tl := Windows.timeline a _).
  set (rr := Windows.resolve a tl _).
  destruct (on_song_session a tl (fst rr) (snd rr)) as [H1 H2].
  destruct (resolve_frame a tl (snd (Windows.read a r))) as (H3 & H4 & _).
  fold rr in H3, H4. cbn in H3, H4.
  destruct (_ && _)%bool; cbn; rewrite ?H1, ?H2, ?H3, ?H4; auto.
Qed.

(** A turn that sees the app the loop already follows neither creates
    nor ends a session. *)
Lemma turn_same_app_session now created obs c :
  Windows.app_changed obs c = false ->
  Windows.currentSessionId (fst (Windows.turn now created obs c)) = Windows.currentSessionId c
  /\ Windows.currentAppId (fst (Windows.turn now created obs c)) = Windows.currentAppId c.
Proof.
  intros H. unfold Windows.turn. rewrite on_app_change_same by exact H.
  cbn [fst Windows.st Windows.emit].
  destruct (on_active_session now obs (Windows.on_play_state obs (Windows.mkRun c 0 [])))
    as [-> ->].
  apply (on_play_state_session obs (Windows.mkRun c 0 [])).
Qed.

Lemma run_follows app turns c :
  Forall (Observe.follows app) turns ->
  Windows.currentAppId c = Some app ->
  Windows.currentSessionId (Scan.run turns c) = Windows.currentSessionId c
  /\ Windows.currentAppId (Scan.run turns c) = Some app.
Proof.
  intros HF. revert c. induction HF as [|[[now created] obs] turns Hx HF IH]; intros c Hc.
  - auto.
  - cbn [Scan.run]. unfold Observe.follows in Hx. cbn [snd] in Hx.
    destruct obs as [a|]; [|contradiction].
    assert (Hsame : Windows.app_changed (Some a) c = false).
    { unfold Windows.app_changed. cbn. rewrite Hc, Hx. cbn.
      rewrite String.eqb_refl. reflexivity. }
    destruct (turn_same_app_session now created (Some a) c Hsame) as [H1 H2].
    destruct (IH (fst (Windows.turn now created (Some a) c))) as [H3 H4]; [congruence|].
    split; congruence.
Qed.

(** X26.  Sessions are created on an app change only.  While the
    active app stays the one the loop follows, however many turns pass
    and whatever they see, the session identifier is neither set nor
    cleared.  In particular, when the first snapshot of a new app is a
    placeholder the loop remembers the app without a session, and no
    session is created for as long as that app stays the active one. *)
Theorem session_follows_app_change :
  (forall app turns c,
     Forall (Observe.follows app) turns ->
     Windows.currentAppId c = Some app ->
     Windows.currentSessionId (Scan.run turns c) = Windows.currentSessionId c)
  /\ (forall now created a turns c,
        Windows.app_changed (Some a) c = true ->
        (Windows.IsPlaceholderText (Windows.Title a)
         || Windows.IsPlaceholderText (Windows.Artist a))%bool = true ->
        Forall (Observe.follows (Windows.appId a)) turns ->
        Windows.currentSessionId (Scan.run ((now, created, Some a) :: turns) c) = None).
Proof.
  split.
  - intros app turns c HF Hc. apply (run_follows app turns c HF Hc).
  - intros now created a turns c Hch Hph HF. cbn [Scan.run].
    assert (E : fst (Windows.turn now created (Some a) c) =
                Windows.set_lastPlayingState (Windows.isPlaying a)
                  (Windows.set_currentAppId (Some (Windows.appId a))
                     (match Windows.currentSessionId c with
                      | Some _ => Windows.set_currentSessionId None c
                      | None => c
                      end))).
    { unfold Windows.turn, Windows.on_app_change. cbn [Windows.st]. rewrite Hch, Hph.
      destruct (Windows.currentSessionId c); reflexivity. }
    rewrite E. clear E.
    set (c1 := Windows.set_lastPlayingState _ _).
    assert (Ha : Windows.currentAppId c1 = Some (Windows.appId a)).
    { subst c1. destruct (Windows.currentSessionId c); reflexivity. }
    assert (Hs : Windows.currentSessionId c1 = None).
    { subst c1. destruct (Windows.currentSessionId c) eqn:Ec; cbn; rewrite ?Ec; reflexivity. }
    destruct (run_follows (Windows.appId a) turns c1 HF Ha) as [-> _]. exact Hs.
Qed.

Lemma session_follows_app_change_witness :
  Windows.currentSessionId
    (Scan.run
       [ (1000, Some "s1",
          Some (Windows.mkActive "Spotify.exe" true (Some "Loading...") (Some "Spotify")
                  (fun _ => Windows.mkTimeline 0 0)));
         (2000, Some "s2", Some (karma_police 5000));
         (5000, Some "s3", Some (karma_police 8000)) ]
       Windows.initial) = None.
Proof.
  destruct session_follows_app_change as [_ H].
  apply H; [reflexivity | reflexivity |].
  repeat constructor.
Defined.

(** X27.  Whatever the loop sees, the presence timer it holds is either
    absent or has its end after its start. *)
Theorem timer_always_in_order turns :
  Windows.timer_ok (Windows.timer (Scan.run turns Windows.initial)).
Proof.
  assert (H : forall c, Windows.timer_ok (Windows.timer c) ->
                        Windows.timer_ok (Windows.timer (Scan.run turns c))).
  { induction turns as [|[[now created] obs] turns IH]; intros c Hc; [exact Hc|].
    cbn [Scan.run]. apply IH, turn_timer_ok, Hc. }
  apply H. exact I.
Qed.

(** ** Durations on the Windows client *)

(** X28.  Bounds of the duration resolution.  The value returned is
    never negative, and it is 0 only when the timeline handed in, the
    three rereads and the cached value all failed to give a positive
    duration; the timeline is read again at most three times and the
    pauses add up to at most 600 ms; a cache that is not negative stays
    so. *)
Theorem GetValidDuration_bounds lastKnownDuration first reread :
  let r := Windows.GetValidDuration lastKnownDuration first reread in
  0 <= Windows.duration r
  /\ (Windows.duration r = 0 ->
      first <= 0 /\ reread 0%nat <= 0 /\ reread 1%nat <= 0 /\ reread 2%nat <= 0
      /\ lastKnownDuration <= 0)
  /\ (Windows.rereads r <= 3)%nat
  /\ fold_right Z.add 0 (Windows.delays r) <= 600
  /\ (0 <= lastKnownDuration -> 0 <= Windows.cache r).
Proof.
  cbv zeta. unfold Windows.GetValidDuration.
  destruct (Z.ltb_spec 0 first); cbn; [repeat split; lia|].
  destruct (Z.ltb_spec 0 (reread 0%nat)); cbn; [repeat split; lia|].
  destruct (Z.ltb_spec 0 (reread 1%nat)); cbn; [repeat split; lia|].
  destruct (Z.ltb_spec 0 (reread 2%nat)); cbn; [repeat split; lia|].
  destruct (Z.ltb_spec 0 lastKnownDuration); cbn; repeat split; lia.
Qed.

Lemma GetValidDuration_bounds_witness :
  Windows.duration (Windows.GetValidDuration 0 0 (fun _ => 0)) = 0
  /\ 0 <= 0 /\ 0 <= 0 /\ 0 <= 0 /\ 0 <= 0 /\ 0 <= 0.
Proof.
  split; [reflexivity|].
  destruct (GetValidDuration_bounds 0 0 (fun _ => 0)) as (_ & H & _).
  specialize (H eq_refl). lia.
Defined.

Lemma GetValidDuration_nonneg k f reread :
  0 <= Windows.duration (Windows.GetValidDuration k f reread)
  /\ (0 <= k -> 0 <= Windows.cache (Windows.GetValidDuration k f reread)).
Proof.
  unfold Windows.GetValidDuration.
  destruct (Z.ltb_spec 0 f); cbn; [split; lia|].
  destruct (Z.ltb_spec 0 (reread 0%nat)); cbn; [split; lia|].
  destruct (Z.ltb_spec 0 (reread 1%nat)); cbn; [split; lia|].
  destruct (Z.ltb_spec 0 (reread 2%nat)); cbn; [split; lia|].
  destruct (Z.ltb_spec 0 k); cbn; split; lia.
Qed.

Lemma run_ok_emit e r :
  Observe.duration_ok e -> Observe.run_ok r -> Observe.run_ok (Windows.emit e r).
Proof.
  intros He [H1 H2]. split; [exact H1|]. cbn. apply Forall_app. split; [exact H2|].
  constructor; [exact He|constructor].
Qed.

Lemma run_ok_upd f r :
  (forall c, Windows.lastKnownDuration (f c) = Windows.lastKnownDuration c) ->
  Observe.run_ok r -> Observe.run_ok (Windows.upd f r).
Proof. intros Hf [H1 H2]. split; [cbn; rewrite Hf; exact H1|exact H2]. Qed.

Lemma run_ok_read a r : Observe.run_ok r -> Observe.run_ok (snd (Windows.read a r)).
Proof. intros H. exact H. Qed.

Lemma run_ok_resolve a tl r :
  Observe.run_ok r ->
  0 <= fst (Windows.resolve a tl r) /\ Observe.run_ok (snd (Windows.resolve a tl r)).
Proof.
  intros [H1 H2]. unfold Windows.resolve. cbn [fst snd].
  match goal with |- context [Windows.GetValidDuration ?k ?f ?g] =>
    destruct (GetValidDuration_nonneg k f g) as [Hd Hc] end.
  split; [exact Hd|]. split; [cbn; auto|].
  cbn. apply Forall_app. split; [exact H2|].
  apply Forall_forall. intros e He. apply list_elem_of_In, in_map_iff in He as (x & <- & _). exact I.
Qed.

Ltac run_ok_step :=
  first [ apply run_ok_emit; [first [exact I | cbn; assumption]|]
        | apply run_ok_upd; [intros; reflexivity|] ].

Lemma run_ok_on_app_change created obs r :
  Observe.run_ok r -> Observe.run_ok (fst (Windows.on_app_change created obs r)).
Proof.
  intros H. unfold Windows.on_app_change.
  destruct (Windows.app_changed obs (Windows.st r)); [|exact H].
  set (r1 := match Windows.currentSessionId (Windows.st r) with
             | Some id => _ | None => r end).
  assert (H1 : Observe.run_ok r1).
  { subst r1. destruct (Windows.currentSessionId (Windows.st r)); [|exact H].
    repeat run_ok_step. exact H. }
  clearbody r1. destruct obs as [a|].
  - destruct (_ || _)%bool; cbn [fst].
    + repeat run_ok_step. exact H1.
    + destruct (Windows.read a r1) as [tl r2] eqn:Er.
      assert (H2 : Observe.run_ok r2).
      { change r2 with (snd (tl, r2)). rewrite <- Er. apply run_ok_read, H1. }
      destruct (Windows.resolve a tl r2) as [d r3] eqn:Es.
      destruct (run_ok_resolve a tl r2 H2) as [Hd H3]. rewrite Es in Hd, H3.
      cbn [fst snd] in Hd, H3. cbn [fst].
      destruct created; repeat run_ok_step; exact H3.
  - cbn [fst]. destruct H1 as [_ Hl]. split; [cbn; lia|exact Hl].
Qed.

Lemma run_ok_on_play_state obs r :
  Observe.run_ok r -> Observe.run_ok (Windows.on_play_state obs r).
Proof.
  intros H. unfold Windows.on_play_state. destruct obs as [a|]; [|exact H].
  destruct (Windows.currentSessionId (Windows.st r)); [|exact H].
  destruct (negb _); [|exact H].
  destruct (Windows.read a r) as [tl r1] eqn:Er.
  assert (H1 : Observe.run_ok r1).
  { change r1 with (snd (tl, r1)). rewrite <- Er. apply run_ok_read, H. }
  destruct (Windows.resolve a tl r1) as [d r2] eqn:Es.
  destruct (run_ok_resolve a tl r1 H1) as [Hd H2]. rewrite Es in Hd, H2.
  cbn [fst snd] in Hd, H2.
  repeat run_ok_step. exact H2.
Qed.

Lemma run_ok_on_song a tl d r :
  0 <= d -> Observe.run_ok r -> Observe.run_ok (Windows.on_song a tl d r).
Proof.
  intros Hd H. unfold Windows.on_song. destruct (negb _).
  - run_ok_step.
    set (r1 := Windows.upd _ r).
    assert (H1 : Observe.run_ok r1).
    { subst r1. destruct H as [_ Hl]. split; [cbn; exact Hd|exact Hl]. }
    clearbody r1. destruct (Windows.currentSessionId (Windows.st r1)); [|exact H1].
    repeat run_ok_step. exact H1.
  - destruct (Windows.currentSessionId (Windows.st r)); [|exact H].
    repeat run_ok_step. exact H.
Qed.

Lemma run_ok_on_presence now a tl d r :
  Observe.run_ok r -> Observe.run_ok (fst (Windows.on_presence now a tl d r)).
Proof.
  intros H. unfold Windows.on_presence. destruct (Windows.isPlaying a).
  - set (r1 := if Windows.must_recompute _ _ then _ else r).
    assert (H1 : Observe.run_ok r1).
    { subst r1. destruct (Windows.must_recompute _ _); [|exact H].
      run_ok_step. exact H. }
    clearbody r1.
    destruct (Windows.presenceStartTime (Windows.st r1)),
             (Windows.presenceEndTime (Windows.st r1)); cbn [fst];
      try exact H1. run_ok_step. exact H1.
  - cbn [fst]. run_ok_step. exact H.
Qed.

Lemma run_ok_on_active now obs r :
  Observe.run_ok r -> Observe.run_ok (Windows.on_active now obs r).
Proof.
  intros H. unfold Windows.on_active.
  assert (Hc : forall p : Windows.Run * bool, Observe.run_ok (fst p) ->
             Observe.run_ok (let '(r', presenceSet) := p in
                             if presenceSet then r' else Windows.emit Windows.ClearPresence r')).
  { intros [r' [|]] Hp; cbn [fst] in Hp; [exact Hp|]. run_ok_step. exact Hp. }
  apply Hc. destruct obs as [a|]; [|exact H].
  destruct (Windows.isValidSong a); [|exact H].
  destruct (Windows.read a r) as [tl r1] eqn:Er.
  assert (H1 : Observe.run_ok r1).
  { change r1 with (snd (tl, r1)). rewrite <- Er. apply run_ok_read, H. }
  destruct (Windows.resolve a tl r1) as [d r2] eqn:Es.
  destruct (run_ok_resolve a tl r1 H1) as [Hd H2]. rewrite Es in Hd, H2.
  cbn [fst snd] in Hd, H2.
  apply run_ok_on_presence, run_ok_on_song; assumption.
Qed.

(** X29.  No call of the Windows client carries a negative duration.
    Starting a turn with a cached duration that is not negative, every
    CreateSession and UpdateSession of the turn carries a duration that
    is not negative, whatever the media timeline reports, and the cache
    is not negative afterwards. *)
Theorem turn_sends_no_negative_duration now created obs c :
  0 <= Windows.lastKnownDuration c ->
  0 <= Windows.lastKnownDuration (fst (Windows.turn now created obs c))
  /\ (forall e d, In e (snd (Windows.turn now created obs c)) ->
        Observe.sent_duration e = Some d -> 0 <= d).
Proof.
  intros Hc.
  assert (H0 : Observe.run_ok (Windows.mkRun c 0 [])) by (split; [exact Hc|constructor]).
  assert (H : Observe.run_ok
                (Windows.mkRun (fst (Windows.turn now created obs c))
                   0 (snd (Windows.turn now created obs c)))).
  { unfold Windows.turn.
    pose proof (run_ok_on_app_change created obs _ H0) as H1.
    destruct (Windows.on_app_change created obs (Windows.mkRun c 0 [])) as [r1 skip].
    cbn [fst] in H1. destruct skip; cbn [fst snd].
    - destruct H1 as [Ha Hb]. split; assumption.
    - pose proof (run_ok_on_active now obs _ (run_ok_on_play_state obs _ H1)) as H2.
      destruct H2 as [Ha Hb]. split; [exact Ha|]. cbn.
      apply Forall_app. split; [exact Hb|]. constructor; [exact I|constructor]. }
  destruct H as [Ha Hb]. split; [exact Ha|].
  intros e d Hin Hd. cbn in Hb. rewrite Forall_forall in Hb.
  specialize (Hb e (proj2 (list_elem_of_In _ _) Hin)). unfold Observe.duration_ok in Hb. rewrite Hd in Hb. exact Hb.
Qed.

Lemma turn_sends_no_negative_duration_witness :
  0 <= Windows.lastKnownDuration
         (fst (Windows.turn 1000 (Some "s1") (Some (karma_police 1000)) Windows.initial)).
Proof.
  apply (turn_sends_no_negative_duration 1000 (Some "s1") (Some (karma_police 1000))
           Windows.initial).
  cbn. lia.
Defined.
